(** * BookWorm: a PDF text-to-speech reader

    A shallow embedding of [src/main.py] (class [PDFReader]) and the
    properties of its segmentation, narration task, bookmark store, text
    extraction and playback controller.

    Conventions of the embedding:
    - a Python [str] is the list of its code points ([pystr]);
    - a Python [int] is a [Z];
    - a method that can raise returns an [outcome]; methods of the
      controller thread the reader's state explicitly;
    - the narration thread observes the two [Event] flags through a
      schedule of snapshots, one per [is_set()] call;
    - whether a running thread has ended when [is_alive()] is called is
      given by a list of answers, one per call: the command loop is
      followed for that many calls, and what is proved of the controller
      holds for every list of answers;
    - [int] on a string and, in the search functions, [str.lower] are
      parameters of the model: their Unicode tables belong to the
      interpreter. *)

From Stdlib Require Import ZArith NArith List Lia Bool Ascii String DecimalString.
From stdpp Require Import base option list gmap.
Import ListNotations.

Local Open Scope Z_scope.
Local Set Warnings "-register-all".

(* ===================================================================== *)
(** ** Python strings *)
(* ===================================================================== *)

Module PyStr.

(** A code point. *)
Definition char := N.

(** A Python [str]. *)
Definition pystr := list char.

(** A literal: every character of the Rocq string is one code point. *)
Definition py (s : string) : pystr :=
  map N_of_ascii (list_ascii_of_string s).

(** The line feed, written [\n] in the source. *)
Definition LF : char := 10%N.

(** [c.isspace()]: the code points CPython's [_PyUnicode_IsWhitespace]
    accepts; [str.strip()] without argument removes exactly these. *)
Definition isspace (c : char) : bool :=
  ((9 <=? c) && (c <=? 13) || (28 <=? c) && (c <=? 32)
   || (c =? 133) || (c =? 160) || (c =? 5760)
   || (8192 <=? c) && (c <=? 8202)
   || (c =? 8232) || (c =? 8233) || (c =? 8239) || (c =? 8287)
   || (c =? 12288))%N.

(** [s.lstrip()]. *)
Fixpoint lstrip (s : pystr) : pystr :=
  match s with
  | [] => []
  | c :: s' => if isspace c then lstrip s' else s
  end.

(** [s.rstrip()]. *)
Definition rstrip (s : pystr) : pystr := rev (lstrip (rev s)).

(** [s.strip()]. *)
Definition strip (s : pystr) : pystr := rstrip (lstrip s).

(** Truthiness of a [str]: non-empty. *)
Definition truthy (s : pystr) : bool :=
  match s with [] => false | _ :: _ => true end.

(** [s.lower()] on the ASCII letters.  The controller only compares the
    lowered command with one-letter ASCII commands, and no code point
    outside ASCII lowers to one of those letters. *)
Definition lower_char (c : char) : char :=
  if ((65 <=? c) && (c <=? 90))%N then (c + 32)%N else c.

Definition lower (s : pystr) : pystr := map lower_char s.

(** [str(n)] for an [int], as an f-string renders it. *)
Definition str_of_int (n : Z) : pystr :=
  py (NilZero.string_of_int (Z.to_int n)).

(** Value of an ASCII decimal digit. *)
Definition digit_value (c : char) : option Z :=
  if ((48 <=? c) && (c <=? 57))%N then Some (Z.of_N c - 48) else None.

Definition UNDERSCORE : char := 95%N.
Definition PLUS : char := 43%N.
Definition MINUS : char := 45%N.

(** The digits of an [int] literal given to [int()]: a digit, then
    digits each optionally preceded by one underscore.  [acc] is the
    value read so far and [sep] tells that an underscore was just read. *)
Fixpoint int_digits (acc : Z) (sep : bool) (s : pystr) : option Z :=
  match s with
  | [] => if sep then None else Some acc
  | c :: s' =>
      match digit_value c with
      | Some d => int_digits (10 * acc + d) false s'
      | None =>
          if (c =? UNDERSCORE)%N
          then (if sep then None else int_digits acc true s')
          else None
      end
  end.

Definition int_unsigned (s : pystr) : option Z :=
  match s with
  | [] => None
  | c :: s' =>
      match digit_value c with
      | Some d => int_digits d false s'
      | None => None
      end
  end.

(** The ASCII decimal numerals [int(s)] reads: surrounding white space
    is ignored, one sign is allowed; [None] where this reading gives
    no number.  It is the instance of [int] the examples run on: they
    use short ASCII entries only.  [int] itself also reads the other
    decimal digits of Unicode and refuses numerals longer than the
    interpreter's limit; the controller is modelled for whatever [int]
    computes (see [py_int] below). *)
Definition ascii_int (s : pystr) : option Z :=
  match strip s with
  | [] => None
  | c :: s' =>
      if (c =? MINUS)%N then Z.opp <$> int_unsigned s'
      else if (c =? PLUS)%N then int_unsigned s'
      else int_unsigned (c :: s')
  end.

End PyStr.

Export PyStr.

(* ===================================================================== *)
(** ** Segmenter: the first line and the last test of [speak_text] *)
(* ===================================================================== *)

Module Segmenter.

(** The character class [[.!?]] of the pattern. *)
Definition is_terminal (c : char) : bool :=
  ((c =? 46) || (c =? 33) || (c =? 63))%N.

(** [re.split(r'[.!?]+', text)]: the pieces of [text] between the
    maximal runs of terminal punctuation, the empty pieces at both ends
    included.  [piece] is the current piece, reversed; [in_run] holds
    while the scan is inside a run of punctuation. *)
Fixpoint split_from (in_run : bool) (piece : pystr) (text : pystr)
  : list pystr :=
  match text with
  | [] => [rev piece]
  | c :: text' =>
      if is_terminal c
      then (if in_run then split_from true [] text'
            else rev piece :: split_from true [] text')
      else split_from false (c :: piece) text'
  end.

Definition re_split (text : pystr) : list pystr :=
  split_from false [] text.

(** What one sentence contributes to the narration: [sentence.strip()]
    when that is truthy, nothing otherwise (source lines 146-147). *)
Definition unit_of (sentence : pystr) : option pystr :=
  if truthy (strip sentence) then Some (strip sentence) else None.

(** The speakable units of a text, in the order [speak_text] visits
    them. *)
Definition segment (text : pystr) : list pystr :=
  omap unit_of (re_split text).

End Segmenter.

Export Segmenter.

(* ===================================================================== *)
(** ** NarrationTask: [PDFReader.speak_text] *)
(* ===================================================================== *)

Module Narration.

(** What one [is_set()] call can see of the two events. *)
Record flags := Flags { f_paused : bool; f_stopped : bool }.

(** How the task ended: the loop ran out of sentences, a [break] on
    [stopped], or the engine raised while rendering a unit. *)
Inductive finish :=
| Exhausted
| Stopped
| Raised (unit : pystr).

(** Program points of the loop body, each one waiting for its next read
    of an event; [sentence] is the loop variable and [rest] the
    sentences not yet visited. *)
Inductive pc :=
| AtTop (sentence : pystr) (rest : list pystr)       (* line 134 *)
| AtWhile (sentence : pystr) (rest : list pystr)     (* line 138 *)
| InWhile (sentence : pystr) (rest : list pystr)     (* line 139 *)
| AfterWhile (sentence : pystr) (rest : list pystr)  (* line 143 *)
| Done (f : finish).

(** A task: where it is and the units the engine has rendered. *)
Record task := Task { at_pc : pc; said : list pystr }.

(** The [for] statement takes the next sentence or ends the loop. *)
Definition advance (rest : list pystr) : pc :=
  match rest with
  | [] => Done Exhausted
  | sentence :: rest' => AtTop sentence rest'
  end.

Section Sink.

(** The speech engine: [sink_ok u] tells whether
    [engine.say(u); engine.runAndWait()] returns ([true]) or raises. *)
Variable sink_ok : pystr -> bool.

(** Lines 146-148 for one sentence. *)
Definition render (sentence : pystr) (rest : list pystr)
    (done : list pystr) : task :=
  match unit_of sentence with
  | None => Task (advance rest) done
  | Some u =>
      if sink_ok u then Task (advance rest) (done ++ [u])
      else Task (Done (Raised u)) done
  end.

(** One read of an event and what follows it up to the next read. *)
Definition step (t : task) (now : flags) : task :=
  match at_pc t with
  | AtTop s rest =>
      if f_stopped now then Task (Done Stopped) (said t)
      else Task (AtWhile s rest) (said t)
  | AtWhile s rest =>
      if f_paused now then Task (InWhile s rest) (said t)
      else Task (AfterWhile s rest) (said t)
  | InWhile s rest =>
      if f_stopped now then Task (AfterWhile s rest) (said t)
      else Task (AtWhile s rest) (said t)       (* time.sleep(0.1) *)
  | AfterWhile s rest =>
      if f_stopped now then Task (Done Stopped) (said t)
      else render s rest (said t)
  | Done _ => t
  end.

(** The task as the thread starts it. *)
Definition start (text : pystr) : task :=
  Task (advance (re_split text)) [].

Definition run_from (t : task) (sched : list flags) : task :=
  fold_left step sched t.

(** [speak_text(text)] under a schedule of event snapshots, one per
    read, in the order the thread makes them. *)
Definition speak_text (text : pystr) (sched : list flags) : task :=
  run_from (start text) sched.

End Sink.

Definition ended (t : task) : bool :=
  match at_pc t with Done _ => true | _ => false end.

(** The sentences the loop still has to visit, the current one first. *)
Definition remaining (p : pc) : list pystr :=
  match p with
  | AtTop s rest | AtWhile s rest | InWhile s rest | AfterWhile s rest =>
      s :: rest
  | Done _ => []
  end.

(** Neither event is set. *)
Definition quiet : flags := Flags false false.

Definition is_stopped (f : flags) : Prop := f_stopped f = true.
Definition is_quiet (f : flags) : Prop := f = quiet.

End Narration.

Export Narration.

(* ===================================================================== *)
(** ** Exceptions and the values [json.load] returns *)
(* ===================================================================== *)

Module Py.

Inductive exn :=
| OSError          (* [open] fails, a write fails *)
| JSONDecodeError  (* [json.load] on a file that is not JSON *)
| PdfReadError     (* PyPDF2 cannot parse the file or a page *)
| IndexError
| TypeError
| AttributeError
| ValueError
| EOFError.

#[export] Instance exn_eq_dec : EqDecision exn.
Proof. solve_decision. Defined.

Inductive outcome (A : Type) :=
| Ok (a : A)
| Raise (e : exn).
Arguments Ok {A} a.
Arguments Raise {A} e.

(** [try: body except: handler] with a handler for every exception. *)
Definition try_except {A} (body : outcome A) (handler : exn -> outcome A)
  : outcome A :=
  match body with
  | Ok a => Ok a
  | Raise e => handler e
  end.

Definition and_then {A B} (x : outcome A) (k : A -> outcome B)
  : outcome B :=
  match x with
  | Ok a => k a
  | Raise e => Raise e
  end.

(** A JSON document as Python sees it once loaded (floats left out:
    the reader never writes one). *)
Inductive json :=
| JNull
| JBool (b : bool)
| JInt (n : Z)
| JStr (s : pystr)
| JList (l : list json)
| JDict (m : gmap pystr json).

(** [l[i]] on a sequence, negative indices counted from the end. *)
Definition py_index {A} (l : list A) (i : Z) : option A :=
  let n := Z.of_nat (length l) in
  if i <? 0
  then (if i + n <? 0 then None else l !! Z.to_nat (i + n))
  else l !! Z.to_nat i.

(** [range(a, b)]. *)
Definition range (a b : Z) : list Z := seqZ a (b - a).

End Py.

Export Py.

(* ===================================================================== *)
(** ** PositionStore: the bookmark file *)
(* ===================================================================== *)

Module PositionStore.

(** What the bookmark file holds, seen through [json.load]: the document
    it parses to, or bytes that do not parse.  [json.dump] writes a file
    that parses to the value dumped. *)
Inductive contents :=
| Document (v : json)
| Garbage.

(** What [open(file, 'w')] followed by [json.dump] does: it rewrites the
    file, [open] raises and leaves the file alone, or the write raises
    after the file was truncated. *)
Inductive write_mode :=
| Writes
| OpenRaises
| DumpRaises.

(** The file named by [self.bookmark_file] and how the system treats
    it. *)
Record store := Store {
  st_file : option contents;   (* [None]: no such file *)
  st_readable : bool;          (* [open(file, 'r')] succeeds *)
  st_write : write_mode
}.

(** [open(self.bookmark_file, 'r')]. *)
Definition open_read (s : store) : outcome contents :=
  match st_file s with
  | Some c => if st_readable s then Ok c else Raise OSError
  | None => Raise OSError
  end.

(** [json.load(f)]. *)
Definition json_load (c : contents) : outcome json :=
  match c with
  | Document v => Ok v
  | Garbage => Raise JSONDecodeError
  end.

(** [os.path.exists(self.bookmark_file)]. *)
Definition exists_file (s : store) : bool :=
  match st_file s with Some _ => true | None => false end.

(** [PDFReader.load_bookmarks]. *)
Definition load_bookmarks (s : store) : outcome json :=
  if exists_file s
  then try_except (and_then (open_read s) json_load)
                  (fun _ => Ok (JDict ∅))
  else Ok (JDict ∅).

(** [bookmarks[pdf_path] = page_num]: only a dict takes a [str] key. *)
Definition setitem (bookmarks : json) (pdf_path : pystr) (page_num : Z)
  : outcome json :=
  match bookmarks with
  | JDict m => Ok (JDict (<[pdf_path := JInt page_num]> m))
  | _ => Raise TypeError
  end.

(** [with open(file, 'w') as f: json.dump(bookmarks, f, indent=2)]. *)
Definition dump (bookmarks : json) (s : store) : outcome unit * store :=
  match st_write s with
  | Writes =>
      (Ok tt, Store (Some (Document bookmarks)) (st_readable s) (st_write s))
  | OpenRaises => (Raise OSError, s)
  | DumpRaises =>
      (Raise OSError, Store (Some Garbage) (st_readable s) (st_write s))
  end.

(** What [save_bookmark] prints. *)
Inductive saved :=
| BookmarkSaved (page : Z)
| ErrorSaving (e : exn).

(** [PDFReader.save_bookmark]: the report printed and the store left
    behind, or the exception that escapes. *)
Definition save_bookmark (pdf_path : pystr) (page_num : Z) (s : store)
  : outcome saved * store :=
  match and_then (load_bookmarks s)
                 (fun b => setitem b pdf_path page_num) with
  | Raise e => (Raise e, s)
  | Ok bookmarks =>
      match dump bookmarks s with
      | (Ok _, s') => (Ok (BookmarkSaved (page_num + 1)), s')
      | (Raise e, s') => (Ok (ErrorSaving e), s')
      end
  end.

(** [bookmarks.get(pdf_path, 0)]: only a dict has [get]. *)
Definition dict_get (bookmarks : json) (pdf_path : pystr) : outcome json :=
  match bookmarks with
  | JDict m => Ok (default (JInt 0) (m !! pdf_path))
  | _ => Raise AttributeError
  end.

(** [PDFReader.get_bookmark]. *)
Definition get_bookmark (pdf_path : pystr) (s : store) : outcome json :=
  and_then (load_bookmarks s) (fun b => dict_get b pdf_path).

End PositionStore.

Export PositionStore.

(* ===================================================================== *)
(** ** TextSource: [PDFReader.extract_text_from_pdf] *)
(* ===================================================================== *)

Module TextSource.

(** A page: its extracted text, or [None] when [extract_text()] raises. *)
Definition page := option pystr.

(** The files [PyPDF2.PdfReader] is asked to open: [None] when the file
    cannot be opened or parsed. *)
Definition library := pystr -> option (list page).

(** The marker [f"\n--- Page {page_num + 1} ---\n"]. *)
Definition marker (page_num : Z) : pystr :=
  [LF] ++ py "--- Page " ++ str_of_int (page_num + 1) ++ py " ---" ++ [LF].

(** The body of the [for] loop, over the page numbers still to visit. *)
Fixpoint extract_pages (pages : list page) (nums : list Z) (text : pystr)
  : outcome pystr :=
  match nums with
  | [] => Ok text
  | page_num :: nums' =>
      match py_index pages page_num with
      | None => Raise IndexError
      | Some None => Raise PdfReadError
      | Some (Some t) =>
          extract_pages pages nums' (text ++ marker page_num ++ t)
      end
  end.

(** The [try] block. *)
Definition extract_body (lib : library) (pdf_path : pystr)
    (start_page : Z) (end_page : option Z) : outcome (pystr * Z) :=
  match lib pdf_path with
  | None => Raise PdfReadError
  | Some pages =>
      let total_pages := Z.of_nat (length pages) in
      let end_page := default total_pages end_page in
      and_then
        (extract_pages pages
           (range start_page (Z.min end_page total_pages)) [])
        (fun text => Ok (text, total_pages))
  end.

(** [PDFReader.extract_text_from_pdf]: the pair returned ([None] for
    Python's [None]) and the error printed, if any. *)
Definition extract_text_from_pdf (lib : library) (pdf_path : pystr)
    (start_page : Z) (end_page : option Z)
  : (option pystr * Z) * option exn :=
  match extract_body lib pdf_path start_page end_page with
  | Ok (text, total_pages) => ((Some text, total_pages), None)
  | Raise e => ((None, 0), Some e)
  end.

End TextSource.

Export TextSource.

(* ===================================================================== *)
(** ** PlaybackController: [read_pdf] and [handle_controls] *)
(* ===================================================================== *)

Module Controller.

(** The lines the controller prints, with the values they interpolate. *)
Inductive message :=
| ErrorReadingPDF (e : exn)
| ReadingFrom (page : Z)
| ControlsHelp
| Resumed
| Paused
| StoppedMsg
| Saved (report : saved)
| PagePrompt
| InvalidPage (total_pages : Z)
| InvalidInput.

(** What happens to narration threads, in order. *)
Inductive event :=
| Started (tid : nat) (text : pystr)   (* [read_thread.start()] *)
| Joined (tid : nat).                  (* [read_thread.join()] returned *)

(** The [PDFReader] object together with the terminal and the thread
    history. *)
Record reader := Reader {
  paused : bool;
  stopped : bool;
  current_pdf : option pystr;
  current_page : Z;
  bookmark_file : store;
  stdin : list pystr;        (* lines not yet read; empty: end of file *)
  stdout : list message;     (* oldest first *)
  threads : list event       (* oldest first *)
}.

Definition M (A : Type) : Type := reader -> outcome A * reader.

Definition ret {A} (a : A) : M A := fun r => (Ok a, r).

Definition bind {A B} (m : M A) (k : A -> M B) : M B :=
  fun r =>
    match m r with
    | (Ok a, r') => k a r'
    | (Raise e, r') => (Raise e, r')
    end.

Notation "x <- m ;; k" := (bind m (fun x => k))
  (at level 100, m at next level, right associativity).
Notation "m ;;; k" := (bind m (fun _ => k))
  (at level 100, right associativity).

(** [try: body except E: handler], the state changes of [body] kept. *)
Definition catch {A} (E : exn) (body : M A) (handler : M A) : M A :=
  fun r =>
    match body r with
    | (Raise e, r') => if decide (e = E) then handler r' else (Raise e, r')
    | done => done
    end.

Definition get {A} (field : reader -> A) : M A := fun r => (Ok (field r), r).

Definition print (m : message) : M unit :=
  fun r => (Ok tt,
            Reader (paused r) (stopped r) (current_pdf r) (current_page r)
                   (bookmark_file r) (stdin r) (stdout r ++ [m]) (threads r)).

(** [input()]: the next line, [EOFError] at the end of the input. *)
Definition input : M pystr :=
  fun r =>
    match stdin r with
    | [] => (Raise EOFError, r)
    | line :: more =>
        (Ok line,
         Reader (paused r) (stopped r) (current_pdf r) (current_page r)
                (bookmark_file r) more (stdout r) (threads r))
    end.

(** [self.paused.set()] and [self.paused.clear()]. *)
Definition set_paused (b : bool) : M unit :=
  fun r => (Ok tt,
            Reader b (stopped r) (current_pdf r) (current_page r)
                   (bookmark_file r) (stdin r) (stdout r) (threads r)).

(** [self.stopped.set()] and [self.stopped.clear()]. *)
Definition set_stopped (b : bool) : M unit :=
  fun r => (Ok tt,
            Reader (paused r) b (current_pdf r) (current_page r)
                   (bookmark_file r) (stdin r) (stdout r) (threads r)).

(** Lines 152-153 of [read_pdf]. *)
Definition set_position (pdf_path : pystr) (start_page : Z) : M unit :=
  fun r => (Ok tt,
            Reader (paused r) (stopped r) (Some pdf_path) start_page
                   (bookmark_file r) (stdin r) (stdout r) (threads r)).

Definition log (e : event) : M unit :=
  fun r => (Ok tt,
            Reader (paused r) (stopped r) (current_pdf r) (current_page r)
                   (bookmark_file r) (stdin r) (stdout r) (threads r ++ [e])).

Definition is_start (e : event) : bool :=
  match e with Started _ _ => true | Joined _ => false end.

(** [Thread(target=self.speak_text, args=(text,))] and [start()]: the
    new thread is named by the number of threads started before it. *)
Definition thread_start (text : pystr) : M nat :=
  history <- get threads ;;
  let tid := length (filter is_start history) in
  log (Started tid text) ;;;
  ret tid.

(** [read_thread.join()]. *)
Definition thread_join (tid : nat) : M unit := log (Joined tid).

(** The threads started and not yet joined after a history. *)
Definition after_event (live : list nat) (e : event) : list nat :=
  match e with
  | Started tid _ => live ++ [tid]
  | Joined tid => filter (fun t => negb (Nat.eqb t tid)) live
  end.

Definition unjoined (history : list event) : list nat :=
  fold_left after_event history [].

(** [read_thread.is_alive()]: [answer] tells whether the thread is still
    running when it is asked; a thread that was joined has ended. *)
Definition is_alive (answer : bool) (read_thread : nat) (r : reader) : bool :=
  answer && bool_decide (read_thread ∈ unjoined (threads r)).

(** [self.save_bookmark(pdf_path, page_num)] on the reader's store. *)
Definition do_save_bookmark (pdf_path : pystr) (page_num : Z) : M unit :=
  fun r =>
    match save_bookmark pdf_path page_num (bookmark_file r) with
    | (Raise e, _) => (Raise e, r)
    | (Ok report, s') =>
        print (Saved report)
              (Reader (paused r) (stopped r) (current_pdf r)
                      (current_page r) s' (stdin r) (stdout r) (threads r))
    end.

(** [self.extract_text_from_pdf(pdf_path, start_page)]. *)
Definition do_extract (lib : library) (pdf_path : pystr) (start_page : Z)
  : M (option pystr * Z) :=
  match extract_text_from_pdf lib pdf_path start_page None with
  | (result, Some e) => print (ErrorReadingPDF e) ;;; ret result
  | (result, None) => ret result
  end.

(** How an iteration of the command loop leaves it. *)
Inductive flow := Continue | Break.

Section Files.

Variable lib : library.

(** [int(s)] on a [str], [None] when it raises [ValueError].  Which
    strings [int] reads depends on the interpreter (its table of Unicode
    decimal digits, its limit on the number of digits): the table is not
    reproduced, and the controller is modelled for whatever [int]
    computes. *)
Variable py_int : pystr -> option Z.

(** [PDFReader.read_pdf], given the command loop it enters. *)
Definition read_pdf_with
    (controls : nat -> pystr -> Z -> Z -> M unit)
    (pdf_path : pystr) (start_page : Z) : M unit :=
  set_position pdf_path start_page ;;;
  set_stopped false ;;;
  set_paused false ;;;
  print (ReadingFrom (start_page + 1)) ;;;
  print ControlsHelp ;;;
  extracted <- do_extract lib pdf_path start_page ;;
  match extracted with
  | (Some text, total_pages) =>
      if truthy text
      then read_thread <- thread_start text ;;
           controls read_thread pdf_path start_page total_pages
      else ret tt
  | (None, _) => ret tt
  end.

(** The branch of command [j] (lines 205-216). *)
Definition jump (restart : pystr -> Z -> M unit) (read_thread : nat)
    (pdf_path : pystr) (total_pages : Z) : M flow :=
  print PagePrompt ;;;
  line <- input ;;
  let page_input := strip line in
  catch ValueError
    (match py_int page_input with
     | None => fun r => (Raise ValueError, r)
     | Some n =>
         let jump_page := n - 1 in
         if (0 <=? jump_page) && (jump_page <? total_pages)
         then set_stopped true ;;;
              thread_join read_thread ;;;
              restart pdf_path jump_page ;;;
              ret Break
         else print (InvalidPage total_pages) ;;; ret Continue
     end)
    (print InvalidInput ;;; ret Continue).

(** The body of the [while] loop of [handle_controls] (lines
    178-219). *)
Definition command_step (restart : pystr -> Z -> M unit)
    (read_thread : nat) (pdf_path : pystr) (start_page total_pages : Z)
  : M flow :=
  catch EOFError
    (line <- input ;;
     let command := lower (strip line) in
     if decide (command = py "p") then
       is_paused <- get paused ;;
       if is_paused
       then set_paused false ;;; print Resumed ;;; ret Continue
       else set_paused true ;;; print Paused ;;; ret Continue
     else if decide (command = py "s") then
       set_stopped true ;;; print StoppedMsg ;;; ret Break
     else if decide (command = py "b") then
       page <- get current_page ;;
       do_save_bookmark pdf_path page ;;; ret Continue
     else if decide (command = py "n") then
       set_stopped true ;;;
       thread_join read_thread ;;;
       let new_page := Z.min (start_page + 5) (total_pages - 1) in
       restart pdf_path new_page ;;;
       ret Break
     else if decide (command = py "j") then
       jump restart read_thread pdf_path total_pages
     else ret Continue)
    (ret Continue).                              (* time.sleep(0.1) *)

(** [PDFReader.handle_controls], followed for as many calls of
    [read_thread.is_alive()] as [alive] has answers, one answer per
    call.  When the answers run out the model leaves the loop and joins
    the thread, as the loop does once [is_alive()] answers [False].  A
    thread that is paused and not stopped never ends, and the loop then
    never does: a result of the model tells what the loop has done after
    that many calls, in every list of answers, not that the loop ends. *)
Fixpoint handle_controls (alive : list bool) (read_thread : nat)
    (pdf_path : pystr) (start_page total_pages : Z) : M unit :=
  match alive with
  | answer :: alive' =>
      fun r =>
        if is_alive answer read_thread r
        then
          match command_step (read_pdf_with (handle_controls alive'))
                  read_thread pdf_path start_page total_pages r with
          | (Ok Continue, r') =>
              handle_controls alive' read_thread pdf_path start_page
                total_pages r'
          | (Ok Break, r') => thread_join read_thread r'
          | (Raise e, r') => (Raise e, r')
          end
        else thread_join read_thread r
  | [] => thread_join read_thread
  end.

(** [PDFReader.read_pdf]. *)
Definition read_pdf (alive : list bool) : pystr -> Z -> M unit :=
  read_pdf_with (handle_controls alive).

End Files.

(** A fresh reader in front of a terminal (lines 18-22). *)
Definition init (s : store) (lines : list pystr) : reader :=
  Reader false false None 0 s lines [] [].

End Controller.

Export Controller.

(* ===================================================================== *)
(** ** Vocabulary of the properties *)
(* ===================================================================== *)

Module Properties.

(** No terminal punctuation in [s]. *)
Definition no_terminal (s : pystr) : Prop :=
  Forall (fun c => is_terminal c = false) s.

(** [s] holds at least one terminal punctuation mark. *)
Definition has_terminal (s : pystr) : Prop :=
  Exists (fun c => is_terminal c = true) s.

(** A non-empty run of terminal punctuation: one match of [[.!?]+]. *)
Definition is_run (s : pystr) : Prop :=
  s <> [] /\ Forall (fun c => is_terminal c = true) s.

(** Only white space. *)
Definition blank (s : pystr) : Prop :=
  Forall (fun c => isspace c = true) s.

(** Text the segmenter throws away: punctuation and white space. *)
Definition discarded (s : pystr) : Prop :=
  Forall (fun c => is_terminal c = true \/ isspace c = true) s.

(** A speakable unit: not empty, also after trimming, already trimmed,
    and free of terminal punctuation. *)
Definition speakable (u : pystr) : Prop :=
  strip u <> [] /\ strip u = u /\ no_terminal u.

(** A first piece followed by (run, piece) pairs, put back together. *)
Definition glue (p0 : pystr) (rs : list (pystr * pystr)) : pystr :=
  p0 ++ concat (map (fun rp => fst rp ++ snd rp) rs).

(** (gap, unit) pairs and a last gap, put back together. *)
Definition weave (gus : list (pystr * pystr)) (last_gap : pystr) : pystr :=
  concat (map (fun gu => fst gu ++ snd gu) gus) ++ last_gap.

(** Every piece that follows a run is non-empty, except possibly the
    last one: the runs are maximal. *)
Fixpoint runs_maximal (rs : list (pystr * pystr)) : Prop :=
  match rs with
  | [] => True
  | rp :: rs' => (snd rp = [] -> rs' = []) /\ runs_maximal rs'
  end.

(** A character the segmenter keeps. *)
Definition kept (c : char) : Prop := is_terminal c = false /\ isspace c = false.

(** Text in which nothing but white space comes before the first
    terminal punctuation, or before the end. *)
Definition gap_led (s : pystr) : Prop :=
  forall x y, s = x ++ y -> no_terminal x -> blank x.

(** A way of reading [T] as units between gaps. *)
Definition reading (T : pystr) (gus : list (pystr * pystr)) (last_gap : pystr)
  : Prop :=
  T = weave gus last_gap
  /\ discarded last_gap
  /\ Forall discarded (map fst gus)
  /\ Forall has_terminal (map fst (tail gus))
  /\ Forall speakable (map snd gus).

(** What the rendered units and the program point of a task say about
    the text it was started on. *)
Definition task_inv (sink_ok : pystr -> bool) (text : pystr) (t : task)
  : Prop :=
  match at_pc t with
  | Done Exhausted => said t = segment text
  | Done Stopped => exists later, said t ++ later = segment text
  | Done (Raised u) =>
      sink_ok u = false /\ exists later, said t ++ u :: later = segment text
  | p => said t ++ omap unit_of (remaining p) = segment text
  end.

(** A speech engine for the examples: it raises on the unit [a] only. *)
Definition refuses_a (u : pystr) : bool :=
  negb (bool_decide (u = py "a")).

(** The text of page [n], for a page that has one. *)
Definition page_text (pages : list page) (n : Z) : pystr :=
  match py_index pages n with
  | Some (Some t) => t
  | _ => []
  end.

(** Page [n] exists and its text can be extracted. *)
Definition page_ok (pages : list page) (n : Z) : Prop :=
  exists t, py_index pages n = Some (Some t).

(** The pages [nums], in that order, each behind its marker. *)
Definition marked_pages (pages : list page) (nums : list Z) : pystr :=
  concat (map (fun n => marker n ++ page_text pages n) nums).

(** Every thread of a history was started when no thread was live: all
    the threads started before it had been joined. *)
Definition exclusive (history : list event) : Prop :=
  forall pre tid text post,
    history = pre ++ Started tid text :: post -> unjoined pre = [].

(** Nothing is live, except possibly the thread [tid]. *)
Definition at_most (tid : nat) (history : list event) : Prop :=
  unjoined history = [] \/ unjoined history = [tid].

(** [h'] continues the history [h]. *)
Definition grows (h h' : list event) : Prop :=
  exists later, h' = h ++ later.

(** What [read_pdf] leaves behind when it starts with no live thread:
    an exclusive history that continues the one it found, every thread
    joined if it returns, and no exception but the [TypeError] of a
    bookmark file that is not a mapping. *)
Definition restart_post (h : list event) (res : outcome unit * reader)
  : Prop :=
  exclusive (threads (snd res))
  /\ grows h (threads (snd res))
  /\ match fst res with
     | Ok _ => unjoined (threads (snd res)) = []
     | Raise e => e = TypeError
     end.

Definition restart_ok (restart : pystr -> Z -> M unit) : Prop :=
  forall pdf_path page r,
    exclusive (threads r) -> unjoined (threads r) = [] ->
    restart_post (threads r) (restart pdf_path page r).

(** What one iteration of the command loop for the thread [tid] leaves
    behind; [eof] tells whether an [EOFError] may still escape. *)
Definition loop_post (tid : nat) (eof : bool) {A} (h : list event)
    (res : outcome A * reader) : Prop :=
  exclusive (threads (snd res))
  /\ grows h (threads (snd res))
  /\ match fst res with
     | Ok _ => at_most tid (threads (snd res))
     | Raise e =>
         e = TypeError
         \/ (eof = true /\ e = EOFError /\ at_most tid (threads (snd res)))
     end.

(** A library for the examples: one readable book of four pages. *)
Definition sample_library : library :=
  fun pdf_path =>
    if decide (pdf_path = py "book.pdf")
    then Some [Some (py "Hi. Yo"); Some (py "B!"); Some (py "C"); Some []]
    else None.

Definition empty_store : store := Store None true Writes.

End Properties.

Export Properties.

(* ===================================================================== *)
(** ** Keyword search: [find_introduction] and [search_chapter] *)
(* ===================================================================== *)

Module TextSearch.

(** [haystack.startswith(needle)]. *)
Fixpoint starts_with (needle haystack : pystr) : bool :=
  match needle, haystack with
  | [], _ => true
  | _ :: _, [] => false
  | c :: needle', d :: haystack' =>
      (c =? d)%N && starts_with needle' haystack'
  end.

(** [needle in haystack] for two strings. *)
Fixpoint contains (needle haystack : pystr) : bool :=
  starts_with needle haystack
  || match haystack with
     | [] => false
     | _ :: haystack' => contains needle haystack'
     end.

(** The list [intro_keywords] (lines 57-60). *)
Definition intro_keywords : list pystr :=
  [py "introduction"; py "preface"; py "foreword"; py "prologue";
   py "about this book"].

(** What the two search functions print. *)
Inductive search_message :=
| SearchingIntroduction (total_pages : Z)
| FoundKeyword (keyword : pystr) (page : Z)
| IntroductionNotFound
| ErrorSearchingIntroduction (e : exn)
| SearchingFor (chapter_name : pystr)
| FoundOnPage (page : Z)
| ChapterNotFound (chapter_name : pystr)
| ErrorSearchingChapter (e : exn).

Section Lower.

(** [str.lower()] on page text and chapter names.  Its Unicode case table
    is not reproduced: the search functions are modelled for whatever
    [lower] computes. *)
Variable str_lower : pystr -> pystr.

(** The inner [for] of [find_introduction]: the first keyword found in
    the lowered text of a page. *)
Definition first_keyword (text : pystr) : option pystr :=
  List.find (fun keyword => contains keyword text) intro_keywords.

(** The outer [for] of [find_introduction] over the page numbers still to
    visit: the keyword and the page of the first match. *)
Fixpoint scan_introduction (pages : list page) (nums : list Z)
  : outcome (option (pystr * Z)) :=
  match nums with
  | [] => Ok None
  | page_num :: nums' =>
      match py_index pages page_num with
      | None => Raise IndexError
      | Some None => Raise PdfReadError
      | Some (Some t) =>
          match first_keyword (str_lower t) with
          | Some keyword => Ok (Some (keyword, page_num))
          | None => scan_introduction pages nums'
          end
      end
  end.

(** [PDFReader.find_introduction]: the page returned and what was
    printed. *)
Definition find_introduction (lib : library) (pdf_path : pystr)
  : Z * list search_message :=
  match lib pdf_path with
  | None => (0, [ErrorSearchingIntroduction PdfReadError])
  | Some pages =>
      let total_pages := Z.of_nat (length pages) in
      match scan_introduction pages (range 0 (Z.min 50 total_pages)) with
      | Ok (Some (keyword, page_num)) =>
          (page_num,
           [SearchingIntroduction total_pages;
            FoundKeyword keyword (page_num + 1)])
      | Ok None =>
          (0, [SearchingIntroduction total_pages; IntroductionNotFound])
      | Raise e =>
          (0, [SearchingIntroduction total_pages;
               ErrorSearchingIntroduction e])
      end
  end.

(** The [for] of [search_chapter] over the page numbers still to visit. *)
Fixpoint scan_chapter (pages : list page) (chapter_name : pystr)
    (nums : list Z) : outcome (option Z) :=
  match nums with
  | [] => Ok None
  | page_num :: nums' =>
      match py_index pages page_num with
      | None => Raise IndexError
      | Some None => Raise PdfReadError
      | Some (Some t) =>
          if contains (str_lower chapter_name) (str_lower t)
          then Ok (Some page_num)
          else scan_chapter pages chapter_name nums'
      end
  end.

(** [PDFReader.search_chapter]: the page returned ([None] for Python's
    [None]) and what was printed. *)
Definition search_chapter (lib : library) (pdf_path chapter_name : pystr)
  : option Z * list search_message :=
  match lib pdf_path with
  | None => (None, [ErrorSearchingChapter PdfReadError])
  | Some pages =>
      let total_pages := Z.of_nat (length pages) in
      match scan_chapter pages chapter_name (range 0 total_pages) with
      | Ok (Some page_num) =>
          (Some page_num,
           [SearchingFor chapter_name; FoundOnPage (page_num + 1)])
      | Ok None =>
          (None, [SearchingFor chapter_name; ChapterNotFound chapter_name])
      | Raise e =>
          (None, [SearchingFor chapter_name; ErrorSearchingChapter e])
      end
  end.

End Lower.

End TextSearch.

Export TextSearch.

(* ===================================================================== *)
(** ** The program: [main] *)
(* ===================================================================== *)

Module Main.

(** What [main] prints itself. *)
Inductive main_message :=
| Banner
| PathPrompt
| FileNotFound
| ResumePrompt (page : Z)
| Menu
| ChoicePrompt
| ChapterPrompt
| PageNumberPrompt
| ChapterNotFoundStart
| InvalidPageNumber
| InvalidChoice.

(** One entry of the terminal's output, by who printed it. *)
Inductive line :=
| Own (m : main_message)
| FromSearch (m : search_message)
| FromReader (m : message).

(** The reader [main] creates and everything shown so far, oldest
    first. *)
Record terminal := Terminal { rd : reader; shown : list line }.

Definition T (A : Type) : Type := terminal -> outcome A * terminal.

Definition t_ret {A} (a : A) : T A := fun t => (Ok a, t).

Definition t_bind {A B} (m : T A) (k : A -> T B) : T B :=
  fun t =>
    match m t with
    | (Ok a, t') => k a t'
    | (Raise e, t') => (Raise e, t')
    end.

Notation "x <-- m ;; k" := (t_bind m (fun x => k))
  (at level 100, m at next level, right associativity).
Notation "m >>> k" := (t_bind m (fun _ => k))
  (at level 100, right associativity).

(** [try: body except E: handler] in [main]. *)
Definition t_catch {A} (E : exn) (body : T A) (handler : T A) : T A :=
  fun t =>
    match body t with
    | (Raise e, t') => if decide (e = E) then handler t' else (Raise e, t')
    | done => done
    end.

(** A method of the reader called from [main]: what it prints is shown
    after what was shown before. *)
Definition lift {A} (m : M A) : T A :=
  fun t =>
    let '(o, r') := m (rd t) in
    (o, Terminal r'
          (shown t
           ++ map FromReader (drop (length (stdout (rd t))) (stdout r')))).

Definition own (m : main_message) : T unit :=
  fun t => (Ok tt, Terminal (rd t) (shown t ++ [Own m])).

Definition show_search (ms : list search_message) : T unit :=
  fun t => (Ok tt, Terminal (rd t) (shown t ++ map FromSearch ms)).

(** [input(prompt)]. *)
Definition ask (prompt : main_message) : T pystr :=
  own prompt >>> lift input.

(** A value that fails in [main]. *)
Definition t_outcome {A} (o : outcome A) : T A := fun t => (o, t).

(** [bookmark_page > 0] on what [get_bookmark] returned: only numbers
    compare with [0]. *)
Definition gt_zero (v : json) : outcome bool :=
  match v with
  | JInt n => Ok (0 <? n)
  | JBool b => Ok b
  | _ => Raise TypeError
  end.

(** The page a positive bookmark stands for.  [True] counts as [1] in
    every use [read_pdf] makes of its start page; the reader's position
    is an [int] here. *)
Definition page_of (v : json) : Z :=
  match v with
  | JInt n => n
  | JBool true => 1
  | _ => 0
  end.

Section World.

(** [os.path.exists] on the path typed, the files PyPDF2 can open,
    [int], [str.lower] and the answers of [is_alive()]. *)
Variable exists_pdf : pystr -> bool.
Variable lib : library.
Variable py_int : pystr -> option Z.
Variable str_lower : pystr -> pystr.
Variable alive : list bool.

(** Lines 239-244: the bookmark, and whether reading was resumed. *)
Definition resume (pdf_path : pystr) : T bool :=
  store_now <-- (fun t => (Ok (bookmark_file (rd t)), t)) ;;
  bookmark_page <-- t_outcome (get_bookmark pdf_path store_now) ;;
  positive <-- t_outcome (gt_zero bookmark_page) ;;
  if positive
  then answer <-- ask (ResumePrompt (page_of bookmark_page + 1)) ;;
       if decide (lower (strip answer) = py "y")
       then lift (read_pdf lib py_int alive pdf_path (page_of bookmark_page)) >>>
            t_ret true
       else t_ret false
  else t_ret false.

(** Lines 246-282: the menu. *)
Definition menu (pdf_path : pystr) : T unit :=
  own Menu >>>
  answer <-- ask ChoicePrompt ;;
  let choice := strip answer in
  if decide (choice = py "1") then
    let '(start_page, printed) :=
      find_introduction str_lower lib pdf_path in
    show_search printed >>>
    lift (read_pdf lib py_int alive pdf_path start_page)
  else if decide (choice = py "2") then
    lift (read_pdf lib py_int alive pdf_path 0)
  else if decide (choice = py "3") then
    answer <-- ask ChapterPrompt ;;
    let chapter_name := strip answer in
    let '(start_page, printed) :=
      search_chapter str_lower lib pdf_path chapter_name in
    show_search printed >>>
    match start_page with
    | Some start_page => lift (read_pdf lib py_int alive pdf_path start_page)
    | None =>
        own ChapterNotFoundStart >>>
        lift (read_pdf lib py_int alive pdf_path 0)
    end
  else if decide (choice = py "4") then
    answer <-- ask PageNumberPrompt ;;
    let page_num := strip answer in
    t_catch ValueError
      (match py_int page_num with
       | None => t_outcome (Raise ValueError)
       | Some n =>
           let start_page := n - 1 in
           lift (read_pdf lib py_int alive pdf_path (Z.max 0 start_page))
       end)
      (own InvalidPageNumber >>>
       lift (read_pdf lib py_int alive pdf_path 0))
  else
    own InvalidChoice >>>
    lift (read_pdf lib py_int alive pdf_path 0).

(** [main()], on the reader it creates. *)
Definition main : T unit :=
  own Banner >>>
  answer <-- ask PathPrompt ;;
  let pdf_path := strip answer in
  if negb (exists_pdf pdf_path)
  then own FileNotFound
  else
    resumed <-- resume pdf_path ;;
    if resumed then t_ret tt else menu pdf_path.

(** A run of the program: the bookmark file and the lines typed. *)
Definition run_main (s : store) (lines : list pystr)
  : outcome unit * terminal :=
  main (Terminal (init s lines) []).

End World.

End Main.

Export Main.

(* ===================================================================== *)
(** ** Vocabulary of the further properties *)
(* ===================================================================== *)

Module FurtherProperties.

(** The bookmarks load as some mapping. *)
Definition loads_mapping (s : store) : Prop :=
  exists m : gmap pystr json, load_bookmarks s = Ok (JDict m).

(** A JSON object. *)
Definition is_mapping (v : json) : Prop :=
  match v with JDict _ => True | _ => False end.

(** [needle] occurs in [haystack]. *)
Definition part_of (needle haystack : pystr) : Prop :=
  exists before after, haystack = before ++ needle ++ after.

(** Page [n] (counted from 0) can be read and [P] holds of its text. *)
Definition page_has (pages : list page) (P : pystr -> Prop) (n : Z) : Prop :=
  0 <= n /\ exists t, pages !! Z.to_nat n = Some (Some t) /\ P t.

(** Page [n] (counted from 0) exists and cannot be read. *)
Definition page_fails (pages : list page) (n : Z) : Prop :=
  0 <= n /\ pages !! Z.to_nat n = Some None.

(** The lowered text names an introduction. *)
Definition names_introduction (str_lower : pystr -> pystr) (t : pystr)
  : Prop :=
  exists keyword, In keyword intro_keywords /\ part_of keyword (str_lower t).


(** A snapshot in which [stopped] is not set. *)
Definition not_stopped (f : flags) : Prop := f_stopped f = false.


(** The history entry of a thread narrating the document [pdf_path] from
    one of its pages to its end. *)
Definition valid_start (lib : library) (pdf_path : pystr) (e : event)
  : Prop :=
  match e with
  | Started _ text =>
      exists pages p,
        lib pdf_path = Some pages
        /\ 0 <= p < Z.of_nat (length pages)
        /\ text = marked_pages pages (range p (Z.of_nat (length pages)))
  | Joined _ => True
  end.

(** A line of input that is not the bookmark command. *)
Definition not_bookmark (line : pystr) : Prop :=
  lower (strip line) <> py "b".

(** The reader [r'] has read some of the input [r] had left. *)
Definition has_read (r r' : reader) : Prop :=
  exists k, stdin r' = drop k (stdin r).

(** What a restart through [read_pdf] guarantees to the command loop
    that calls it, for a property [I] of the reader kept by the loop:
    [I] holds afterwards and only exceptions in [G] escape. *)
Definition restart_keeps (I : reader -> Prop) (G : exn -> Prop)
    (S : pystr -> Z -> Prop) (restart : pystr -> Z -> M unit)
    (pdf_path : pystr) : Prop :=
  forall p r1,
    S pdf_path p -> I r1 ->
    I (snd (restart pdf_path p r1))
    /\ forall e, fst (restart pdf_path p r1) = Raise e -> G e.

(** The reader [r1] is [r0] after at most [n] lines were read: the same
    threads and bookmark file, less input. *)
Definition fresh_from (n : nat) (r0 r1 : reader) : Prop :=
  threads r1 = threads r0
  /\ bookmark_file r1 = bookmark_file r0
  /\ exists k, (k <= n)%nat /\ stdin r1 = drop k (stdin r0).

(** The input of [r0] ran out within [n] lines. *)
Definition input_short (n : nat) (r0 : reader) : Prop :=
  (length (stdin r0) <= n)%nat.

(** The outcome [o] and the reader [r] are those of one call of
    [read_pdf] on [pdf_path], from a page that is not negative, made
    after at most [n] lines of the input of [r0] were read. *)
Definition read_through (lib : library) (py_int : pystr -> option Z)
    (alive : list bool)
    (pdf_path : pystr) (n : nat) (r0 : reader) (o : outcome unit)
    (r : reader) : Prop :=
  exists p r1,
    0 <= p /\ fresh_from n r0 r1
    /\ o = fst (read_pdf lib py_int alive pdf_path p r1)
    /\ r = snd (read_pdf lib py_int alive pdf_path p r1).

(** The reader once a line was read, [more] being the input left. *)
Definition after_line (r : reader) (more : list pystr) : reader :=
  Reader (paused r) (stopped r) (current_pdf r) (current_page r)
         (bookmark_file r) more (stdout r) (threads r).


End FurtherProperties.

Export FurtherProperties.

(* ===================================================================== *)
(** ** Strings *)
(* ===================================================================== *)

Lemma lstrip_split (s : pystr) :
  exists a, s = a ++ lstrip s /\ blank a.
Proof.
  induction s as [|c s [a [Ha Hb]]]; simpl.
  - exists []. split; [reflexivity | constructor].
  - destruct (isspace c) eqn:Hc.
    + exists (c :: a). split; [simpl; congruence | constructor; assumption].
    + exists []. split; [reflexivity | constructor].
Qed.

Lemma lstrip_head (s : pystr) c s' :
  lstrip s = c :: s' -> isspace c = false.
Proof.
  induction s as [|d s IH]; simpl; [discriminate|].
  destruct (isspace d) eqn:Hd; [exact IH|].
  intros [= <- <-]. exact Hd.
Qed.

Lemma lstrip_fixed c (s : pystr) :
  isspace c = false -> lstrip (c :: s) = c :: s.
Proof. intros H. simpl. rewrite H. reflexivity. Qed.

Lemma lstrip_idem (s : pystr) : lstrip (lstrip s) = lstrip s.
Proof.
  destruct (lstrip s) as [|c s'] eqn:E; [reflexivity|].
  apply lstrip_fixed. eapply lstrip_head; eassumption.
Qed.

Lemma lstrip_blank (s : pystr) : blank s -> lstrip s = [].
Proof.
  induction 1 as [|c s Hc _ IH]; simpl; [reflexivity|].
  rewrite Hc. exact IH.
Qed.

Lemma lstrip_app_keep (s t : pystr) :
  lstrip s <> [] -> lstrip (s ++ t) = lstrip s ++ t.
Proof.
  induction s as [|c s IH]; simpl; [congruence|].
  destruct (isspace c); [exact IH | reflexivity].
Qed.

Lemma rstrip_split (s : pystr) :
  exists b, s = rstrip s ++ b /\ blank b.
Proof.
  unfold rstrip. destruct (lstrip_split (rev s)) as [a [Ha Hb]].
  exists (rev a). split.
  - rewrite <- rev_app_distr, <- Ha, rev_involutive. reflexivity.
  - unfold blank in *. apply Forall_rev. exact Hb.
Qed.

Lemma rstrip_idem (s : pystr) : rstrip (rstrip s) = rstrip s.
Proof. unfold rstrip. rewrite rev_involutive, lstrip_idem. reflexivity. Qed.

Lemma rstrip_snoc_keep (s : pystr) c :
  isspace c = false -> rstrip (s ++ [c]) = s ++ [c].
Proof.
  intros H. unfold rstrip. rewrite rev_app_distr. simpl. rewrite H.
  simpl. rewrite rev_involutive. reflexivity.
Qed.

Lemma lstrip_nil_blank (s : pystr) : lstrip s = [] -> blank s.
Proof.
  induction s as [|c s IH]; simpl; [constructor|].
  destruct (isspace c) eqn:Hc; [|discriminate].
  intros H. constructor; [exact Hc | exact (IH H)].
Qed.

Lemma lstrip_app_blank (a t : pystr) : blank a -> lstrip (a ++ t) = lstrip t.
Proof.
  induction 1 as [|c a Hc _ IH]; simpl; [reflexivity|].
  rewrite Hc. exact IH.
Qed.

Lemma rstrip_cons_keep c (s : pystr) :
  isspace c = false -> exists s', rstrip (c :: s) = c :: s'.
Proof.
  intros Hc. unfold rstrip. simpl.
  destruct (lstrip (rev s)) as [|d t] eqn:E.
  - exists []. rewrite lstrip_app_blank by (apply lstrip_nil_blank; exact E).
    simpl. rewrite Hc. reflexivity.
  - exists (rev (d :: t)). rewrite lstrip_app_keep by congruence.
    rewrite E, rev_app_distr. reflexivity.
Qed.

Lemma strip_split (s : pystr) :
  exists a b, s = a ++ strip s ++ b /\ blank a /\ blank b.
Proof.
  destruct (lstrip_split s) as [a [Ha Hba]].
  destruct (rstrip_split (lstrip s)) as [b [Hb Hbb]].
  exists a, b. unfold strip. rewrite <- Hb. auto.
Qed.

Lemma strip_idem (s : pystr) : strip (strip s) = strip s.
Proof.
  unfold strip.
  destruct (lstrip s) as [|c t] eqn:E; [reflexivity|].
  destruct (rstrip_cons_keep c t (lstrip_head _ _ _ E)) as [t' Ht].
  rewrite Ht, (lstrip_fixed c t') by (eapply lstrip_head; eassumption).
  rewrite <- Ht. apply rstrip_idem.
Qed.

Lemma strip_blank (s : pystr) : blank s -> strip s = [].
Proof. intros H. unfold strip. rewrite lstrip_blank by exact H. reflexivity. Qed.

Lemma strip_nil_blank (s : pystr) : strip s = [] -> blank s.
Proof.
  intros H. destruct (strip_split s) as [a [b [Hs [Ha Hb]]]].
  rewrite H in Hs. rewrite Hs. apply Forall_app. split; assumption.
Qed.

Lemma no_terminal_app (s t : pystr) :
  no_terminal (s ++ t) <-> no_terminal s /\ no_terminal t.
Proof. apply Forall_app. Qed.

Lemma strip_no_terminal (s : pystr) : no_terminal s -> no_terminal (strip s).
Proof.
  intros H. destruct (strip_split s) as [a [b [Hs _]]].
  rewrite Hs in H. apply no_terminal_app in H as [_ H].
  apply no_terminal_app in H as [H _]. exact H.
Qed.

Lemma blank_discarded (s : pystr) : blank s -> discarded s.
Proof. intros H. eapply Forall_impl; [exact H | auto]. Qed.

Lemma run_discarded (s : pystr) : is_run s -> discarded s.
Proof. intros [_ H]. eapply Forall_impl; [exact H | auto]. Qed.

Lemma run_has_terminal (s : pystr) : is_run s -> has_terminal s.
Proof.
  intros [Hne H]. destruct s as [|c s]; [congruence|].
  inversion H; subst. left. assumption.
Qed.

Lemma unit_of_some (s u : pystr) :
  unit_of s = Some u -> u = strip s /\ strip s <> [].
Proof.
  unfold unit_of. destruct (strip s) eqn:E; simpl; [discriminate|].
  intros [= <-]. split; [reflexivity | discriminate].
Qed.

Lemma unit_of_none (s : pystr) : unit_of s = None -> blank s.
Proof.
  unfold unit_of. destruct (strip s) eqn:E; simpl; [|discriminate].
  intros _. apply strip_nil_blank. exact E.
Qed.

Lemma unit_of_speakable (s u : pystr) :
  no_terminal s -> unit_of s = Some u -> speakable u.
Proof.
  intros Hs Hu. apply unit_of_some in Hu as [-> Hne].
  unfold speakable. rewrite strip_idem.
  split; [exact Hne | split; [reflexivity | apply strip_no_terminal; exact Hs]].
Qed.

(* ===================================================================== *)
(** ** Segmenter *)
(* ===================================================================== *)

(** What the scan of [re.split] returns, outside and inside a run. *)
Lemma split_from_glue (text : pystr) :
  (forall piece, exists p0 rs,
      split_from false piece text = (rev piece ++ p0) :: map snd rs
      /\ text = glue p0 rs
      /\ no_terminal p0
      /\ Forall (fun rp => is_run (fst rp) /\ no_terminal (snd rp)) rs
      /\ runs_maximal rs)
  /\ (exists run p0 rs,
      split_from true [] text = p0 :: map snd rs
      /\ text = run ++ glue p0 rs
      /\ Forall (fun c => is_terminal c = true) run
      /\ no_terminal p0
      /\ Forall (fun rp => is_run (fst rp) /\ no_terminal (snd rp)) rs
      /\ runs_maximal rs
      /\ (p0 = [] -> rs = [])).
Proof.
  induction text as [|c text [IHout IHin]].
  - split.
    + intros piece. exists [], []. simpl. rewrite app_nil_r.
      repeat split; constructor.
    + exists [], [], []. simpl. repeat split; constructor.
  - split.
    + intros piece. simpl. destruct (is_terminal c) eqn:Hc.
      * destruct IHin as (run & p0 & rs & Hs & Ht & Hrun & Hp0 & Hrs & Hmax & Hlast).
        exists [], ((c :: run, p0) :: rs). rewrite Hs, app_nil_r.
        repeat split; simpl.
        -- unfold glue. simpl. rewrite Ht. unfold glue.
           rewrite <- app_assoc. reflexivity.
        -- constructor.
        -- constructor; [|exact Hrs]. simpl.
           split; [|exact Hp0]. split; [discriminate|].
           constructor; assumption.
        -- exact Hlast.
        -- exact Hmax.
      * destruct (IHout (c :: piece)) as (p0 & rs & Hs & Ht & Hp0 & Hrs & Hmax).
        exists (c :: p0), rs. rewrite Hs. simpl. rewrite <- app_assoc.
        repeat split; simpl.
        -- unfold glue in *. simpl. rewrite Ht. reflexivity.
        -- constructor; assumption.
        -- exact Hrs.
        -- exact Hmax.
    + simpl. destruct (is_terminal c) eqn:Hc.
      * destruct IHin as (run & p0 & rs & Hs & Ht & Hrun & Hp0 & Hrs & Hmax & Hlast).
        exists (c :: run), p0, rs. rewrite Hs.
        repeat split; simpl; try assumption.
        -- rewrite Ht. reflexivity.
        -- constructor; assumption.
      * destruct (IHout [c]) as (p0 & rs & Hs & Ht & Hp0 & Hrs & Hmax).
        exists [], (c :: p0), rs. rewrite Hs.
        repeat split; simpl; try assumption.
        -- unfold glue in *. simpl. rewrite Ht. reflexivity.
        -- constructor.
        -- constructor; assumption.
        -- discriminate.
Qed.

(** [re.split] cuts the text at the maximal runs of punctuation. *)
Lemma re_split_glue (text : pystr) :
  exists p0 rs,
    re_split text = p0 :: map snd rs
    /\ text = glue p0 rs
    /\ no_terminal p0
    /\ Forall (fun rp => is_run (fst rp) /\ no_terminal (snd rp)) rs
    /\ runs_maximal rs.
Proof.
  destruct (split_from_glue text) as [H _].
  destruct (H []) as (p0 & rs & Hs & Hrest). exists p0, rs.
  split; [exact Hs | exact Hrest].
Qed.

(** Pieces to units: the units, in order, with what lies between them. *)
Lemma weave_pieces (rs : list (pystr * pystr)) :
  forall p0 g,
    discarded g -> no_terminal p0 ->
    Forall (fun rp => is_run (fst rp) /\ no_terminal (snd rp)) rs ->
    exists gus last_gap,
      map snd gus = omap unit_of (p0 :: map snd rs)
      /\ g ++ glue p0 rs = weave gus last_gap
      /\ discarded last_gap
      /\ Forall discarded (map fst gus)
      /\ (has_terminal g -> Forall has_terminal (map fst gus))
      /\ Forall has_terminal (map fst (tail gus))
      /\ Forall speakable (map snd gus).
Proof.
  induction rs as [|[r p] rs IH]; intros p0 g Hg Hp0 Hrs.
  - destruct (unit_of p0) as [u|] eqn:Hu.
    + destruct (strip_split p0) as (a & b & Hp & Ha & Hb).
      pose proof (unit_of_speakable _ _ Hp0 Hu) as Hsp.
      pose proof (unit_of_some _ _ Hu) as [Heq _].
      exists [(g ++ a, u)], b. cbn. rewrite Hu.
      repeat split.
      * unfold glue, weave. cbn. rewrite !app_nil_r, <- !app_assoc.
        rewrite Heq. rewrite <- Hp. reflexivity.
      * apply blank_discarded. exact Hb.
      * constructor; [|constructor]. apply Forall_app.
        split; [exact Hg | apply blank_discarded; exact Ha].
      * intros Ht. constructor; [|constructor].
        apply Exists_app. left. exact Ht.
      * constructor.
      * constructor; [exact Hsp | constructor].
    + exists [], (g ++ p0). cbn. rewrite Hu.
      repeat split; try constructor.
      * unfold glue, weave. cbn. rewrite app_nil_r. reflexivity.
      * apply Forall_app. split; [exact Hg|].
        apply blank_discarded, unit_of_none. exact Hu.
  - apply Forall_cons in Hrs as [[Hr Hp] Hrs]. cbn in Hr, Hp.
    destruct (unit_of p0) as [u|] eqn:Hu.
    + destruct (strip_split p0) as (a & b & Hp0eq & Ha & Hb).
      pose proof (unit_of_speakable _ _ Hp0 Hu) as Hsp.
      pose proof (unit_of_some _ _ Hu) as [Heq _].
      destruct (IH p (b ++ r)) as
        (gus & lg & Hmap & Hw & Hlg & Hd & Hht & Htl & Hspk);
        [ apply Forall_app; split;
          [apply blank_discarded; exact Hb | apply run_discarded; exact Hr]
        | exact Hp | exact Hrs | ].
      exists ((g ++ a, u) :: gus), lg.
      cbn [map snd fst tail]. cbn [map snd] in Hmap.
      repeat split.
      * change (omap unit_of (p0 :: p :: map snd rs))
          with (match unit_of p0 with
                | Some y => y :: omap unit_of (p :: map snd rs)
                | None => omap unit_of (p :: map snd rs)
                end).
        rewrite Hu, <- Hmap. reflexivity.
      * unfold weave in *. unfold glue in *. cbn [map concat fst snd] in *.
        rewrite <- !app_assoc. rewrite <- !app_assoc in Hw.
        rewrite <- Hw. rewrite Heq.
        rewrite Hp0eq at 1. rewrite <- !app_assoc. reflexivity.
      * exact Hlg.
      * constructor; [|exact Hd]. apply Forall_app.
        split; [exact Hg | apply blank_discarded; exact Ha].
      * intros Ht. constructor.
        -- apply Exists_app. left. exact Ht.
        -- apply Hht. apply Exists_app. right.
           apply run_has_terminal. exact Hr.
      * apply Hht. apply Exists_app. right.
        apply run_has_terminal. exact Hr.
      * constructor; [exact Hsp | exact Hspk].
    + destruct (IH p (g ++ p0 ++ r)) as
        (gus & lg & Hmap & Hw & Hlg & Hd & Hht & Htl & Hspk);
        [ apply Forall_app; split; [exact Hg|]; apply Forall_app; split;
          [ apply blank_discarded, unit_of_none; exact Hu
          | apply run_discarded; exact Hr]
        | exact Hp | exact Hrs | ].
      exists gus, lg. cbn [map snd] in Hmap |- *.
      repeat split; try assumption.
      * change (omap unit_of (p0 :: p :: map snd rs))
          with (match unit_of p0 with
                | Some y => y :: omap unit_of (p :: map snd rs)
                | None => omap unit_of (p :: map snd rs)
                end).
        rewrite Hu. exact Hmap.
      * unfold glue in *. cbn [map concat fst snd] in *.
        rewrite <- Hw. rewrite <- !app_assoc. reflexivity.
      * intros _. apply Hht. apply Exists_app. right.
        apply Exists_app. right. apply run_has_terminal. exact Hr.
Qed.

(** C4. For every text [T]: [re.split] cuts [T] at the maximal runs of
    terminal punctuation (the pieces hold no punctuation, [T] is the
    pieces glued back with the runs); every unit of [segment T] is
    non-empty after trimming, trimmed and free of punctuation; and [T] is
    the units in their order of [segment T], each preceded by a gap of
    discarded punctuation and white space, every gap between two units
    holding punctuation. *)
Theorem segment_preserves_reading_order (T : pystr) :
  (exists p0 rs,
      re_split T = p0 :: map snd rs
      /\ T = glue p0 rs
      /\ no_terminal p0
      /\ Forall (fun rp => is_run (fst rp) /\ no_terminal (snd rp)) rs
      /\ runs_maximal rs)
  /\ Forall (fun u => strip u <> []) (segment T)
  /\ Forall speakable (segment T)
  /\ (exists gus last_gap,
         map snd gus = segment T
         /\ T = weave gus last_gap
         /\ discarded last_gap
         /\ Forall discarded (map fst gus)
         /\ Forall has_terminal (map fst (tail gus))).
Proof.
  destruct (re_split_glue T) as (p0 & rs & Hs & HT & Hp0 & Hrs & Hmax).
  assert (Hnil : discarded []) by constructor.
  destruct (weave_pieces rs p0 [] Hnil Hp0 Hrs) as
    (gus & lg & Hmap & Hw & Hlg & Hd & _ & Htl & Hspk).
  assert (Hseg : map snd gus = segment T)
    by (unfold segment; rewrite Hs; exact Hmap).
  split; [exists p0, rs; auto|].
  rewrite <- Hseg. split; [|split].
  - eapply Forall_impl; [exact Hspk|]. intros u [Hu _]. exact Hu.
  - exact Hspk.
  - exists gus, lg. cbn in Hw. rewrite <- HT in Hw. auto.
Qed.

Lemma split_from_no_terminal (text : pystr) :
  no_terminal text ->
  forall piece, split_from false piece text = [rev piece ++ text].
Proof.
  induction 1 as [|c text Hc _ IH]; intros piece; simpl.
  - rewrite app_nil_r. reflexivity.
  - rewrite Hc, IH. simpl. rewrite <- app_assoc. reflexivity.
Qed.

(** C5. A text without terminal punctuation yields no unit when it is
    empty or all white space, and otherwise exactly one unit, the whole
    text trimmed. *)
Theorem segment_without_punctuation (T : pystr) :
  no_terminal T ->
  (blank T -> segment T = [])
  /\ (~ blank T -> segment T = [strip T]).
Proof.
  intros HT. unfold segment, re_split.
  rewrite (split_from_no_terminal T HT []). cbn.
  unfold unit_of. split.
  - intros Hb. rewrite (strip_blank T Hb). reflexivity.
  - intros Hnb. destruct (strip T) eqn:E; [|reflexivity].
    exfalso. apply Hnb. apply strip_nil_blank. exact E.
Qed.

Lemma segment_without_punctuation_witness :
  no_terminal (py " Hello world ")
  /\ segment (py " Hello world ") = [strip (py " Hello world ")]
  /\ segment (py "  ") = [].
Proof.
  assert (H1 : no_terminal (py " Hello world "))
    by (repeat constructor).
  assert (H2 : no_terminal (py "  ")) by (repeat constructor).
  split; [exact H1 | split].
  - apply (segment_without_punctuation (py " Hello world ") H1).
    intros Hb. inversion Hb as [|? ? _ Hb']. inversion Hb' as [|? ? Hc _].
    discriminate Hc.
  - apply (segment_without_punctuation (py "  ") H2). repeat constructor.
Defined.

(** *** The reading of a text is unique *)

Lemma kept_not_discarded (c : char) (s : pystr) :
  kept c -> discarded (c :: s) -> False.
Proof.
  intros [Ht Hs] H. apply Forall_cons in H as [[H|H] _]; congruence.
Qed.

(** The discarded prefix in front of a kept character is determined. *)
Lemma gap_determined (g g' : pystr) (c c' : char) (r r' : pystr) :
  discarded g -> discarded g' -> kept c -> kept c' ->
  g ++ c :: r = g' ++ c' :: r' -> g = g' /\ c :: r = c' :: r'.
Proof.
  revert g'. induction g as [|d g IH]; intros g' Hg Hg' Hc Hc' H.
  - destruct g' as [|d' g']; [auto|]. cbn in H. injection H as <- _.
    exfalso. exact (kept_not_discarded _ _ Hc Hg').
  - destruct g' as [|d' g']; cbn in H.
    + injection H as -> _. exfalso. exact (kept_not_discarded _ _ Hc' Hg).
    + injection H as <- H.
      apply Forall_cons in Hg as [_ Hg]. apply Forall_cons in Hg' as [_ Hg'].
      destruct (IH g' Hg Hg' Hc Hc' H) as [-> Hr]. auto.
Qed.

Lemma gap_not_all (g : pystr) (c : char) (r lg : pystr) :
  kept c -> discarded lg -> g ++ c :: r = lg -> False.
Proof.
  intros Hc Hlg H. rewrite <- H in Hlg. apply Forall_app in Hlg as [_ Hlg].
  exact (kept_not_discarded _ _ Hc Hlg).
Qed.

Lemma rstrip_app_blank (x b : pystr) : blank b -> rstrip (x ++ b) = rstrip x.
Proof.
  intros Hb. unfold rstrip. rewrite rev_app_distr.
  rewrite lstrip_app_blank; [reflexivity|].
  unfold blank. apply Forall_rev. exact Hb.
Qed.

Lemma rstrip_length (x : pystr) : (length (rstrip x) <= length x)%nat.
Proof.
  destruct (rstrip_split x) as [b [Hx _]].
  rewrite Hx at 2. rewrite length_app. lia.
Qed.

Lemma speakable_head (u : pystr) :
  speakable u -> exists c u', u = c :: u' /\ kept c.
Proof.
  intros (Hne & Hs & Hnt). rewrite Hs in Hne.
  destruct u as [|c u']; [congruence|]. exists c, u'. split; [reflexivity|].
  apply Forall_cons in Hnt as [Hc _]. split; [exact Hc|].
  unfold strip in Hs. 
  destruct (isspace c) eqn:E; [|reflexivity]. exfalso.
  assert (Hlen : (length (rstrip (lstrip (c :: u'))) <= length u')%nat).
  { etransitivity; [apply rstrip_length|]. cbn. rewrite E.
    destruct (lstrip_split u') as [a [Ha _]]. rewrite Ha at 2.
    rewrite length_app. lia. }
  rewrite Hs in Hlen. cbn in Hlen. lia.
Qed.

(** A trimmed string has no blank suffix. *)
Lemma speakable_no_blank_tail (u x b : pystr) :
  speakable u -> u = x ++ b -> blank b -> b = [].
Proof.
  intros (_ & Hs & _) Hu Hb.
  assert (Hr : rstrip u = u).
  { rewrite <- Hs at 1. unfold strip. rewrite rstrip_idem. exact Hs. }
  rewrite Hu, rstrip_app_blank in Hr by exact Hb.
  pose proof (rstrip_length x) as Hlen. rewrite Hr, length_app in Hlen.
  destruct b; [reflexivity | cbn in Hlen; lia].
Qed.

Lemma discarded_no_terminal_blank (x : pystr) :
  discarded x -> no_terminal x -> blank x.
Proof.
  intros Hd Hn. induction x as [|c x IH]; [constructor|].
  apply Forall_cons in Hd as [[Hd|Hd] Hd'];
    apply Forall_cons in Hn as [Hn Hn']; [congruence|].
  constructor; [exact Hd | apply IH; assumption].
Qed.

Lemma discarded_gap_led (s : pystr) : discarded s -> gap_led s.
Proof.
  intros Hd x y -> Hn. apply Forall_app in Hd as [Hd _].
  apply discarded_no_terminal_blank; assumption.
Qed.

Lemma terminal_gap_led (g rest : pystr) :
  discarded g -> has_terminal g -> gap_led (g ++ rest).
Proof.
  intros Hd Ht x y Hxy Hn.
  apply Exists_exists in Ht as (t & Hin & Ht).
  apply list_elem_of_split in Hin as (a & b & ->).
  rewrite <- app_assoc in Hxy. cbn in Hxy.
  apply app_eq_app in Hxy as [l [[-> H] | [-> H]]].
  - apply Forall_app in Hd as [Hd _]. apply Forall_app in Hd as [Hd _].
    apply discarded_no_terminal_blank; assumption.
  - destruct l as [|c l]; cbn in H.
    + apply Forall_app in Hd as [Hd _].
      rewrite app_nil_r in *. apply discarded_no_terminal_blank; assumption.
    + injection H as <- _. apply Forall_app in Hn as [_ Hn].
      apply Forall_cons in Hn as [Hn _]. congruence.
Qed.

(** Where a unit ends is determined by what may follow it. *)
Lemma unit_determined (u u' rest rest' : pystr) :
  speakable u -> speakable u' -> gap_led rest -> gap_led rest' ->
  u ++ rest = u' ++ rest' -> u = u' /\ rest = rest'.
Proof.
  intros Hu Hu' Hr Hr' H.
  apply app_eq_app in H as [l [[-> H] | [-> H]]].
  - assert (l = []) as ->.
    { eapply (speakable_no_blank_tail (u' ++ l)); [exact Hu | reflexivity|].
      apply (Hr' l rest H). destruct Hu as (_ & _ & Hn).
      apply Forall_app in Hn as [_ Hn]. exact Hn. }
    rewrite app_nil_r. cbn in H. auto.
  - assert (l = []) as ->.
    { eapply (speakable_no_blank_tail (u ++ l)); [exact Hu' | reflexivity|].
      apply (Hr l rest' H). destruct Hu' as (_ & _ & Hn).
      apply Forall_app in Hn as [_ Hn]. exact Hn. }
    rewrite app_nil_r. cbn in H. auto.
Qed.

Lemma reading_gap_led (gus : list (pystr * pystr)) (lg : pystr) :
  discarded lg -> Forall discarded (map fst gus) ->
  Forall has_terminal (map fst gus) ->
  gap_led (weave gus lg).
Proof.
  intros Hlg Hd Ht. destruct gus as [|[g u] gus].
  - apply discarded_gap_led. exact Hlg.
  - cbn in *. apply Forall_cons in Hd as [Hd _].
    apply Forall_cons in Ht as [Ht _].
    unfold weave. cbn. rewrite <- !app_assoc.
    apply terminal_gap_led; assumption.
Qed.

Lemma weave_cons (g u : pystr) (gus : list (pystr * pystr)) (lg : pystr) :
  weave ((g, u) :: gus) lg = g ++ u ++ weave gus lg.
Proof. unfold weave. cbn. rewrite <- !app_assoc. reflexivity. Qed.

(** Two readings of a text have the same units. *)
Lemma reading_determined (gus : list (pystr * pystr)) :
  forall T lg gus' lg',
    reading T gus lg -> reading T gus' lg' -> map snd gus = map snd gus'.
Proof.
  induction gus as [|[g u] gus IH];
    intros T lg gus' lg' (HT & Hlg & Hd & Ht & Hs) (HT' & Hlg' & Hd' & Ht' & Hs').
  - destruct gus' as [|[g' u'] gus']; [reflexivity|]. exfalso.
    cbn [map fst snd] in Hs'. apply Forall_cons in Hs' as [Hu' _].
    destruct (speakable_head u' Hu') as (c & v & -> & Hc).
    rewrite HT, weave_cons in HT'. unfold weave in HT' at 1. cbn in HT'.
    symmetry in HT'. exact (gap_not_all _ _ _ _ Hc Hlg HT').
  - cbn [map fst snd tail] in Hs, Hd, Ht.
    apply Forall_cons in Hs as [Hu Hs]. apply Forall_cons in Hd as [Hg Hd].
    destruct (speakable_head u Hu) as (c & v & Hueq & Hc).
    destruct gus' as [|[g' u'] gus'].
    + exfalso. rewrite HT', weave_cons, Hueq in HT.
      unfold weave in HT at 1. cbn in HT. symmetry in HT.
      exact (gap_not_all _ _ _ _ Hc Hlg' HT).
    + cbn [map fst snd tail] in Hs', Hd', Ht' |- *.
      apply Forall_cons in Hs' as [Hu' Hs'].
      apply Forall_cons in Hd' as [Hg' Hd'].
      destruct (speakable_head u' Hu') as (c' & v' & Hueq' & Hc').
      rewrite HT, !weave_cons in HT'.
      rewrite Hueq, Hueq' in HT'. cbn [app] in HT'.
      destruct (gap_determined g g' c c' _ _ Hg Hg' Hc Hc' HT') as [_ Hrest].
      change (c :: v ++ weave gus lg) with ((c :: v) ++ weave gus lg) in Hrest.
      change (c' :: v' ++ weave gus' lg')
        with ((c' :: v') ++ weave gus' lg') in Hrest.
      rewrite <- Hueq, <- Hueq' in Hrest.
      destruct (unit_determined u u' _ _ Hu Hu'
                  (reading_gap_led gus lg Hlg Hd Ht)
                  (reading_gap_led gus' lg' Hlg' Hd' Ht') Hrest)
        as [-> Hw].
      f_equal. apply (IH (weave gus lg) lg gus' lg').
      * repeat split; try assumption.
        destruct gus as [|[] ?]; [constructor|]. cbn [map fst tail] in *.
        apply Forall_cons in Ht as [_ Ht]. exact Ht.
      * repeat split; try assumption.
        destruct gus' as [|[] ?]; [constructor|]. cbn [map fst tail] in *.
        apply Forall_cons in Ht' as [_ Ht']. exact Ht'.
Qed.

(** The units of [segment T] are the units of every reading of [T]. *)
Lemma segment_determined (T : pystr) (gus : list (pystr * pystr))
    (last_gap : pystr) :
  reading T gus last_gap -> map snd gus = segment T.
Proof.
  intros Hr.
  destruct (re_split_glue T) as (p0 & rs & Hs & HT & Hp0 & Hrs & _).
  assert (Hnil : discarded []) by constructor.
  destruct (weave_pieces rs p0 [] Hnil Hp0 Hrs) as
    (gus0 & lg0 & Hmap & Hw & Hlg & Hd & _ & Htl & Hspk).
  cbn [app] in Hw. rewrite <- HT in Hw.
  unfold segment. rewrite Hs, <- Hmap.
  apply (reading_determined gus T last_gap gus0 lg0 Hr).
  repeat split; assumption.
Qed.

(* ===================================================================== *)
(** ** NarrationTask *)
(* ===================================================================== *)

Section NarrationFacts.

Variable sink_ok : pystr -> bool.

Lemma run_from_app (t : task) (s1 s2 : list flags) :
  run_from sink_ok t (s1 ++ s2) = run_from sink_ok (run_from sink_ok t s1) s2.
Proof. apply fold_left_app. Qed.

Lemma run_from_done f (done : list pystr) (sched : list flags) :
  run_from sink_ok (Task (Done f) done) sched = Task (Done f) done.
Proof. induction sched as [|now sched IH]; [reflexivity | exact IH]. Qed.

Lemma run_from_ended (t : task) (sched : list flags) :
  ended t = true -> run_from sink_ok t sched = t.
Proof.
  destruct t as [[] done]; try discriminate. intros _.
  apply run_from_done.
Qed.

Lemma advance_inv (text : pystr) (rest done : list pystr) :
  done ++ omap unit_of rest = segment text ->
  task_inv sink_ok text (Task (advance rest) done).
Proof.
  destruct rest as [|s rest]; unfold task_inv; cbn; intros H.
  - rewrite app_nil_r in H. exact H.
  - exact H.
Qed.

Lemma omap_unit_cons (s : pystr) (rest : list pystr) :
  omap unit_of (s :: rest) =
  match unit_of s with
  | Some u => u :: omap unit_of rest
  | None => omap unit_of rest
  end.
Proof. reflexivity. Qed.

Lemma render_inv (text s : pystr) (rest done : list pystr) :
  done ++ omap unit_of (s :: rest) = segment text ->
  task_inv sink_ok text (render sink_ok s rest done).
Proof.
  rewrite omap_unit_cons. unfold render.
  destruct (unit_of s) as [u|]; intros H.
  - destruct (sink_ok u) eqn:Hu.
    + apply advance_inv. rewrite <- app_assoc. exact H.
    + unfold task_inv. cbn. split; [exact Hu | eauto].
  - apply advance_inv. exact H.
Qed.

Lemma step_inv (text : pystr) (t : task) (now : flags) :
  task_inv sink_ok text t -> task_inv sink_ok text (step sink_ok t now).
Proof.
  destruct t as [p done]. unfold step. cbn [at_pc said].
  destruct p as [s rest|s rest|s rest|s rest|f]; intros H.
  - destruct (f_stopped now); [|exact H].
    unfold task_inv in *. cbn in *. eauto.
  - destruct (f_paused now); exact H.
  - destruct (f_stopped now); exact H.
  - destruct (f_stopped now); [|apply render_inv; exact H].
    unfold task_inv in *. cbn in *. eauto.
  - exact H.
Qed.

Lemma start_inv (text : pystr) : task_inv sink_ok text (start text).
Proof. apply advance_inv. reflexivity. Qed.

Lemma run_from_inv (text : pystr) (sched : list flags) :
  forall t, task_inv sink_ok text t -> task_inv sink_ok text (run_from sink_ok t sched).
Proof.
  induction sched as [|now sched IH]; intros t H; [exact H|].
  apply IH, step_inv, H.
Qed.

Lemma speak_text_inv (text : pystr) (sched : list flags) :
  task_inv sink_ok text (speak_text sink_ok text sched).
Proof. apply run_from_inv, start_inv. Qed.

(** A read that sees [stopped] renders nothing. *)
Lemma step_stopped_said (t : task) (now : flags) :
  is_stopped now -> said (step sink_ok t now) = said t.
Proof.
  unfold is_stopped. intros H. destruct t as [[] done]; unfold step; cbn;
    rewrite ?H; try reflexivity.
  destruct (f_paused now); reflexivity.
Qed.

Lemma run_stopped_said (sched : list flags) :
  Forall is_stopped sched ->
  forall t, said (run_from sink_ok t sched) = said t.
Proof.
  induction 1 as [|now sched Hnow _ IH]; intros t; [reflexivity|].
  cbn. change (fold_left (step sink_ok) sched (step sink_ok t now))
    with (run_from sink_ok (step sink_ok t now) sched).
  rewrite IH. apply step_stopped_said, Hnow.
Qed.

(** Three reads after [stopped] was set, the task has ended. *)
Lemma run_stopped_ended (t : task) (f1 f2 f3 : flags) (sched : list flags) :
  is_stopped f1 -> is_stopped f2 -> is_stopped f3 ->
  ended (run_from sink_ok t (f1 :: f2 :: f3 :: sched)) = true.
Proof.
  unfold is_stopped. intros H1 H2 H3.
  change (run_from sink_ok t (f1 :: f2 :: f3 :: sched))
    with (run_from sink_ok (step sink_ok (step sink_ok (step sink_ok t f1) f2) f3) sched).
  assert (E : ended (step sink_ok (step sink_ok (step sink_ok t f1) f2) f3) = true).
  { destruct t as [[] done]; unfold step; cbn; rewrite ?H1; cbn;
      rewrite ?H2; cbn; rewrite ?H3; cbn; try reflexivity;
      destruct (f_paused f1); cbn; rewrite ?H2; cbn; rewrite ?H3; cbn;
      try reflexivity;
      destruct (f_paused f2); cbn; rewrite ?H3; reflexivity. }
  rewrite run_from_ended by exact E. exact E.
Qed.

(** The task only reports [Stopped] after a read that saw the event. *)
Lemma run_from_stopped_seen (sched : list flags) :
  forall t, at_pc (run_from sink_ok t sched) = Done Stopped ->
            at_pc t = Done Stopped \/ Exists is_stopped sched.
Proof.
  induction sched as [|now sched IH]; intros t H; [left; exact H|].
  destruct (IH _ H) as [Hs|Hs]; [|right; right; exact Hs].
  destruct (f_stopped now) eqn:Hnow; [right; left; exact Hnow|].
  left. destruct t as [[s rest|s rest|s rest|s rest|f] done];
    unfold step in Hs; cbn in Hs; rewrite ?Hnow in Hs;
    try discriminate; try exact Hs.
  - destruct (f_paused now); discriminate.
  - unfold render in Hs. destruct (unit_of s) as [u|];
      [destruct (sink_ok u)|]; cbn in Hs;
      try discriminate; destruct rest; discriminate.
Qed.

(** Three quiet reads take the loop through one sentence. *)
Lemma run_quiet_sentence (s : pystr) (rest done : list pystr)
    (sched : list flags) :
  run_from sink_ok (Task (AtTop s rest) done) (quiet :: quiet :: quiet :: sched)
  = run_from sink_ok (render sink_ok s rest done) sched.
Proof. reflexivity. Qed.

Lemma quiet_three (n : nat) (sched : list flags) :
  Forall is_quiet sched -> (3 * S n <= length sched)%nat ->
  exists sched', sched = quiet :: quiet :: quiet :: sched'
                 /\ Forall is_quiet sched'
                 /\ (3 * n <= length sched')%nat.
Proof.
  intros Hq Hlen.
  destruct sched as [|f1 [|f2 [|f3 sched']]]; cbn in Hlen; try lia.
  apply Forall_cons in Hq as [-> Hq]. apply Forall_cons in Hq as [-> Hq].
  apply Forall_cons in Hq as [-> Hq].
  exists sched'. repeat split; [exact Hq | lia].
Qed.

(** Left alone, the task renders every unit and runs out of sentences. *)
Lemma run_quiet_exhausts (sentences : list pystr) :
  forall done sched,
    Forall is_quiet sched ->
    (3 * length sentences <= length sched)%nat ->
    Forall (fun u => sink_ok u = true) (omap unit_of sentences) ->
    run_from sink_ok (Task (advance sentences) done) sched
    = Task (Done Exhausted) (done ++ omap unit_of sentences).
Proof.
  induction sentences as [|s rest IH]; intros done sched Hq Hlen Hok.
  - cbn. rewrite app_nil_r. apply run_from_done.
  - destruct (quiet_three _ _ Hq Hlen) as (sched' & -> & Hq' & Hlen').
    cbn [advance]. rewrite run_quiet_sentence.
    rewrite omap_unit_cons in Hok |- *. unfold render.
    destruct (unit_of s) as [u|].
    + apply Forall_cons in Hok as [Hu Hok]. rewrite Hu.
      rewrite IH by assumption. rewrite <- app_assoc. reflexivity.
    + apply IH; assumption.
Qed.

(** Left alone, the task ends at the first unit the engine refuses. *)
Lemma run_quiet_raises (sentences : list pystr) :
  forall done sched before u later,
    Forall is_quiet sched ->
    (3 * length sentences <= length sched)%nat ->
    omap unit_of sentences = before ++ u :: later ->
    Forall (fun v => sink_ok v = true) before ->
    sink_ok u = false ->
    run_from sink_ok (Task (advance sentences) done) sched
    = Task (Done (Raised u)) (done ++ before).
Proof.
  induction sentences as [|s rest IH];
    intros done sched before u later Hq Hlen Hseg Hok Hu.
  - destruct before; discriminate.
  - destruct (quiet_three _ _ Hq Hlen) as (sched' & -> & Hq' & Hlen').
    cbn [advance]. rewrite run_quiet_sentence.
    rewrite omap_unit_cons in Hseg. unfold render.
    destruct (unit_of s) as [v|].
    + destruct before as [|b before]; cbn in Hseg.
      * injection Hseg as -> Hrest. rewrite Hu, app_nil_r.
        apply run_from_done.
      * injection Hseg as -> Hrest.
        apply Forall_cons in Hok as [Hb Hok]. rewrite Hb.
        rewrite (IH _ sched' before u later) by assumption.
        rewrite <- app_assoc. reflexivity.
    + eapply IH; eassumption.
Qed.

End NarrationFacts.

(** C1, as the code has it. When the engine raises on a unit [u], the
    narration task ends there: the units before [u] were rendered, [u] and
    every later unit are not, no further read changes the task, and the
    error leaves [speak_text].  Left alone (no pause, no stop), a task
    whose text holds such a unit does end this way, at the first one. *)
Theorem sink_failure_ends_narration (sink_ok : pystr -> bool) (text : pystr) :
  (forall sched u,
      at_pc (speak_text sink_ok text sched) = Done (Raised u) ->
      sink_ok u = false
      /\ (exists later,
             segment text = said (speak_text sink_ok text sched) ++ u :: later)
      /\ (forall more,
             speak_text sink_ok text (sched ++ more)
             = speak_text sink_ok text sched))
  /\ (forall before u later sched,
         segment text = before ++ u :: later ->
         Forall (fun v => sink_ok v = true) before ->
         sink_ok u = false ->
         Forall is_quiet sched ->
         (3 * length (re_split text) <= length sched)%nat ->
         speak_text sink_ok text sched = Task (Done (Raised u)) before).
Proof.
  split.
  - intros sched u H.
    pose proof (speak_text_inv sink_ok text sched) as Hinv.
    unfold task_inv in Hinv. rewrite H in Hinv.
    destruct Hinv as [Hu [later Hl]].
    split; [exact Hu | split; [exists later; symmetry; exact Hl|]].
    intros more. unfold speak_text. rewrite run_from_app.
    apply run_from_ended. unfold ended.
    change (run_from sink_ok (start text) sched)
      with (speak_text sink_ok text sched).
    rewrite H. reflexivity.
  - intros before u later sched Hseg Hok Hu Hq Hlen.
    unfold speak_text, start.
    rewrite (run_quiet_raises sink_ok (re_split text) [] sched before u later);
      auto.
Qed.

Lemma sink_failure_ends_narration_witness :
  at_pc (speak_text refuses_a (py "a. b") (repeat quiet 6))
  = Done (Raised (py "a"))
  /\ segment (py "a. b") = [] ++ py "a" :: [py "b"]
  /\ speak_text refuses_a (py "a. b") (repeat quiet 6 ++ [quiet])
     = speak_text refuses_a (py "a. b") (repeat quiet 6)
  /\ speak_text refuses_a (py "a. b") (repeat quiet 6)
     = Task (Done (Raised (py "a"))) [].
Proof.
  destruct (sink_failure_ends_narration refuses_a (py "a. b")) as [H1 H2].
  assert (E : at_pc (speak_text refuses_a (py "a. b") (repeat quiet 6))
              = Done (Raised (py "a"))) by reflexivity.
  destruct (H1 (repeat quiet 6) (py "a") E) as (_ & _ & Hmore).
  split; [exact E | split; [reflexivity | split; [apply Hmore|]]].
  apply (H2 [] (py "a") [py "b"]).
  - reflexivity.
  - constructor.
  - reflexivity.
  - repeat constructor.
  - vm_compute. lia.
Defined.

(** C1 as stated fails: the engine refuses the first unit of [a. b]; the
    task ends with the error, and the unit [b], which the engine would
    render, is never rendered. *)
Lemma sink_failure_aborts_narration :
  speak_text refuses_a (py "a. b") (repeat quiet 6)
  = Task (Done (Raised (py "a"))) []
  /\ segment (py "a. b") = [py "a"; py "b"]
  /\ refuses_a (py "b") = true
  /\ forall sched,
       ~ In (py "b") (said (speak_text refuses_a (py "a. b")
                              (repeat quiet 6 ++ sched))).
Proof.
  split; [reflexivity | split; [reflexivity | split; [reflexivity|]]].
  intros sched. unfold speak_text. rewrite run_from_app.
  rewrite run_from_ended by reflexivity. cbn. tauto.
Qed.

(** C3 as stated fails: the engine refuses the second unit of
    [One. a. Two]; read after read without [stopped] ever set, the task
    has ended after the first unit, with units of the text left
    unrendered.  It ended neither exhausted nor stopped. *)
Lemma unstopped_narration_ends_early :
  let sched := repeat quiet 6 in
  let t := speak_text refuses_a (py "One. a. Two") sched in
  Forall is_quiet sched
  /\ ~ Exists is_stopped sched
  /\ ended t = true
  /\ at_pc t = Done (Raised (py "a"))
  /\ said t = [py "One"]
  /\ segment (py "One. a. Two") = [py "One"; py "a"; py "Two"].
Proof.
  intros sched t.
  assert (Hq : Forall is_quiet sched) by (repeat constructor).
  split; [exact Hq | split].
  - intros Hs. apply Exists_exists in Hs as (f & Hin & Hf).
    rewrite Forall_forall in Hq. specialize (Hq f Hin).
    unfold is_quiet in Hq. unfold is_stopped in Hf.
    rewrite Hq in Hf. discriminate.
  - repeat split; vm_compute; reflexivity.
Qed.

(** C3, as the code has it. Once [stopped] is set (every later read sees
    it), the task renders no further unit and has ended after at most
    three reads.  A task that has ended either ran out of sentences,
    having rendered every unit, or saw [stopped], or was ended by the
    engine raising on the unit that follows the ones rendered.  When the
    engine renders every unit of the text, a task left alone does run
    out of sentences. *)
Theorem stopped_ends_narration (sink_ok : pystr -> bool) (text : pystr) :
  (forall pre post,
      Forall is_stopped post ->
      said (speak_text sink_ok text (pre ++ post))
      = said (speak_text sink_ok text pre)
      /\ ((3 <= length post)%nat ->
          ended (speak_text sink_ok text (pre ++ post)) = true))
  /\ (forall sched f,
         at_pc (speak_text sink_ok text sched) = Done f ->
         (f = Exhausted
          /\ said (speak_text sink_ok text sched) = segment text)
         \/ (f = Stopped
             /\ Exists is_stopped sched
             /\ exists later,
                 said (speak_text sink_ok text sched) ++ later
                 = segment text)
         \/ (exists u later,
                f = Raised u
                /\ sink_ok u = false
                /\ said (speak_text sink_ok text sched) ++ u :: later
                   = segment text))
  /\ (Forall (fun u => sink_ok u = true) (segment text) ->
      forall sched,
        Forall is_quiet sched ->
        (3 * length (re_split text) <= length sched)%nat ->
        speak_text sink_ok text sched
        = Task (Done Exhausted) (segment text)).
Proof.
  split; [|split].
  - intros pre post Hpost. unfold speak_text. rewrite run_from_app. split.
    + apply run_stopped_said. exact Hpost.
    + intros Hlen. destruct post as [|f1 [|f2 [|f3 post]]]; cbn in Hlen; try lia.
      apply Forall_cons in Hpost as [H1 Hpost].
      apply Forall_cons in Hpost as [H2 Hpost].
      apply Forall_cons in Hpost as [H3 _].
      apply run_stopped_ended; assumption.
  - intros sched f H.
    pose proof (speak_text_inv sink_ok text sched) as Hinv.
    unfold task_inv in Hinv. rewrite H in Hinv.
    destruct f as [| |u].
    + left. auto.
    + right. left. split; [reflexivity | split; [|exact Hinv]].
      destruct (run_from_stopped_seen sink_ok sched _ H) as [Hs|Hs];
        [|exact Hs].
      unfold start in Hs. cbn in Hs. destruct (re_split text); discriminate.
    + right. right. destruct Hinv as [Hu [later Hl]].
      exists u, later. auto.
  - intros Hok sched Hq Hlen. unfold speak_text, start.
    rewrite run_quiet_exhausts; auto.
Qed.

Lemma stopped_ends_narration_witness :
  let stop := Flags false true in
  let text := py "One. Two. Three" in
  let sink := fun _ : pystr => true in
  said (speak_text sink text (repeat quiet 3 ++ repeat stop 3)) = [py "One"]
  /\ ended (speak_text sink text (repeat quiet 3 ++ repeat stop 3)) = true
  /\ speak_text sink text (repeat quiet 9)
     = Task (Done Exhausted) [py "One"; py "Two"; py "Three"].
Proof.
  intros stop text sink.
  destruct (stopped_ends_narration sink text) as (H1 & _ & Hc).
  destruct (H1 (repeat quiet 3) (repeat stop 3)) as [Ha Hb];
    [repeat constructor|].
  split; [rewrite Ha; reflexivity | split].
  - apply Hb. cbn. lia.
  - apply (Hc ltac:(repeat constructor) (repeat quiet 9));
      [repeat constructor | vm_compute; lia].
Defined.

(* ===================================================================== *)
(** ** PositionStore *)
(* ===================================================================== *)

Lemma load_bookmarks_total (s : store) : exists v, load_bookmarks s = Ok v.
Proof.
  unfold load_bookmarks, exists_file, open_read.
  destruct (st_file s) as [[v|]|]; cbn;
    try (destruct (st_readable s)); cbn; eauto.
Qed.

(** C7. [load_bookmarks] returns a value for every state of the bookmark
    file and never raises; a missing file, a file that cannot be read and
    a file that is not JSON all give the empty mapping; and
    [get_bookmark] returns 0 for a document the loaded mapping lacks. *)
Theorem load_bookmarks_never_raises (s : store) :
  (exists v, load_bookmarks s = Ok v)
  /\ (st_file s = None -> load_bookmarks s = Ok (JDict ∅))
  /\ (st_file s = Some Garbage -> load_bookmarks s = Ok (JDict ∅))
  /\ (st_readable s = false -> load_bookmarks s = Ok (JDict ∅))
  /\ (forall (m : gmap pystr json) (pdf_path : pystr),
         load_bookmarks s = Ok (JDict m) ->
         m !! pdf_path = None ->
         get_bookmark pdf_path s = Ok (JInt 0)).
Proof.
  split; [apply load_bookmarks_total|].
  unfold get_bookmark, load_bookmarks, exists_file, open_read.
  repeat split.
  - intros ->. reflexivity.
  - intros ->. cbn. destruct (st_readable s); reflexivity.
  - intros ->. destruct (st_file s); reflexivity.
  - intros m pdf_path -> Hm. cbn. rewrite Hm. reflexivity.
Qed.

Lemma load_bookmarks_never_raises_witness :
  load_bookmarks (Store None true Writes) = Ok (JDict ∅)
  /\ load_bookmarks (Store (Some Garbage) true Writes) = Ok (JDict ∅)
  /\ load_bookmarks (Store (Some (Document JNull)) false Writes) = Ok (JDict ∅)
  /\ get_bookmark (py "book.pdf")
       (Store (Some (Document (JDict {[ py "other.pdf" := JInt 7 ]})))
              true Writes)
     = Ok (JInt 0).
Proof.
  destruct (load_bookmarks_never_raises (Store None true Writes))
    as (_ & Hmissing & _).
  destruct (load_bookmarks_never_raises (Store (Some Garbage) true Writes))
    as (_ & _ & Hcorrupt & _).
  destruct (load_bookmarks_never_raises
              (Store (Some (Document JNull)) false Writes))
    as (_ & _ & _ & Hunreadable & _).
  destruct (load_bookmarks_never_raises
              (Store (Some (Document (JDict {[ py "other.pdf" := JInt 7 ]})))
                     true Writes))
    as (_ & _ & _ & _ & Hget).
  split; [apply Hmissing; reflexivity|].
  split; [apply Hcorrupt; reflexivity|].
  split; [apply Hunreadable; reflexivity|].
  apply (Hget {[ py "other.pdf" := JInt 7 ]}); [reflexivity|].
  vm_compute. reflexivity.
Defined.

(** C6. On a store that can be read and written, whose bookmarks load as
    the mapping [m]: [save_bookmark doc p] reports success and rewrites
    the file with the whole of [m] updated at [doc]; loading then gives
    that mapping, in which [doc] has page [p] and every other document has
    the entry it had in [m]; and [get_bookmark doc] returns [p]. *)
Theorem bookmark_round_trip (doc : pystr) (p : Z) (s : store)
    (m : gmap pystr json) :
  load_bookmarks s = Ok (JDict m) ->
  st_readable s = true ->
  st_write s = Writes ->
  let s' := snd (save_bookmark doc p s) in
  fst (save_bookmark doc p s) = Ok (BookmarkSaved (p + 1))
  /\ st_file s' = Some (Document (JDict (<[doc := JInt p]> m)))
  /\ load_bookmarks s' = Ok (JDict (<[doc := JInt p]> m))
  /\ (<[doc := JInt p]> m) !! doc = Some (JInt p)
  /\ (forall other, other <> doc -> (<[doc := JInt p]> m) !! other = m !! other)
  /\ get_bookmark doc s' = Ok (JInt p).
Proof.
  intros Hload Hr Hw s'. subst s'.
  unfold save_bookmark, get_bookmark. rewrite Hload. cbn.
  unfold dump. rewrite Hw. cbn.
  unfold load_bookmarks, exists_file, open_read. cbn. rewrite Hr. cbn.
  repeat split.
  - apply lookup_insert_eq.
  - intros other Hne. apply lookup_insert_ne. congruence.
  - rewrite lookup_insert_eq. reflexivity.
Qed.

Lemma bookmark_round_trip_witness :
  let s := Store (Some (Document (JDict {[ py "other.pdf" := JInt 7 ]})))
                 true Writes in
  let s' := snd (save_bookmark (py "book.pdf") 4 s) in
  get_bookmark (py "book.pdf") s' = Ok (JInt 4)
  /\ get_bookmark (py "other.pdf") s' = Ok (JInt 7).
Proof.
  intros s s'.
  destruct (bookmark_round_trip (py "book.pdf") 4 s
              {[ py "other.pdf" := JInt 7 ]})
    as (_ & _ & Hl & _ & Hother & Hget); try reflexivity.
  split; [exact Hget|].
  subst s'. unfold get_bookmark. rewrite Hl. cbn.
  rewrite Hother by (vm_compute; discriminate).
  vm_compute. reflexivity.
Defined.

(* ===================================================================== *)
(** ** Thread histories *)
(* ===================================================================== *)

Lemma unjoined_snoc (h : list event) (e : event) :
  unjoined (h ++ [e]) = after_event (unjoined h) e.
Proof. unfold unjoined. rewrite fold_left_app. reflexivity. Qed.

Lemma exclusive_nil : exclusive [].
Proof. intros [|e pre] tid text post H; discriminate. Qed.

Lemma exclusive_prefix (h later : list event) :
  exclusive (h ++ later) -> exclusive h.
Proof.
  intros H pre tid text post Hh. apply (H pre tid text (post ++ later)).
  rewrite Hh, <- app_assoc. reflexivity.
Qed.

Lemma snoc_split (h pre post : list event) (e x : event) :
  h ++ [e] = pre ++ x :: post ->
  (post = [] /\ pre = h /\ x = e)
  \/ (exists post', post = post' ++ [e] /\ h = pre ++ x :: post').
Proof.
  intros H. induction post as [|e' post' _] using rev_ind.
  - apply app_inj_tail in H as [-> ->]. left. auto.
  - right. change (pre ++ x :: post' ++ [e'])
      with (pre ++ (x :: post') ++ [e']) in H.
    rewrite app_assoc in H. apply app_inj_tail in H as [-> ->].
    exists post'. auto.
Qed.

Lemma exclusive_join (h : list event) (tid : nat) :
  exclusive h -> exclusive (h ++ [Joined tid]).
Proof.
  intros H pre t text post Hh.
  apply snoc_split in Hh as [(_ & _ & [=]) | (post' & _ & Hh)].
  exact (H _ _ _ _ Hh).
Qed.

Lemma exclusive_start (h : list event) (tid : nat) (text : pystr) :
  exclusive h -> unjoined h = [] -> exclusive (h ++ [Started tid text]).
Proof.
  intros H Hu pre t x post Hh.
  apply snoc_split in Hh as [(_ & -> & _) | (post' & _ & Hh)].
  - exact Hu.
  - exact (H _ _ _ _ Hh).
Qed.

Lemma exclusive_at_most_one (h : list event) :
  exclusive h -> (length (unjoined h) <= 1)%nat.
Proof.
  induction h as [|e h IH] using rev_ind; intros H; [cbn; lia|].
  rewrite unjoined_snoc. destruct e as [tid text|tid]; cbn.
  - rewrite (H h tid text []) by reflexivity. cbn. lia.
  - specialize (IH (exclusive_prefix _ _ H)).
    etransitivity; [apply length_filter | exact IH].
Qed.

Lemma at_most_join (tid : nat) (h : list event) :
  at_most tid h -> unjoined (h ++ [Joined tid]) = [].
Proof.
  intros [Hu|Hu]; rewrite unjoined_snoc, Hu; cbn; [reflexivity|].
  rewrite Nat.eqb_refl. reflexivity.
Qed.

Lemma grows_refl (h : list event) : grows h h.
Proof. exists []. rewrite app_nil_r. reflexivity. Qed.

Lemma grows_trans (h1 h2 h3 : list event) :
  grows h1 h2 -> grows h2 h3 -> grows h1 h3.
Proof.
  intros [l1 ->] [l2 ->]. exists (l1 ++ l2). rewrite app_assoc. reflexivity.
Qed.

Lemma grows_snoc (h : list event) (e : event) : grows h (h ++ [e]).
Proof. exists [e]. reflexivity. Qed.

(* ===================================================================== *)
(** ** PlaybackController *)
(* ===================================================================== *)

Lemma save_bookmark_raises (pdf_path : pystr) (n : Z) (s : store) (e : exn) :
  fst (save_bookmark pdf_path n s) = Raise e -> e = TypeError.
Proof.
  unfold save_bookmark.
  destruct (load_bookmarks_total s) as [v ->]. cbn.
  destruct v; cbn; try (intros [= <-]; reflexivity).
  destruct (dump _ s) as [[|] ?]; discriminate.
Qed.

Lemma do_save_bookmark_post (tid : nat) (pdf_path : pystr) (n : Z)
    (r : reader) :
  exclusive (threads r) -> at_most tid (threads r) ->
  loop_post tid false (threads r) (do_save_bookmark pdf_path n r).
Proof.
  intros Hex Ham. unfold do_save_bookmark, loop_post.
  pose proof (save_bookmark_raises pdf_path n (bookmark_file r)) as Hraise.
  destruct (save_bookmark pdf_path n (bookmark_file r)) as [[report|e] s']; cbn.
  - auto using grows_refl.
  - split; [exact Hex | split; [apply grows_refl | left; apply Hraise]].
    reflexivity.
Qed.

(** After [self.stopped.set(); read_thread.join()] the restart finds no
    live thread. *)
Lemma restart_after_join (restart : pystr -> Z -> M unit) (tid : nat)
    (pdf_path : pystr) (page : Z) (r : reader) (h : list event) :
  restart_ok restart ->
  exclusive h -> at_most tid h -> threads r = h ++ [Joined tid] ->
  restart_post (h ++ [Joined tid]) (restart pdf_path page r).
Proof.
  intros Hre Hex Ham Hr. rewrite <- Hr. apply Hre; rewrite Hr.
  - apply exclusive_join, Hex.
  - apply at_most_join, Ham.
Qed.

Lemma jump_post
    (py_int : pystr -> option Z) (restart : pystr -> Z -> M unit) (tid : nat)
    (pdf_path : pystr) (total_pages : Z) (r : reader) :
  restart_ok restart ->
  exclusive (threads r) -> at_most tid (threads r) ->
  loop_post tid true (threads r) (jump py_int restart tid pdf_path total_pages r).
Proof.
  intros Hre Hex Ham. unfold jump, bind, catch, print, input, loop_post. cbn.
  destruct (stdin r) as [|line more]; cbn.
  - split; [exact Hex | split; [apply grows_refl | right; auto]].
  - destruct (py_int (strip line)) as [n|]; cbn;
      [|auto using grows_refl].
    destruct ((0 <=? n - 1) && (n - 1 <? total_pages)); cbn;
      [|auto using grows_refl].
    match goal with
    | |- context [restart ?p ?page ?r1] =>
        destruct (restart_after_join restart tid p page r1 (threads r)
                    Hre Hex Ham eq_refl) as (Hex1 & Hgr1 & Hpost1);
        destruct (restart p page r1) as [[[]|e] r2]
    end; cbn in *.
    + split; [exact Hex1|]. split.
      * eapply grows_trans; [apply grows_snoc | exact Hgr1].
      * left. exact Hpost1.
    + subst e. cbn. split; [exact Hex1|]. split.
      * eapply grows_trans; [apply grows_snoc | exact Hgr1].
      * left. reflexivity.
Qed.

Lemma command_step_post
    (py_int : pystr -> option Z) (restart : pystr -> Z -> M unit) (tid : nat)
    (pdf_path : pystr) (start_page total_pages : Z) (r : reader) :
  restart_ok restart ->
  exclusive (threads r) -> at_most tid (threads r) ->
  loop_post tid false (threads r)
    (command_step py_int restart tid pdf_path start_page total_pages r).
Proof.
  intros Hre Hex Ham. unfold command_step, catch, bind, input.
  destruct (stdin r) as [|line more] eqn:Hin; cbn.
  { unfold loop_post. cbn. auto using grows_refl. }
  repeat case_decide; cbn -[jump].
  - unfold loop_post. destruct (paused r); cbn; auto using grows_refl.
  - unfold loop_post. cbn. auto using grows_refl.
  - match goal with
    | |- context [do_save_bookmark ?p ?n ?r1] =>
        destruct (do_save_bookmark_post tid p n r1 Hex Ham)
          as (Hex1 & Hgr1 & Hpost1);
        destruct (do_save_bookmark p n r1) as [[[]|e] r2]
    end; cbn in *.
    + unfold loop_post. cbn. auto.
    + destruct Hpost1 as [-> | (? & _)]; [|discriminate].
      case_decide; [discriminate|]. unfold loop_post. cbn. auto.
  - match goal with
    | |- context [restart ?p ?page ?r1] =>
        destruct (restart_after_join restart tid p page r1 (threads r)
                    Hre Hex Ham eq_refl) as (Hex1 & Hgr1 & Hpost1);
        destruct (restart p page r1) as [[[]|e] r2]
    end; cbn in *.
    + unfold loop_post. cbn. split; [exact Hex1|]. split.
      * eapply grows_trans; [apply grows_snoc | exact Hgr1].
      * left. exact Hpost1.
    + subst e. case_decide; [discriminate|].
      unfold loop_post. cbn. split; [exact Hex1|]. split.
      * eapply grows_trans; [apply grows_snoc | exact Hgr1].
      * left. reflexivity.
  - match goal with
    | |- context [jump py_int restart tid ?p ?t ?r1] =>
        destruct (jump_post py_int restart tid p t r1 Hre Hex Ham)
          as (Hex1 & Hgr1 & Hpost1);
        destruct (jump py_int restart tid p t r1) as [[fl|e] r2]
    end; cbn in *.
    + unfold loop_post. cbn. auto.
    + destruct Hpost1 as [-> | (_ & -> & Ham1)];
        (case_decide; [try discriminate | try congruence]);
        unfold loop_post; cbn; auto.
  - unfold loop_post. cbn. auto using grows_refl.
Qed.

Lemma read_pdf_with_ok (lib : library)
    (controls : nat -> pystr -> Z -> Z -> M unit) :
  (forall tid pdf_path start_page total_pages r,
      exclusive (threads r) -> at_most tid (threads r) ->
      restart_post (threads r)
        (controls tid pdf_path start_page total_pages r)) ->
  restart_ok (read_pdf_with lib controls).
Proof.
  intros Hc pdf_path page r Hex Hu.
  unfold read_pdf_with, do_extract, bind, set_position, set_stopped,
    set_paused, print, thread_start, log, get, ret.
  destruct (extract_text_from_pdf lib pdf_path page None)
    as [[[text|] total] [e|]]; cbn;
    try (destruct (truthy text)); cbn;
    try (unfold restart_post; cbn; auto using grows_refl; fail);
    match goal with
    | |- context [controls ?tid ?p ?sp ?tp ?r1] =>
        destruct (Hc tid p sp tp r1) as (Hex1 & Hgr1 & Hpost1);
        [ apply exclusive_start; assumption
        | right; cbn [threads]; rewrite unjoined_snoc, Hu; reflexivity
        | ]
    end;
    (unfold restart_post; split; [exact Hex1|]; split; [|exact Hpost1]);
    (eapply grows_trans; [apply grows_snoc | exact Hgr1]).
Qed.

Lemma thread_join_post (tid : nat) (r : reader) :
  exclusive (threads r) -> at_most tid (threads r) ->
  restart_post (threads r) (thread_join tid r).
Proof.
  intros Hex Ham. unfold restart_post, thread_join, log. cbn.
  split; [apply exclusive_join, Hex|].
  split; [apply grows_snoc | apply at_most_join, Ham].
Qed.

Lemma handle_controls_post (lib : library)
    (py_int : pystr -> option Z) (alive : list bool) :
  forall tid pdf_path start_page total_pages r,
    exclusive (threads r) -> at_most tid (threads r) ->
    restart_post (threads r)
      (handle_controls lib py_int alive tid pdf_path start_page total_pages r).
Proof.
  induction alive as [|answer alive IH];
    intros tid pdf_path start_page total_pages r Hex Ham;
    [apply thread_join_post; assumption|].
  cbn [handle_controls].
  destruct (is_alive answer tid r); [|apply thread_join_post; assumption].
  destruct (command_step_post py_int
              (read_pdf_with lib (handle_controls lib py_int alive))
              tid pdf_path start_page total_pages r
              (read_pdf_with_ok lib _ IH) Hex Ham)
    as (Hex1 & Hgr1 & Hpost1).
  destruct (command_step _ _ tid pdf_path start_page total_pages r)
    as [[[|]|e] r1]; cbn in *.
  - destruct (IH tid pdf_path start_page total_pages r1 Hex1 Hpost1)
      as (Hex2 & Hgr2 & Hpost2).
    split; [exact Hex2|]. split; [|exact Hpost2].
    eapply grows_trans; eassumption.
  - destruct (thread_join_post tid r1 Hex1 Hpost1) as (Hex2 & Hgr2 & Hpost2).
    split; [exact Hex2|]. split; [|exact Hpost2].
    eapply grows_trans; eassumption.
  - destruct Hpost1 as [-> | (? & _)]; [|discriminate].
    unfold restart_post. cbn. auto.
Qed.

Lemma read_pdf_ok (lib : library)
    (py_int : pystr -> option Z) (alive : list bool) :
  restart_ok (read_pdf lib py_int alive).
Proof. apply read_pdf_with_ok, handle_controls_post. Qed.

(** C2. From a reader with no live narration thread, whatever the
    commands typed and whenever the threads end: every thread [read_pdf]
    starts is started when all the threads started before it have been
    joined, so at every instant of the history at most one thread is
    started and not yet joined; and when [read_pdf] returns, every thread
    has been joined. *)
Theorem one_narration_task_at_a_time (lib : library)
    (py_int : pystr -> option Z) (alive : list bool)
    (pdf_path : pystr) (start_page : Z) (r : reader) :
  exclusive (threads r) -> unjoined (threads r) = [] ->
  let history := threads (snd (read_pdf lib py_int alive pdf_path start_page r)) in
  (forall pre tid text post,
      history = pre ++ Started tid text :: post -> unjoined pre = [])
  /\ (forall pre post,
         history = pre ++ post -> (length (unjoined pre) <= 1)%nat)
  /\ grows (threads r) history
  /\ (fst (read_pdf lib py_int alive pdf_path start_page r) = Ok tt ->
      unjoined history = []).
Proof.
  intros Hex Hu history.
  destruct (read_pdf_ok lib py_int alive pdf_path start_page r Hex Hu)
    as (Hex1 & Hgr1 & Hpost1).
  fold history in Hex1, Hgr1, Hpost1.
  split; [exact Hex1|]. split; [|split; [exact Hgr1|]].
  - intros pre post Hh. apply exclusive_at_most_one.
    apply (exclusive_prefix pre post). rewrite <- Hh. exact Hex1.
  - intros Hok. rewrite Hok in Hpost1. exact Hpost1.
Qed.

Lemma one_narration_task_at_a_time_witness :
  let r0 := init empty_store [py "n"; py "j"; py "2"; py "s"] in
  let res := read_pdf sample_library ascii_int [true; true; true] (py "book.pdf") 0 r0 in
  fst res = Ok tt
  /\ length (filter is_start (threads (snd res))) = 3%nat
  /\ unjoined (threads (snd res)) = []
  /\ forall pre post,
       threads (snd res) = pre ++ post -> (length (unjoined pre) <= 1)%nat.
Proof.
  intros r0 res.
  destruct (one_narration_task_at_a_time sample_library ascii_int [true; true; true]
              (py "book.pdf") 0 r0 exclusive_nil eq_refl)
    as (_ & Hone & _ & Hjoined).
  split; [vm_compute; reflexivity|].
  split; [vm_compute; reflexivity|].
  split; [apply Hjoined; vm_compute; reflexivity | exact Hone].
Defined.

(** The reader after a rejected jump: two lines were read, the prompt and
    the complaint were printed, nothing else changed. *)
Lemma jump_rejected_state (r : reader) (more : list pystr) (m : message) :
  Reader (paused r) (stopped r) (current_pdf r) (current_page r)
         (bookmark_file r) more ((stdout r ++ [PagePrompt]) ++ [m]) (threads r)
  = Reader (paused r) (stopped r) (current_pdf r) (current_page r)
           (bookmark_file r) more (stdout r ++ [PagePrompt; m]) (threads r).
Proof. rewrite <- app_assoc. reflexivity. Qed.

(** C8. In the command loop, command [j] followed by a page number whose
    index [n - 1] is outside [0, total_pages), or by an entry that is not
    a number, only prints the prompt and the error: the flags, the
    position, the bookmarks and the thread history are unchanged, the
    restart is not called and the loop goes on with the same thread.
    The numbers are those [int] reads, whatever they are: an entry is
    not a number when [int] raises [ValueError] on it. *)
Theorem jump_rejects_bad_pages
    (py_int : pystr -> option Z) (restart : pystr -> Z -> M unit)
    (read_thread : nat) (pdf_path : pystr) (start_page total_pages : Z)
    (r : reader) (command line : pystr) (more : list pystr) :
  stdin r = command :: line :: more ->
  lower (strip command) = py "j" ->
  (forall n,
      py_int (strip line) = Some n ->
      ~ (0 <= n - 1 < total_pages) ->
      command_step py_int restart read_thread pdf_path start_page total_pages r
      = (Ok Continue,
         Reader (paused r) (stopped r) (current_pdf r) (current_page r)
                (bookmark_file r) more
                (stdout r ++ [PagePrompt; InvalidPage total_pages])
                (threads r)))
  /\ (py_int (strip line) = None ->
      command_step py_int restart read_thread pdf_path start_page total_pages r
      = (Ok Continue,
         Reader (paused r) (stopped r) (current_pdf r) (current_page r)
                (bookmark_file r) more
                (stdout r ++ [PagePrompt; InvalidInput])
                (threads r))).
Proof.
  intros Hin Hcmd.
  assert (Hstep :
    command_step py_int restart read_thread pdf_path start_page total_pages r
    = catch EOFError
        (jump py_int restart read_thread pdf_path total_pages)
        (ret Continue)
        (Reader (paused r) (stopped r) (current_pdf r) (current_page r)
                (bookmark_file r) (line :: more) (stdout r) (threads r))).
  { unfold command_step, catch, bind, input. rewrite Hin. cbn -[jump].
    rewrite Hcmd. reflexivity. }
  rewrite Hstep. unfold catch, jump, bind, print, input, ret. cbn.
  split.
  - intros n Hn Hrange. rewrite Hn.
    assert (Htest : (0 <=? n - 1) && (n - 1 <? total_pages) = false).
    { destruct (0 <=? n - 1) eqn:E1; [|reflexivity].
      destruct (n - 1 <? total_pages) eqn:E2; [|reflexivity].
      exfalso. apply Hrange. lia. }
    rewrite Htest. cbn. rewrite jump_rejected_state. reflexivity.
  - intros Hn. rewrite Hn. cbn. rewrite jump_rejected_state. reflexivity.
Qed.

Lemma jump_rejects_bad_pages_witness :
  let r := Reader false false (Some (py "book.pdf")) 0 empty_store
             [py "j"; py "0"; py "J"; py "5"; py "j"; py "two"] []
             [Started 0 (py "text")] in
  let restart := read_pdf sample_library ascii_int [] in
  let r1 := snd (command_step ascii_int restart 0 (py "book.pdf") 0 4 r) in
  let r2 := snd (command_step ascii_int restart 0 (py "book.pdf") 0 4 r1) in
  let r3 := snd (command_step ascii_int restart 0 (py "book.pdf") 0 4 r2) in
  stdout r3 = [PagePrompt; InvalidPage 4; PagePrompt; InvalidPage 4;
               PagePrompt; InvalidInput]
  /\ threads r3 = threads r /\ stopped r3 = false /\ current_page r3 = 0.
Proof.
  intros r restart r1 r2 r3.
  destruct (jump_rejects_bad_pages ascii_int restart 0 (py "book.pdf") 0 4 r
              (py "j") (py "0") [py "J"; py "5"; py "j"; py "two"]
              eq_refl eq_refl) as [H1 _].
  specialize (H1 0 eq_refl ltac:(lia)).
  assert (E1 : r1 = snd (command_step ascii_int restart 0 (py "book.pdf") 0 4 r))
    by reflexivity.
  rewrite H1 in E1. cbn in E1.
  destruct (jump_rejects_bad_pages ascii_int restart 0 (py "book.pdf") 0 4 r1
              (py "J") (py "5") [py "j"; py "two"]
              ltac:(rewrite E1; reflexivity) eq_refl) as [H2 _].
  specialize (H2 5 eq_refl ltac:(lia)).
  assert (E2 : r2 = snd (command_step ascii_int restart 0 (py "book.pdf") 0 4 r1))
    by reflexivity.
  rewrite H2 in E2. cbn in E2.
  destruct (jump_rejects_bad_pages ascii_int restart 0 (py "book.pdf") 0 4 r2
              (py "j") (py "two") []
              ltac:(rewrite E2; reflexivity) eq_refl) as [_ H3].
  specialize (H3 eq_refl).
  assert (E3 : r3 = snd (command_step ascii_int restart 0 (py "book.pdf") 0 4 r2))
    by reflexivity.
  rewrite H3 in E3. cbn in E3.
  rewrite E3, E2, E1. cbn. auto.
Defined.

(** C9. When extraction fails it returns [(None, 0)]; [read_pdf] then
    prints its header and the error, starts no thread, reads no command
    and returns normally.  A document that cannot be opened or parsed
    makes extraction fail for every page range. *)
Theorem failed_extraction_starts_nothing (lib : library)
    (py_int : pystr -> option Z) (alive : list bool)
    (pdf_path : pystr) (start_page : Z) (r : reader) :
  (lib pdf_path = None ->
   forall first last,
     extract_text_from_pdf lib pdf_path first last
     = ((None, 0), Some PdfReadError))
  /\ (forall e,
         extract_body lib pdf_path start_page None = Raise e ->
         extract_text_from_pdf lib pdf_path start_page None
         = ((None, 0), Some e)
         /\ read_pdf lib py_int alive pdf_path start_page r
            = (Ok tt,
               Reader false false (Some pdf_path) start_page (bookmark_file r)
                      (stdin r)
                      (stdout r ++ [ReadingFrom (start_page + 1);
                                    ControlsHelp; ErrorReadingPDF e])
                      (threads r))).
Proof.
  split.
  - intros Hlib first last. unfold extract_text_from_pdf, extract_body.
    rewrite Hlib. reflexivity.
  - intros e He.
    assert (Hx : extract_text_from_pdf lib pdf_path start_page None
                 = ((None, 0), Some e))
      by (unfold extract_text_from_pdf; rewrite He; reflexivity).
    split; [exact Hx|].
    unfold read_pdf, read_pdf_with, do_extract, bind, set_position,
      set_stopped, set_paused, print, ret. cbn. rewrite Hx. cbn.
    rewrite <- !app_assoc. reflexivity.
Qed.

Lemma failed_extraction_starts_nothing_witness :
  let r0 := init empty_store [py "n"; py "s"] in
  let res := read_pdf sample_library ascii_int [true; true] (py "missing.pdf") 0 r0 in
  extract_text_from_pdf sample_library (py "missing.pdf") 0 None
  = ((None, 0), Some PdfReadError)
  /\ fst res = Ok tt
  /\ threads (snd res) = []
  /\ stdin (snd res) = [py "n"; py "s"].
Proof.
  intros r0 res.
  destruct (failed_extraction_starts_nothing sample_library ascii_int [true; true]
              (py "missing.pdf") 0 r0) as [H1 H2].
  destruct (H2 PdfReadError eq_refl) as [_ Hread].
  split; [apply H1; reflexivity|].
  subst res. rewrite Hread. cbn. auto.
Defined.

(* ===================================================================== *)
(** ** TextSource *)
(* ===================================================================== *)

Lemma marked_pages_cons (pages : list page) (n : Z) (nums : list Z) :
  marked_pages pages (n :: nums)
  = marker n ++ page_text pages n ++ marked_pages pages nums.
Proof. unfold marked_pages. cbn. rewrite <- app_assoc. reflexivity. Qed.

Lemma extract_pages_marked (pages : list page) (nums : list Z) :
  forall text out,
    extract_pages pages nums text = Ok out ->
    out = text ++ marked_pages pages nums /\ Forall (page_ok pages) nums.
Proof.
  induction nums as [|n nums IH]; intros text out H;
    cbn [extract_pages] in H.
  - injection H as <-. unfold marked_pages. cbn. rewrite app_nil_r.
    split; [reflexivity | constructor].
  - destruct (py_index pages n) as [[t|]|] eqn:Hn; try discriminate.
    destruct (IH _ _ H) as [-> Hall]. split.
    + rewrite marked_pages_cons. unfold page_text. rewrite Hn.
      rewrite <- !app_assoc. reflexivity.
    + constructor; [exists t; exact Hn | exact Hall].
Qed.

Lemma extract_pages_succeeds (pages : list page) (nums : list Z) :
  Forall (page_ok pages) nums ->
  forall text,
    extract_pages pages nums text = Ok (text ++ marked_pages pages nums).
Proof.
  induction 1 as [|n nums [t Hn] _ IH]; intros text; cbn [extract_pages].
  - unfold marked_pages. cbn. rewrite app_nil_r. reflexivity.
  - rewrite Hn, IH, marked_pages_cons. unfold page_text. rewrite Hn.
    rewrite <- !app_assoc. reflexivity.
Qed.

Lemma py_index_nonneg {A} (l : list A) (n : Z) :
  0 <= n -> py_index l n = l !! Z.to_nat n.
Proof.
  intros Hn. unfold py_index.
  destruct (n <? 0) eqn:E; [lia | reflexivity].
Qed.

Lemma range_bounds (a b n : Z) : n ∈ range a b -> a <= n < b.
Proof. unfold range. rewrite elem_of_seqZ. lia. Qed.

(** The thread [read_pdf] starts is given the extracted text as it is. *)
Lemma read_pdf_narrates_extract (lib : library)
    (py_int : pystr -> option Z) (alive : list bool)
    (pdf_path : pystr) (start_page total_pages : Z) (text : pystr)
    (r : reader) :
  extract_text_from_pdf lib pdf_path start_page None
  = ((Some text, total_pages), None) ->
  truthy text = true ->
  exclusive (threads r) -> unjoined (threads r) = [] ->
  exists later,
    threads (snd (read_pdf lib py_int alive pdf_path start_page r))
    = threads r
      ++ Started (length (filter is_start (threads r))) text :: later.
Proof.
  intros Hx Ht Hex Hu.
  unfold read_pdf, read_pdf_with, do_extract, bind, set_position,
    set_stopped, set_paused, print, thread_start, log, get, ret.
  cbn. rewrite Hx. cbn. rewrite Ht. cbn.
  match goal with
  | |- context [handle_controls lib py_int alive ?tid ?p ?sp ?tp ?r1] =>
      destruct (handle_controls_post lib py_int alive tid p sp tp r1)
        as (_ & [later Hgr] & _);
      [ apply exclusive_start; assumption
      | right; cbn [threads]; rewrite unjoined_snoc, Hu; reflexivity
      | ]
  end.
  exists later. rewrite Hgr. cbn [threads]. rewrite <- app_assoc.
  reflexivity.
Qed.

(** C10. A successful extraction over [start_page, end_page) returns the
    pages of the range, cut at the document's page count, in page order,
    each behind its marker line [--- Page N ---] with [N] one more than
    the page index (the 1-based number of the page when the range starts
    at a page index of the document); and this text, markers included, is
    what [read_pdf] hands to the narration thread. *)
Theorem extracted_text_is_marked_pages (lib : library)
    (py_int : pystr -> option Z) (pdf_path : pystr)
    (start_page : Z) (end_page : option Z) (text : pystr) (total_pages : Z) :
  extract_text_from_pdf lib pdf_path start_page end_page
  = ((Some text, total_pages), None) ->
  exists pages,
    lib pdf_path = Some pages
    /\ total_pages = Z.of_nat (length pages)
    /\ let nums :=
         range start_page (Z.min (default total_pages end_page) total_pages) in
       text = marked_pages pages nums
       /\ Forall (page_ok pages) nums
       /\ (0 <= start_page ->
           Forall (fun n =>
                     0 <= n < total_pages
                     /\ pages !! Z.to_nat n = Some (Some (page_text pages n)))
                  nums)
       /\ (forall n,
              marker n
              = [LF] ++ py "--- Page " ++ str_of_int (n + 1) ++ py " ---"
                ++ [LF])
       /\ (end_page = None -> truthy text = true ->
           forall alive r,
             exclusive (threads r) -> unjoined (threads r) = [] ->
             exists later,
               threads (snd (read_pdf lib py_int alive pdf_path start_page r))
               = threads r
                 ++ Started (length (filter is_start (threads r))) text
                    :: later).
Proof.
  intros Hx. pose proof Hx as Hx0. revert Hx.
  unfold extract_text_from_pdf, extract_body.
  destruct (lib pdf_path) as [pages|] eqn:Hlib; [|discriminate].
  destruct (extract_pages pages _ []) as [out|e] eqn:Hout; cbn;
    [|discriminate].
  intros [= -> <-]. exists pages.
  destruct (extract_pages_marked _ _ _ _ Hout) as [Htext Hall].
  split; [reflexivity | split; [reflexivity|]].
  cbn zeta. split; [exact Htext | split; [exact Hall|]].
  split; [|split; [reflexivity|]].
  - intros Hstart. apply Forall_forall. intros n Hn.
    pose proof (range_bounds _ _ _ Hn) as Hb.
    assert (Hlo : 0 <= n) by lia.
    split; [lia|].
    rewrite Forall_forall in Hall. destruct (Hall n Hn) as [t Ht].
    unfold page_text. rewrite Ht.
    rewrite <- py_index_nonneg by exact Hlo. exact Ht.
  - intros -> Htruthy alive r Hex Hu.
    eapply read_pdf_narrates_extract; eassumption.
Qed.

Lemma extracted_text_is_marked_pages_witness :
  exists text,
    extract_text_from_pdf sample_library (py "book.pdf") 1 (Some 9)
    = ((Some text, 4), None)
    /\ text = marker 1 ++ py "B!" ++ marker 2 ++ py "C" ++ marker 3.
Proof.
  eexists. split; [reflexivity|].
  destruct (extracted_text_is_marked_pages sample_library ascii_int (py "book.pdf")
              1 (Some 9) _ 4 eq_refl)
    as (pages & Hlib & _ & Htext & _).
  injection Hlib as <-. rewrite Htext. vm_compute. reflexivity.
Defined.

(** The marker of a page reaches the engine inside the page's first
    unit. *)
Example marker_is_narrated :
  segment (marker 0 ++ py "Hi. Yo")
  = [py "--- Page 1 ---" ++ [LF] ++ py "Hi"; py "Yo"].
Proof. reflexivity. Qed.

(* ===================================================================== *)
(** ** PositionStore: further properties *)
(* ===================================================================== *)





(** X2. A write that fails is reported, never raised.  When [open] fails
    the bookmark file is left as it was; when the write fails after the
    file was opened, the file is left corrupt and every bookmark is lost:
    the next load gives the empty mapping. *)
Theorem failed_save_is_reported (doc : pystr) (p : Z) (s : store) :
  loads_mapping s ->
  (st_write s = OpenRaises ->
   save_bookmark doc p s = (Ok (ErrorSaving OSError), s))
  /\ (st_write s = DumpRaises ->
      fst (save_bookmark doc p s) = Ok (ErrorSaving OSError)
      /\ st_file (snd (save_bookmark doc p s)) = Some Garbage
      /\ forall other,
           get_bookmark other (snd (save_bookmark doc p s)) = Ok (JInt 0)).
Proof.
  intros [m Hl]. unfold save_bookmark. rewrite Hl. cbn. unfold dump.
  split; intros Hw; rewrite Hw; [reflexivity|]. cbn.
  split; [reflexivity | split; [reflexivity|]].
  intros other. unfold get_bookmark, load_bookmarks, exists_file, open_read.
  cbn. destruct (st_readable s); reflexivity.
Qed.

Lemma failed_save_is_reported_witness :
  let full := Some (Document (JDict {[ py "a.pdf" := JInt 3 ]})) in
  save_bookmark (py "b.pdf") 9 (Store full true OpenRaises)
  = (Ok (ErrorSaving OSError), Store full true OpenRaises)
  /\ get_bookmark (py "a.pdf")
       (snd (save_bookmark (py "b.pdf") 9 (Store full true DumpRaises)))
     = Ok (JInt 0).
Proof.
  intros full.
  assert (H1 : loads_mapping (Store full true OpenRaises))
    by (eexists; reflexivity).
  assert (H2 : loads_mapping (Store full true DumpRaises))
    by (eexists; reflexivity).
  destruct (failed_save_is_reported (py "b.pdf") 9 _ H1) as [Ho _].
  destruct (failed_save_is_reported (py "b.pdf") 9 _ H2) as [_ Hd].
  split; [apply Ho; reflexivity|].
  destruct Hd as (_ & _ & Hlost); [reflexivity|]. apply Hlost.
Defined.

Lemma save_bookmark_raise_iff (doc : pystr) (p : Z) (s : store) (e : exn) :
  fst (save_bookmark doc p s) = Raise e <->
  and_then (load_bookmarks s) (fun b => setitem b doc p) = Raise e.
Proof.
  unfold save_bookmark.
  destruct (and_then (load_bookmarks s) (fun b => setitem b doc p))
    as [b|e']; cbn.
  - destruct (dump b s) as [[|] ?]; cbn; split; discriminate.
  - split; intros [= ->]; reflexivity.
Qed.

Lemma setitem_raise_iff (v : json) (doc : pystr) (p : Z) (e : exn) :
  setitem v doc p = Raise e <-> e = TypeError /\ ~ is_mapping v.
Proof.
  destruct v; cbn; split;
    try (intros [= <-]; tauto); try (intros [-> _]; reflexivity);
    try discriminate.
  intros [_ H]. exfalso. apply H. exact I.
Qed.

(** X3. [save_bookmark] raises exactly when the bookmark file can be read
    and holds a JSON document that is not an object; it then raises
    [TypeError] and leaves the file alone, and [get_bookmark] raises
    [AttributeError] on the same file. *)
Theorem non_mapping_file_raises (doc : pystr) (p : Z) (s : store) :
  (forall e,
      fst (save_bookmark doc p s) = Raise e <->
      e = TypeError
      /\ st_readable s = true
      /\ exists v, st_file s = Some (Document v) /\ ~ is_mapping v)
  /\ (forall v,
         st_file s = Some (Document v) -> st_readable s = true ->
         ~ is_mapping v ->
         save_bookmark doc p s = (Raise TypeError, s)
         /\ get_bookmark doc s = Raise AttributeError).
Proof.
  split.
  - intros e. rewrite save_bookmark_raise_iff.
    unfold load_bookmarks, exists_file, open_read.
    destruct (st_file s) as [[v|]|] eqn:Hf; cbn;
      destruct (st_readable s) eqn:Hr; cbn;
      try (split; [discriminate | intros (_ & H & v' & Hv & _); congruence]).
    rewrite setitem_raise_iff. split.
    + intros [-> Hv]. eauto.
    + intros (-> & _ & v' & [= <-] & Hv). auto.
  - intros v Hf Hr Hv.
    unfold save_bookmark, get_bookmark, load_bookmarks, exists_file,
      open_read. rewrite Hf, Hr. cbn.
    destruct v; cbn; try (split; reflexivity).
    exfalso. apply Hv. exact I.
Qed.

Lemma non_mapping_file_raises_witness :
  let s := Store (Some (Document (JList []))) true Writes in
  save_bookmark (py "a.pdf") 3 s = (Raise TypeError, s)
  /\ get_bookmark (py "a.pdf") s = Raise AttributeError.
Proof.
  intros s.
  destruct (non_mapping_file_raises (py "a.pdf") 3 s) as [_ H].
  apply (H (JList [])); [reflexivity | reflexivity | cbn; tauto].
Defined.

Lemma save_bookmark_keeps_mapping (doc : pystr) (p : Z) (s : store) :
  loads_mapping s ->
  (exists report, fst (save_bookmark doc p s) = Ok report)
  /\ loads_mapping (snd (save_bookmark doc p s)).
Proof.
  intros [m Hl]. unfold save_bookmark. rewrite Hl. cbn. unfold dump.
  destruct (st_write s) eqn:Hw; cbn.
  - split; [eauto|]. unfold loads_mapping, load_bookmarks, exists_file,
      open_read. cbn. destruct (st_readable s); cbn; eauto.
  - split; [eauto | exists m; exact Hl].
  - split; [eauto|]. unfold loads_mapping, load_bookmarks, exists_file,
      open_read. cbn. destruct (st_readable s); cbn; eauto.
Qed.

(* ===================================================================== *)
(** ** TextSource: further properties *)
(* ===================================================================== *)

Lemma extract_pages_fails (pages : list page) (nums : list Z) :
  ~ Forall (page_ok pages) nums ->
  forall text, exists e, extract_pages pages nums text = Raise e.
Proof.
  induction nums as [|n nums IH]; intros Hbad text.
  - exfalso. apply Hbad. constructor.
  - cbn [extract_pages].
    destruct (py_index pages n) as [[t|]|] eqn:Hn; [|eauto..].
    apply IH. intros Hall. apply Hbad.
    constructor; [exists t; exact Hn | exact Hall].
Qed.

(** X4. Extraction is all or nothing.  On a document that opens, it
    returns the marked pages of the range and the page count when every
    page of the range can be read, and [(None, 0)] with an error printed
    as soon as one page of the range cannot. *)
Theorem extraction_all_or_nothing (lib : library) (pdf_path : pystr)
    (start_page : Z) (end_page : option Z) (pages : list page) :
  lib pdf_path = Some pages ->
  let total_pages := Z.of_nat (length pages) in
  let nums :=
    range start_page (Z.min (default total_pages end_page) total_pages) in
  (Forall (page_ok pages) nums ->
   extract_text_from_pdf lib pdf_path start_page end_page
   = ((Some (marked_pages pages nums), total_pages), None))
  /\ (~ Forall (page_ok pages) nums ->
      exists e,
        extract_text_from_pdf lib pdf_path start_page end_page
        = ((None, 0), Some e)).
Proof.
  intros Hlib total_pages nums.
  unfold extract_text_from_pdf, extract_body. rewrite Hlib.
  fold total_pages. fold nums. split.
  - intros Hall. rewrite (extract_pages_succeeds pages nums Hall []).
    reflexivity.
  - intros Hbad. destruct (extract_pages_fails pages nums Hbad []) as [e ->].
    exists e. reflexivity.
Qed.

Lemma extraction_all_or_nothing_witness :
  extract_text_from_pdf sample_library (py "book.pdf") 2 None
  = ((Some (marker 2 ++ py "C" ++ marker 3), 4), None)
  /\ exists e,
       extract_text_from_pdf
         (fun _ => Some [Some (py "A"); None; Some (py "C")]) (py "x.pdf")
         0 None
       = ((None, 0), Some e).
Proof.
  destruct (extraction_all_or_nothing sample_library (py "book.pdf") 2 None
              _ eq_refl) as [Hok _].
  destruct (extraction_all_or_nothing
              (fun _ => Some [Some (py "A"); None; Some (py "C")])
              (py "x.pdf") 0 None _ eq_refl) as [_ Hbad].
  split.
  - rewrite Hok.
    + vm_compute. reflexivity.
    + repeat constructor; eexists; vm_compute; reflexivity.
  - apply Hbad. intros Hall.
    apply Forall_cons in Hall as [_ Hall].
    apply Forall_cons in Hall as [[t Ht] _]. vm_compute in Ht. discriminate.
Defined.

Lemma range_empty (a b : Z) : b <= a -> range a b = [].
Proof.
  intros H. unfold range, seqZ.
  replace (Z.to_nat (b - a)) with 0%nat by lia. reflexivity.
Qed.

(** X5. Reading from a page at or past the end of the range is not an
    error: extraction succeeds with the empty text, and [read_pdf] then
    prints its header, starts no thread, reads no command and returns. *)
Theorem reading_past_the_end_does_nothing (lib : library)
    (py_int : pystr -> option Z)
    (alive : list bool) (pdf_path : pystr) (start_page : Z)
    (pages : list page) (r : reader) :
  lib pdf_path = Some pages ->
  Z.of_nat (length pages) <= start_page ->
  (forall end_page,
      extract_text_from_pdf lib pdf_path start_page end_page
      = ((Some [], Z.of_nat (length pages)), None))
  /\ read_pdf lib py_int alive pdf_path start_page r
     = (Ok tt,
        Reader false false (Some pdf_path) start_page (bookmark_file r)
               (stdin r)
               (stdout r ++ [ReadingFrom (start_page + 1); ControlsHelp])
               (threads r)).
Proof.
  intros Hlib Hpast.
  assert (Hx : forall end_page,
             extract_text_from_pdf lib pdf_path start_page end_page
             = ((Some [], Z.of_nat (length pages)), None)).
  { intros end_page. unfold extract_text_from_pdf, extract_body.
    rewrite Hlib. cbn zeta. rewrite range_empty by lia. reflexivity. }
  split; [exact Hx|].
  unfold read_pdf, read_pdf_with, do_extract, bind, set_position,
    set_stopped, set_paused, print, ret. cbn. rewrite Hx. cbn.
  rewrite <- !app_assoc. reflexivity.
Qed.

Lemma reading_past_the_end_does_nothing_witness :
  let res := read_pdf sample_library ascii_int [true; true] (py "book.pdf") 4
               (init empty_store [py "n"; py "s"]) in
  fst res = Ok tt
  /\ threads (snd res) = []
  /\ stdin (snd res) = [py "n"; py "s"]
  /\ stdout (snd res) = [ReadingFrom 5; ControlsHelp].
Proof.
  intros res.
  destruct (reading_past_the_end_does_nothing sample_library ascii_int [true; true]
              (py "book.pdf") 4 _ (init empty_store [py "n"; py "s"])
              eq_refl) as [_ Hread]; [cbn; lia|].
  subst res. rewrite Hread. cbn. auto.
Defined.

Lemma py_index_negative {A} (l : list A) (n : Z) :
  n < 0 ->
  py_index l n
  = if n + Z.of_nat (length l) <? 0 then None
    else l !! Z.to_nat (n + Z.of_nat (length l)).
Proof.
  intros Hn. unfold py_index.
  destruct (n <? 0) eqn:E; [reflexivity | lia].
Qed.

Lemma range_cons (a b : Z) : a < b -> range a b = a :: range (a + 1) b.
Proof.
  intros H. unfold range.
  replace (b - a) with (Z.succ (b - (a + 1))) by lia.
  rewrite seqZ_cons by lia.
  replace (Z.succ a) with (a + 1) by lia.
  replace (Z.pred (Z.succ (b - (a + 1)))) with (b - (a + 1)) by lia.
  reflexivity.
Qed.

(** X6. A negative start page counts from the end of the document, as
    Python indexing does.  When it reaches before the first page the
    extraction fails with [IndexError]; otherwise the extracted text
    begins with the page counted from the end, under a marker whose
    number is the start page plus one, which is not a page number. *)
Theorem negative_start_counts_from_the_end (lib : library)
    (pdf_path : pystr) (start_page : Z) (pages : list page) :
  lib pdf_path = Some pages ->
  start_page < 0 ->
  let total_pages := Z.of_nat (length pages) in
  (start_page < - total_pages ->
   extract_text_from_pdf lib pdf_path start_page None
   = ((None, 0), Some IndexError))
  /\ (forall text,
         extract_text_from_pdf lib pdf_path start_page None
         = ((Some text, total_pages), None) ->
         exists t rest,
           pages !! Z.to_nat (total_pages + start_page) = Some (Some t)
           /\ text = marker start_page ++ t ++ rest
           /\ start_page + 1 <= 0).
Proof.
  intros Hlib Hneg total_pages.
  unfold extract_text_from_pdf, extract_body. rewrite Hlib. cbn zeta.
  fold total_pages. rewrite Z.min_id.
  rewrite (range_cons start_page total_pages) by lia.
  cbn [extract_pages]. rewrite py_index_negative by exact Hneg.
  fold total_pages. split.
  - intros Hfar. destruct (start_page + total_pages <? 0) eqn:E; [|lia].
    reflexivity.
  - intros text.
    destruct (start_page + total_pages <? 0) eqn:E; [discriminate|].
    replace (start_page + total_pages) with (total_pages + start_page)
      by lia.
    destruct (pages !! Z.to_nat (total_pages + start_page))
      as [[t|]|] eqn:Ht; cbn; try discriminate.
    destruct (extract_pages pages _ _) as [out|e] eqn:Hout; cbn;
      [|discriminate].
    intros [= <-]. apply extract_pages_marked in Hout as [-> _].
    exists t, (marked_pages pages (range (start_page + 1) total_pages)).
    split; [reflexivity | split; [|lia]].
    cbn [app]. rewrite <- !app_assoc. reflexivity.
Qed.

Lemma negative_start_counts_from_the_end_witness :
  extract_text_from_pdf sample_library (py "book.pdf") (-5) None
  = ((None, 0), Some IndexError)
  /\ exists rest,
       fst (fst (extract_text_from_pdf sample_library (py "book.pdf")
                   (-2) None))
       = Some (marker (-2) ++ py "C" ++ rest).
Proof.
  destruct (negative_start_counts_from_the_end sample_library
              (py "book.pdf") (-5) _ eq_refl ltac:(lia)) as [Hfar _].
  destruct (negative_start_counts_from_the_end sample_library
              (py "book.pdf") (-2) _ eq_refl ltac:(lia)) as [_ Hnear].
  split; [apply Hfar; cbn; lia|].
  destruct (Hnear _ eq_refl) as (t & rest & Ht & Htext & _).
  exists rest.
  assert (t = py "C") as <-
    by (vm_compute in Ht; injection Ht as <-; reflexivity).
  rewrite <- Htext. reflexivity.
Defined.

(* ===================================================================== *)
(** ** Keyword search *)
(* ===================================================================== *)

Lemma starts_with_spec (needle haystack : pystr) :
  starts_with needle haystack = true <->
  exists after, haystack = needle ++ after.
Proof.
  revert haystack. induction needle as [|c needle IH]; intros haystack; cbn.
  - split; [eauto | reflexivity].
  - destruct haystack as [|d haystack].
    + split; [discriminate | intros [after H]; discriminate].
    + rewrite andb_true_iff, N.eqb_eq, IH. split.
      * intros [-> [after ->]]. eauto.
      * intros [after [= -> ->]]. eauto.
Qed.

Lemma contains_spec (needle haystack : pystr) :
  contains needle haystack = true <-> part_of needle haystack.
Proof.
  unfold part_of. induction haystack as [|d haystack IH]; cbn.
  - rewrite orb_false_r, starts_with_spec. split.
    + intros [after H]. exists [], after. exact H.
    + intros (before & after & H). destruct before; cbn in H.
      * eauto.
      * discriminate.
  - rewrite orb_true_iff, starts_with_spec, IH. split.
    + intros [[after H] | (before & after & H)].
      * exists [], after. exact H.
      * exists (d :: before), after. cbn. rewrite H. reflexivity.
    + intros (before & after & H). destruct before as [|b before]; cbn in H.
      * left. eauto.
      * right. injection H as _ H. eauto.
Qed.

Lemma range_split (a b n : Z) (before after : list Z) :
  range a b = before ++ n :: after ->
  n = a + Z.of_nat (length before) /\ n < b
  /\ forall j, j ∈ before <-> a <= j < n.
Proof.
  revert a. induction before as [|x before IH]; intros a H.
  - cbn in H. destruct (Z_lt_le_dec a b) as [Hlt|Hle].
    + rewrite range_cons in H by exact Hlt. injection H as <- _.
      split; [cbn; lia | split; [exact Hlt|]].
      intros j. rewrite elem_of_nil. lia.
    + rewrite range_empty in H by exact Hle. discriminate.
  - cbn in H. destruct (Z_lt_le_dec a b) as [Hlt|Hle].
    + rewrite range_cons in H by exact Hlt. injection H as <- H.
      destruct (IH _ H) as (Hn & Hb & Hin).
      split; [cbn [length]; lia | split; [exact Hb|]].
      intros j. rewrite elem_of_cons, Hin. lia.
    + rewrite range_empty in H by exact Hle. discriminate.
Qed.

Lemma range_elem (a b j : Z) : j ∈ range a b <-> a <= j < b.
Proof. unfold range. rewrite elem_of_seqZ. lia. Qed.

Section SearchFacts.

Variable str_lower : pystr -> pystr.

Lemma first_keyword_some (text keyword : pystr) :
  first_keyword text = Some keyword ->
  In keyword intro_keywords /\ part_of keyword text.
Proof.
  unfold first_keyword. intros H. apply find_some in H as [Hin Hc].
  split; [exact Hin | apply contains_spec; exact Hc].
Qed.

Lemma first_keyword_none (t : pystr) :
  first_keyword (str_lower t) = None -> ~ names_introduction str_lower t.
Proof.
  unfold first_keyword. intros H (keyword & Hin & Hpart).
  apply contains_spec in Hpart.
  pose proof (find_none _ _ H keyword Hin) as Hf. cbn in Hf. congruence.
Qed.

(** What the scan for an introduction returns, page by page. *)
Lemma scan_introduction_spec (pages : list page) (nums : list Z) :
  Forall (fun n => 0 <= n) nums ->
  match scan_introduction str_lower pages nums with
  | Ok (Some (keyword, n)) =>
      exists before after,
        nums = before ++ n :: after
        /\ Forall (page_has pages
                     (fun t => ~ names_introduction str_lower t)) before
        /\ page_has pages
             (fun t => In keyword intro_keywords
                       /\ part_of keyword (str_lower t)) n
  | Ok None =>
      Forall (page_has pages (fun t => ~ names_introduction str_lower t))
             nums
  | Raise e =>
      exists before n after,
        nums = before ++ n :: after
        /\ Forall (page_has pages
                     (fun t => ~ names_introduction str_lower t)) before
        /\ ((e = PdfReadError /\ page_fails pages n)
            \/ (e = IndexError /\ pages !! Z.to_nat n = None))
  end.
Proof.
  induction 1 as [|n nums Hn _ IH]; cbn [scan_introduction];
    [constructor|].
  rewrite py_index_nonneg by exact Hn.
  destruct (pages !! Z.to_nat n) as [[t|]|] eqn:Hp.
  - destruct (first_keyword (str_lower t)) as [keyword|] eqn:Hk.
    + exists [], nums. split; [reflexivity | split; [constructor|]].
      split; [exact Hn|]. exists t. split; [exact Hp|].
      apply first_keyword_some. exact Hk.
    + assert (Hhere : page_has pages
                        (fun t => ~ names_introduction str_lower t) n).
      { split; [exact Hn|]. exists t. split; [exact Hp|].
        apply first_keyword_none. exact Hk. }
      destruct (scan_introduction str_lower pages nums) as [[[kw m]|]|e].
      * destruct IH as (before & after & -> & Hb & Hm).
        exists (n :: before), after. split; [reflexivity|].
        split; [constructor; assumption | exact Hm].
      * constructor; assumption.
      * destruct IH as (before & m & after & -> & Hb & Hm).
        exists (n :: before), m, after. split; [reflexivity|].
        split; [constructor; assumption | exact Hm].
  - exists [], n, nums. split; [reflexivity | split; [constructor|]].
    left. split; [reflexivity | split; assumption].
  - exists [], n, nums. split; [reflexivity | split; [constructor|]].
    right. split; [reflexivity | exact Hp].
Qed.

Lemma range_nonneg (a b : Z) : 0 <= a -> Forall (fun n => 0 <= n) (range a b).
Proof.
  intros Ha. apply Forall_forall. intros n Hn.
  apply range_elem in Hn. lia.
Qed.

Lemma lookup_in_document {A} (l : list A) (n : Z) :
  0 <= n < Z.of_nat (length l) -> l !! Z.to_nat n <> None.
Proof.
  intros Hn H. apply lookup_ge_None in H. lia.
Qed.

(** X7. On a document that opens, [find_introduction] looks at the first
    50 pages at most, in order.  It returns the first page whose lowered
    text holds one of the keywords, when every page before it could be
    read; it returns page 0 and says so when no page holds one; and it
    returns page 0 with an error when a page that cannot be read comes
    before any match.  The page returned is never negative, is below 50
    and is a page of the document unless the document has none. *)
Theorem find_introduction_first_match (lib : library) (pdf_path : pystr)
    (pages : list page) :
  lib pdf_path = Some pages ->
  let total_pages := Z.of_nat (length pages) in
  let limit := Z.min 50 total_pages in
  let k := fst (find_introduction str_lower lib pdf_path) in
  let printed := snd (find_introduction str_lower lib pdf_path) in
  let quiet_before n :=
    forall j, 0 <= j < n ->
      page_has pages (fun t => ~ names_introduction str_lower t) j in
  (0 <= k < 50 /\ k < Z.max 1 total_pages)
  /\ ((exists keyword,
          printed = [SearchingIntroduction total_pages;
                     FoundKeyword keyword (k + 1)]
          /\ k < limit
          /\ page_has pages
               (fun t => In keyword intro_keywords
                         /\ part_of keyword (str_lower t)) k
          /\ quiet_before k)
      \/ (k = 0
          /\ printed = [SearchingIntroduction total_pages;
                        IntroductionNotFound]
          /\ quiet_before limit)
      \/ (k = 0
          /\ printed = [SearchingIntroduction total_pages;
                        ErrorSearchingIntroduction PdfReadError]
          /\ exists j,
               0 <= j < limit /\ page_fails pages j /\ quiet_before j)).
Proof.
  intros Hlib total_pages limit. unfold find_introduction. rewrite Hlib.
  fold total_pages. fold limit.
  pose proof (scan_introduction_spec pages (range 0 limit)
                (range_nonneg 0 limit ltac:(lia))) as Hscan.
  destruct (scan_introduction str_lower pages (range 0 limit))
    as [[[keyword n]|]|e]; cbn [fst snd].
  - destruct Hscan as (before & after & Hr & Hb & Hn).
    destruct (range_split _ _ _ _ _ Hr) as (_ & Hlt & Hin).
    assert (Hn0 : 0 <= n) by (destruct Hn as [Hn _]; exact Hn).
    split; [subst limit; lia|].
    left. exists keyword. split; [reflexivity|].
    split; [exact Hlt | split; [exact Hn|]].
    intros j Hj. rewrite Forall_forall in Hb. apply Hb, Hin. lia.
  - split; [lia|].
    right. left. split; [reflexivity | split; [reflexivity|]].
    intros j Hj. rewrite Forall_forall in Hscan.
    apply Hscan, range_elem. lia.
  - split; [lia|].
    right. right. destruct Hscan as (before & n & after & Hr & Hb & Hn).
    destruct (range_split _ _ _ _ _ Hr) as (Hnn & Hlt & Hin).
    assert (Hn0 : 0 <= n) by lia.
    destruct Hn as [[-> Hfail] | [_ Hnone]].
    + split; [reflexivity | split; [reflexivity|]].
      exists n. split; [lia | split; [exact Hfail|]].
      intros j Hj. rewrite Forall_forall in Hb. apply Hb, Hin. lia.
    + exfalso. apply (lookup_in_document pages n); [|exact Hnone].
      subst limit total_pages. lia.
Qed.

(** What the scan for a chapter returns, page by page. *)
Lemma scan_chapter_spec (pages : list page) (chapter_name : pystr)
    (nums : list Z) :
  Forall (fun n => 0 <= n) nums ->
  let absent t := ~ part_of (str_lower chapter_name) (str_lower t) in
  match scan_chapter str_lower pages chapter_name nums with
  | Ok (Some n) =>
      exists before after,
        nums = before ++ n :: after
        /\ Forall (page_has pages absent) before
        /\ page_has pages
             (fun t => part_of (str_lower chapter_name) (str_lower t)) n
  | Ok None => Forall (page_has pages absent) nums
  | Raise e =>
      exists before n after,
        nums = before ++ n :: after
        /\ Forall (page_has pages absent) before
        /\ ((e = PdfReadError /\ page_fails pages n)
            \/ (e = IndexError /\ pages !! Z.to_nat n = None))
  end.
Proof.
  intros Hnums absent.
  induction Hnums as [|n nums Hn _ IH]; cbn [scan_chapter]; [constructor|].
  rewrite py_index_nonneg by exact Hn.
  destruct (pages !! Z.to_nat n) as [[t|]|] eqn:Hp.
  - destruct (contains (str_lower chapter_name) (str_lower t)) eqn:Hc.
    + exists [], nums. split; [reflexivity | split; [constructor|]].
      split; [exact Hn|]. exists t. split; [exact Hp|].
      apply contains_spec. exact Hc.
    + assert (Hhere : page_has pages absent n).
      { split; [exact Hn|]. exists t. split; [exact Hp|].
        unfold absent. rewrite <- contains_spec. congruence. }
      destruct (scan_chapter str_lower pages chapter_name nums)
        as [[m|]|e].
      * destruct IH as (before & after & -> & Hb & Hm).
        exists (n :: before), after. split; [reflexivity|].
        split; [constructor; assumption | exact Hm].
      * constructor; assumption.
      * destruct IH as (before & m & after & -> & Hb & Hm).
        exists (n :: before), m, after. split; [reflexivity|].
        split; [constructor; assumption | exact Hm].
  - exists [], n, nums. split; [reflexivity | split; [constructor|]].
    left. split; [reflexivity | split; assumption].
  - exists [], n, nums. split; [reflexivity | split; [constructor|]].
    right. split; [reflexivity | exact Hp].
Qed.

(** X8. On a document that opens, [search_chapter] goes through all the
    pages in order.  It returns the first page whose lowered text holds
    the lowered chapter name, when every page before it could be read;
    it returns [None] when no page holds it, and [None] with an error
    when a page that cannot be read comes before any match. *)
Theorem search_chapter_first_match (lib : library)
    (pdf_path chapter_name : pystr) (pages : list page) :
  lib pdf_path = Some pages ->
  let total_pages := Z.of_nat (length pages) in
  let found := fst (search_chapter str_lower lib pdf_path chapter_name) in
  let printed := snd (search_chapter str_lower lib pdf_path chapter_name) in
  let absent t := ~ part_of (str_lower chapter_name) (str_lower t) in
  let absent_before n :=
    forall j, 0 <= j < n -> page_has pages absent j in
  (exists k,
      found = Some k
      /\ printed = [SearchingFor chapter_name; FoundOnPage (k + 1)]
      /\ 0 <= k < total_pages
      /\ page_has pages
           (fun t => part_of (str_lower chapter_name) (str_lower t)) k
      /\ absent_before k)
  \/ (found = None
      /\ printed = [SearchingFor chapter_name; ChapterNotFound chapter_name]
      /\ absent_before total_pages)
  \/ (found = None
      /\ printed = [SearchingFor chapter_name;
                    ErrorSearchingChapter PdfReadError]
      /\ exists j,
           0 <= j < total_pages /\ page_fails pages j /\ absent_before j).
Proof.
  intros Hlib total_pages. unfold search_chapter. rewrite Hlib.
  fold total_pages.
  pose proof (scan_chapter_spec pages chapter_name (range 0 total_pages)
                (range_nonneg 0 total_pages ltac:(lia))) as Hscan.
  cbn zeta in Hscan.
  destruct (scan_chapter str_lower pages chapter_name (range 0 total_pages))
    as [[n|]|e]; cbn [fst snd].
  - left. destruct Hscan as (before & after & Hr & Hb & Hn).
    destruct (range_split _ _ _ _ _ Hr) as (_ & Hlt & Hin).
    exists n. split; [reflexivity | split; [reflexivity|]].
    split; [destruct Hn as [Hn _]; lia | split; [exact Hn|]].
    intros j Hj. rewrite Forall_forall in Hb. apply Hb, Hin. lia.
  - right. left. split; [reflexivity | split; [reflexivity|]].
    intros j Hj. rewrite Forall_forall in Hscan.
    apply Hscan, range_elem. lia.
  - right. right. destruct Hscan as (before & n & after & Hr & Hb & Hn).
    destruct (range_split _ _ _ _ _ Hr) as (Hnn & Hlt & Hin).
    assert (Hn0 : 0 <= n) by lia.
    destruct Hn as [[-> Hfail] | [_ Hnone]].
    + split; [reflexivity | split; [reflexivity|]].
      exists n. split; [lia | split; [exact Hfail|]].
      intros j Hj. rewrite Forall_forall in Hb. apply Hb, Hin. lia.
    + exfalso. apply (lookup_in_document pages n); [|exact Hnone].
      subst total_pages. lia.
Qed.

(** X9. The empty chapter name is found on the first page: when the
    first page of the document can be read, [search_chapter] returns
    page 0 for it, whatever the page says. *)
Theorem empty_chapter_name_is_first_page (lib : library) (pdf_path : pystr)
    (t : pystr) (rest : list page) :
  lib pdf_path = Some (Some t :: rest) ->
  str_lower [] = [] ->
  search_chapter str_lower lib pdf_path []
  = (Some 0, [SearchingFor []; FoundOnPage 1]).
Proof.
  intros Hlib Hlower. unfold search_chapter. rewrite Hlib.
  rewrite range_cons by (cbn [length]; lia).
  cbn [scan_chapter]. unfold py_index. cbn [Z.ltb Z.compare Z.to_nat lookup].
  rewrite Hlower.
  assert (Hc : contains [] (str_lower t) = true)
    by (apply contains_spec; exists [], (str_lower t); reflexivity).
  change ((Some t :: rest) !! Z.to_nat 0) with (Some (Some t)).
  cbn beta iota. rewrite Hc. reflexivity.
Qed.

End SearchFacts.

Lemma find_introduction_first_match_witness :
  let lib := fun _ : pystr =>
    Some [Some (py "Cover"); Some (py "PREFACE. Hello"); None] in
  find_introduction lower lib (py "book.pdf")
  = (1, [SearchingIntroduction 3; FoundKeyword (py "preface") 2]).
Proof.
  intros lib.
  destruct (find_introduction_first_match lower lib (py "book.pdf") _ eq_refl)
    as [_ [(keyword & Hp & _) | [(Hk & _) | (Hk & _)]]].
  - reflexivity.
  - vm_compute in Hk. discriminate.
  - vm_compute in Hk. discriminate.
Defined.

Lemma search_chapter_first_match_witness :
  let lib := fun _ : pystr =>
    Some [Some (py "Cover"); Some (py "Chapter One"); None] in
  search_chapter lower lib (py "book.pdf") (py "CHAPTER one")
  = (Some 1, [SearchingFor (py "CHAPTER one"); FoundOnPage 2])
  /\ fst (search_chapter lower lib (py "book.pdf") (py "two")) = None.
Proof.
  intros lib.
  destruct (search_chapter_first_match lower lib (py "book.pdf")
              (py "CHAPTER one") _ eq_refl)
    as [(k & Hf & _) | [(Hf & _) | (Hf & _)]];
    destruct (search_chapter_first_match lower lib (py "book.pdf")
                (py "two") _ eq_refl)
    as [(k' & Hf' & _) | [(Hf' & _) | (Hf' & _)]];
    try (vm_compute in Hf; discriminate);
    try (vm_compute in Hf'; discriminate);
    (split; [reflexivity | exact Hf']).
Defined.

Lemma empty_chapter_name_is_first_page_witness :
  search_chapter lower sample_library (py "book.pdf") []
  = (Some 0, [SearchingFor []; FoundOnPage 1]).
Proof.
  apply (empty_chapter_name_is_first_page lower sample_library
           (py "book.pdf") (py "Hi. Yo")
           [Some (py "B!"); Some (py "C"); Some []]);
    reflexivity.
Defined.

(* ===================================================================== *)
(** ** Segmenter and NarrationTask: further properties *)
(* ===================================================================== *)

(** Every text has a reading, whose units are those of [segment]. *)
Lemma segment_reading (T : pystr) :
  exists gus last_gap, map snd gus = segment T /\ reading T gus last_gap.
Proof.
  destruct (re_split_glue T) as (p0 & rs & Hs & HT & Hp0 & Hrs & _).
  assert (Hnil : discarded []) by constructor.
  destruct (weave_pieces rs p0 [] Hnil Hp0 Hrs) as
    (gus & lg & Hmap & Hw & Hlg & Hd & _ & Htl & Hspk).
  cbn [app] in Hw. rewrite <- HT in Hw.
  exists gus, lg. split.
  - unfold segment. rewrite Hs. exact Hmap.
  - repeat split; assumption.
Qed.

Lemma weave_app (g1 g2 : list (pystr * pystr)) (lg : pystr) :
  weave (g1 ++ g2) lg
  = concat (map (fun gu => fst gu ++ snd gu) g1) ++ weave g2 lg.
Proof.
  unfold weave. rewrite map_app, concat_app, <- app_assoc. reflexivity.
Qed.

(** X10. Segmentation works sentence by sentence: cutting a text at a
    terminal punctuation mark and segmenting the two parts gives the same
    units, in the same order, as segmenting the whole. *)
Theorem segment_splits_at_punctuation (a b : pystr) (c : char) :
  is_terminal c = true ->
  segment (a ++ c :: b) = segment a ++ segment b.
Proof.
  intros Hc.
  destruct (segment_reading a)
    as (ga & lga & Hma & Ha & Hlga & Hda & Hta & Hsa).
  destruct (segment_reading b)
    as (gb & lgb & Hmb & Hb & Hlgb & Hdb & Htb & Hsb).
  rewrite <- Hma, <- Hmb.
  assert (Hjoin : discarded (lga ++ [c])).
  { apply Forall_app. split; [exact Hlga|]. constructor; [auto|constructor]. }
  destruct gb as [|[g1 u1] gb'].
  - rewrite app_nil_r. symmetry.
    apply (segment_determined (a ++ c :: b) ga (lga ++ c :: lgb)).
    unfold weave in Hb. cbn in Hb. subst b.
    repeat split; try assumption.
    + rewrite Ha at 1. unfold weave. rewrite <- app_assoc. reflexivity.
    + change (c :: lgb) with ([c] ++ lgb). rewrite app_assoc.
      apply Forall_app. split; assumption.
  - symmetry.
    transitivity (map snd (ga ++ (lga ++ c :: g1, u1) :: gb'));
      [rewrite map_app; reflexivity|].
    apply (segment_determined (a ++ c :: b)
             (ga ++ (lga ++ c :: g1, u1) :: gb') lgb).
    cbn [map fst snd tail] in Hdb, Htb, Hsb.
    apply Forall_cons in Hdb as [Hg1 Hdb].
    assert (Hgap : discarded (lga ++ c :: g1)).
    { change (c :: g1) with ([c] ++ g1). rewrite app_assoc.
      apply Forall_app. split; assumption. }
    assert (Hterm : has_terminal (lga ++ c :: g1)).
    { apply Exists_app. right. left. exact Hc. }
    repeat split.
    + rewrite weave_app, weave_cons. cbn [fst snd].
      rewrite Ha at 1. rewrite Hb, weave_cons. unfold weave at 1.
      rewrite <- !app_assoc. reflexivity.
    + exact Hlgb.
    + rewrite map_app. apply Forall_app. split; [exact Hda|].
      cbn [map fst]. constructor; assumption.
    + destruct ga as [|[g0 u0] ga']; cbn [app tail map fst] in *.
      * exact Htb.
      * rewrite map_app. apply Forall_app. split; [exact Hta|].
        cbn [map fst]. constructor; assumption.
    + rewrite map_app. apply Forall_app. split; [exact Hsa | exact Hsb].
Qed.

Lemma segment_splits_at_punctuation_witness :
  segment (py " Hi there" ++ 33%N :: py "? Bye. ")
  = segment (py " Hi there") ++ segment (py "? Bye. ")
  /\ segment (py " Hi there" ++ 33%N :: py "? Bye. ")
     = [py "Hi there"; py "Bye"].
Proof.
  split; [|vm_compute; reflexivity].
  apply (segment_splits_at_punctuation (py " Hi there") (py "? Bye. ")
           33%N).
  reflexivity.
Defined.

(** X11. A unit is a sentence of its own: segmenting any unit of a text
    gives back that unit alone. *)
Theorem segment_units_are_atomic (T u : pystr) :
  In u (segment T) -> segment u = [u].
Proof.
  intros Hin.
  destruct (segment_reading T) as (gus & lg & Hm & _ & _ & _ & _ & Hs).
  rewrite Hm in Hs. rewrite Forall_forall in Hs.
  destruct (Hs u) as (Hne & Hstrip & Hnt);
    [apply list_elem_of_In; exact Hin|].
  unfold segment, re_split. rewrite (split_from_no_terminal u Hnt []).
  cbn. unfold unit_of. rewrite Hstrip.
  destruct u; [rewrite Hstrip in Hne; congruence | reflexivity].
Qed.

Lemma segment_units_are_atomic_witness :
  segment (py "Two words") = [py "Two words"].
Proof.
  apply (segment_units_are_atomic (py "One. Two words ! Three")).
  vm_compute. tauto.
Defined.

Section PauseFacts.

Variable sink_ok : pystr -> bool.

(** X12. Whatever the schedule of pauses and stops and whatever the
    engine does, the units rendered so far are the first units of the
    text, in order: nothing is rendered twice, out of order, or that is
    not a unit of the text. *)
Theorem rendered_units_are_a_prefix (text : pystr) (sched : list flags) :
  exists later,
    said (speak_text sink_ok text sched) ++ later = segment text.
Proof.
  pose proof (speak_text_inv sink_ok text sched) as Hinv.
  unfold task_inv in Hinv.
  destruct (at_pc (speak_text sink_ok text sched)) as [s r|s r|s r|s r|f].
  - eauto.
  - eauto.
  - eauto.
  - eauto.
  - destruct f as [| |u].
    + exists []. rewrite app_nil_r. exact Hinv.
    + exact Hinv.
    + destruct Hinv as [_ [later Hl]]. eauto.
Qed.





Lemma step_remaining (t : task) (f : flags) :
  (length (remaining (at_pc (step sink_ok t f)))
   <= length (remaining (at_pc t)))%nat.
Proof.
  destruct t as [[s r|s r|s r|s r|fin] done]; unfold step;
    cbn [at_pc said].
  - destruct (f_stopped f); cbn; lia.
  - destruct (f_paused f); cbn; lia.
  - destruct (f_stopped f); cbn; lia.
  - destruct (f_stopped f); cbn; [lia|].
    unfold render. destruct (unit_of s) as [u|]; [destruct (sink_ok u)|];
      cbn; try lia; destruct r; cbn; lia.
  - cbn. lia.
Qed.

Lemma run_remaining (sched : list flags) :
  forall t,
    (length (remaining (at_pc (run_from sink_ok t sched)))
     <= length (remaining (at_pc t)))%nat.
Proof.
  induction sched as [|f sched IH]; intros t; [cbn; lia|].
  change (run_from sink_ok t (f :: sched))
    with (run_from sink_ok (step sink_ok t f) sched).
  etransitivity; [apply IH | apply step_remaining].
Qed.

Lemma start_remaining (text : pystr) :
  (length (remaining (at_pc (start text))) <= length (re_split text))%nat.
Proof. unfold start. cbn. destruct (re_split text); cbn; lia. Qed.

(** Left alone, a task that has not ended goes through the sentences it
    still has, from whatever point of the loop body it is at. *)
Lemma run_quiet_from (p : pc) (done : list pystr) (sched : list flags) :
  (forall f, p <> Done f) ->
  Forall is_quiet sched ->
  (3 * length (remaining p) <= length sched)%nat ->
  Forall (fun u => sink_ok u = true) (omap unit_of (remaining p)) ->
  run_from sink_ok (Task p done) sched
  = Task (Done Exhausted) (done ++ omap unit_of (remaining p)).
Proof.
  intros Hp Hq Hlen Hok.
  assert (Hrender : forall s r sched',
    Forall is_quiet sched' ->
    (3 * length r <= length sched')%nat ->
    Forall (fun u => sink_ok u = true) (omap unit_of (s :: r)) ->
    run_from sink_ok (render sink_ok s r done) sched'
    = Task (Done Exhausted) (done ++ omap unit_of (s :: r))).
  { intros s r sched' Hq' Hlen' Hok'. rewrite omap_unit_cons in Hok' |- *.
    unfold render. destruct (unit_of s) as [u|].
    - apply Forall_cons in Hok' as [Hu Hok']. rewrite Hu.
      rewrite run_quiet_exhausts by assumption.
      rewrite <- app_assoc. reflexivity.
    - apply run_quiet_exhausts; assumption. }
  destruct p as [s r|s r|s r|s r|f]; [| | | |exfalso; exact (Hp f eq_refl)];
    cbn [remaining length] in Hlen, Hok;
    destruct (quiet_three (length r) sched Hq Hlen)
      as (sched' & -> & Hq' & Hlen').
  - rewrite run_quiet_sentence. apply Hrender; assumption.
  - change (run_from sink_ok (Task (AtWhile s r) done)
              (quiet :: quiet :: quiet :: sched'))
      with (run_from sink_ok (render sink_ok s r done) (quiet :: sched')).
    apply Hrender; [constructor; [reflexivity|assumption] | cbn; lia
                   | assumption].
  - change (run_from sink_ok (Task (InWhile s r) done)
              (quiet :: quiet :: quiet :: sched'))
      with (run_from sink_ok (render sink_ok s r done) sched').
    apply Hrender; assumption.
  - change (run_from sink_ok (Task (AfterWhile s r) done)
              (quiet :: quiet :: quiet :: sched'))
      with (run_from sink_ok (render sink_ok s r done)
              (quiet :: quiet :: sched')).
    apply Hrender;
      [repeat (constructor; [reflexivity|]); assumption | cbn; lia
      | assumption].
Qed.

(** X14. Pausing loses nothing.  When the engine renders every unit of
    the text, then after any reads that never saw [stopped], however the
    task was paused and resumed, three quiet reads per sentence are
    enough for the task to end having rendered every unit of the text
    exactly once, in order. *)
Theorem resumed_narration_finishes (text : pystr) (pre post : list flags) :
  Forall (fun u => sink_ok u = true) (segment text) ->
  Forall not_stopped pre ->
  Forall is_quiet post ->
  (3 * length (re_split text) <= length post)%nat ->
  speak_text sink_ok text (pre ++ post)
  = Task (Done Exhausted) (segment text).
Proof.
  intros Hok Hpre Hq Hlen. unfold speak_text. rewrite run_from_app.
  pose proof (speak_text_inv sink_ok text pre) as Hinv.
  pose proof (run_remaining pre (start text)) as Hrem.
  pose proof (start_remaining text) as Hstart.
  unfold speak_text in Hinv.
  destruct (run_from sink_ok (start text) pre) as [p done] eqn:Ht.
  unfold task_inv in Hinv. cbn [at_pc said] in Hinv, Hrem.
  assert (Hnot_done :
    (forall f, p <> Done f) ->
    run_from sink_ok (Task p done) post
    = Task (Done Exhausted) (segment text)).
  { intros Hp.
    assert (Hseg : done ++ omap unit_of (remaining p) = segment text)
      by (destruct p as [| | | |f]; try exact Hinv;
          exfalso; exact (Hp f eq_refl)).
    rewrite run_quiet_from; [rewrite Hseg; reflexivity | exact Hp
                            | exact Hq | lia |].
    rewrite <- Hseg in Hok. apply Forall_app in Hok as [_ Hok]. exact Hok. }
  destruct p as [s r|s r|s r|s r|f];
    try (apply Hnot_done; intros f; discriminate).
  rewrite run_from_done. destruct f as [| |u].
  - rewrite Hinv. reflexivity.
  - exfalso.
    destruct (run_from_stopped_seen sink_ok pre (start text)) as [Hs|Hs].
    + rewrite Ht. reflexivity.
    + unfold start in Hs. cbn in Hs. destruct (re_split text); discriminate.
    + apply Exists_exists in Hs as (f & Hin & Hf).
      rewrite Forall_forall in Hpre. specialize (Hpre f Hin).
      unfold not_stopped, is_stopped in *. congruence.
  - exfalso. destruct Hinv as [Hu [later Hl]].
    rewrite <- Hl in Hok. apply Forall_app in Hok as [_ Hok].
    apply Forall_cons in Hok as [Hok _]. congruence.
Qed.

End PauseFacts.


Lemma resumed_narration_finishes_witness :
  let pause := Flags true false in
  let text := py "One. Two. Three" in
  let sink := fun _ : pystr => true in
  speak_text sink text ((repeat quiet 2 ++ repeat pause 5) ++ repeat quiet 9)
  = Task (Done Exhausted) [py "One"; py "Two"; py "Three"].
Proof.
  intros pause text sink.
  apply (resumed_narration_finishes sink text
           (repeat quiet 2 ++ repeat pause 5) (repeat quiet 9)).
  - repeat constructor.
  - repeat constructor.
  - repeat constructor.
  - vm_compute. lia.
Defined.

(* ===================================================================== *)
(** ** PlaybackController: the commands *)
(* ===================================================================== *)

(** X15. Command [p] toggles the pause: it flips [paused], prints
    [Paused] or [Resumed] accordingly, changes nothing else and lets the
    loop go on; two [p] in a row leave the flags, the position, the
    bookmarks and the threads as they were. *)
Theorem pause_command_toggles
    (py_int : pystr -> option Z) (restart : pystr -> Z -> M unit)
    (read_thread : nat) (pdf_path : pystr) (start_page total_pages : Z)
    (r : reader) (c1 c2 : pystr) (more : list pystr) :
  stdin r = c1 :: c2 :: more ->
  lower (strip c1) = py "p" ->
  lower (strip c2) = py "p" ->
  let step := command_step py_int restart read_thread pdf_path start_page
                total_pages in
  step r
  = (Ok Continue,
     Reader (negb (paused r)) (stopped r) (current_pdf r) (current_page r)
            (bookmark_file r) (c2 :: more)
            (stdout r ++ [if paused r then Resumed else Paused])
            (threads r))
  /\ step (snd (step r))
     = (Ok Continue,
        Reader (paused r) (stopped r) (current_pdf r) (current_page r)
               (bookmark_file r) more
               (stdout r ++ (if paused r then [Resumed; Paused]
                             else [Paused; Resumed]))
               (threads r)).
Proof.
  intros Hin H1 H2 step.
  assert (E1 : step r
    = (Ok Continue,
       Reader (negb (paused r)) (stopped r) (current_pdf r) (current_page r)
              (bookmark_file r) (c2 :: more)
              (stdout r ++ [if paused r then Resumed else Paused])
              (threads r))).
  { unfold step, command_step, catch, bind, input. rewrite Hin. cbn.
    rewrite H1. cbn. destruct (paused r); reflexivity. }
  split; [exact E1|]. rewrite E1. cbn [snd].
  unfold step, command_step, catch, bind, input. cbn. rewrite H2.
  rewrite decide_True by reflexivity.
  destruct (paused r); cbn; rewrite <- app_assoc; reflexivity.
Qed.

Lemma pause_command_toggles_witness :
  let r := Reader false false (Some (py "book.pdf")) 0 empty_store
             [py "p"; py " P "; py "s"] [] [Started 0 (py "text")] in
  let step := command_step ascii_int (read_pdf sample_library ascii_int []) 0 (py "book.pdf")
                0 4 in
  paused (snd (step r)) = true
  /\ paused (snd (step (snd (step r)))) = false
  /\ stdout (snd (step (snd (step r)))) = [Paused; Resumed].
Proof.
  intros r step.
  destruct (pause_command_toggles ascii_int (read_pdf sample_library ascii_int []) 0
              (py "book.pdf") 0 4 r (py "p") (py " P ") [py "s"]
              eq_refl eq_refl eq_refl) as [H1 H2].
  subst step. cbv zeta in H1, H2. rewrite H2, H1. cbn. auto.
Defined.

(** X16. Command [s] ends the command loop: [stopped] is set, [Stopped]
    is printed, the thread is joined and [handle_controls] returns
    without reading the rest of the input; the pause flag, the position
    and the bookmarks are left as they were. *)
Theorem stop_command_ends_the_loop (lib : library)
    (py_int : pystr -> option Z) (answer : bool)
    (alive : list bool) (read_thread : nat) (pdf_path : pystr)
    (start_page total_pages : Z) (r : reader) (command : pystr)
    (more : list pystr) :
  is_alive answer read_thread r = true ->
  stdin r = command :: more ->
  lower (strip command) = py "s" ->
  handle_controls lib py_int (answer :: alive) read_thread pdf_path start_page
    total_pages r
  = (Ok tt,
     Reader (paused r) true (current_pdf r) (current_page r)
            (bookmark_file r) more (stdout r ++ [StoppedMsg])
            (threads r ++ [Joined read_thread])).
Proof.
  intros Halive Hin Hcmd. cbn [handle_controls]. rewrite Halive.
  unfold command_step, catch, bind, input. rewrite Hin. cbn.
  rewrite Hcmd. reflexivity.
Qed.

Lemma stop_command_ends_the_loop_witness :
  let r := Reader true false (Some (py "book.pdf")) 0 empty_store
             [py "S"; py "n"] [] [Started 0 (py "text")] in
  let res := handle_controls sample_library ascii_int [true; true] 0 (py "book.pdf")
               0 4 r in
  fst res = Ok tt /\ stopped (snd res) = true /\ stdin (snd res) = [py "n"]
  /\ unjoined (threads (snd res)) = [].
Proof.
  intros r res. subst res.
  rewrite (stop_command_ends_the_loop sample_library ascii_int true [true] 0
             (py "book.pdf") 0 4 r (py "S") [py "n"]);
    [cbn; auto | reflexivity | reflexivity | reflexivity].
Defined.



(** X18. Command [n] sets [stopped], joins the thread and restarts at the
    page five further, or at the last page when that is nearer; when the
    restart returns the loop ends.  For a start page of the document the
    new page is a page of the document and not before the start page; on
    the last page [n] restarts the last page. *)
Theorem next_command_restarts_ahead
    (py_int : pystr -> option Z) (restart : pystr -> Z -> M unit)
    (read_thread : nat) (pdf_path : pystr) (start_page total_pages : Z)
    (r : reader) (command : pystr) (more : list pystr) :
  stdin r = command :: more ->
  lower (strip command) = py "n" ->
  let new_page := Z.min (start_page + 5) (total_pages - 1) in
  let r1 := Reader (paused r) true (current_pdf r) (current_page r)
                   (bookmark_file r) more (stdout r)
                   (threads r ++ [Joined read_thread]) in
  (forall r2,
      restart pdf_path new_page r1 = (Ok tt, r2) ->
      command_step py_int restart read_thread pdf_path start_page total_pages r
      = (Ok Break, r2))
  /\ (0 <= start_page < total_pages ->
      start_page <= new_page < total_pages
      /\ (start_page = total_pages - 1 -> new_page = start_page)).
Proof.
  intros Hin Hcmd new_page r1. split.
  - intros r2 Hrestart. subst new_page r1.
    unfold command_step, catch, bind, input, set_stopped, thread_join, log.
    rewrite Hin. cbn -[Z.min Z.add Z.sub]. rewrite Hcmd.
    do 3 rewrite decide_False by discriminate.
    rewrite decide_True by reflexivity.
    cbn -[Z.min Z.add Z.sub]. rewrite Hrestart. reflexivity.
  - subst new_page. lia.
Qed.

Lemma next_command_restarts_ahead_witness :
  let r := Reader false false (Some (py "book.pdf")) 0 empty_store
             [py "n"] [] [Started 0 (py "text")] in
  let res := command_step ascii_int (read_pdf sample_library ascii_int []) 0 (py "book.pdf")
               0 4 r in
  fst res = Ok Break
  /\ current_page (snd res) = 3
  /\ unjoined (threads (snd res)) = [].
Proof.
  intros r res.
  destruct (next_command_restarts_ahead ascii_int (read_pdf sample_library ascii_int []) 0
              (py "book.pdf") 0 4 r (py "n") [] eq_refl eq_refl)
    as [Hstep _].
  set (r1 := Reader false true (Some (py "book.pdf")) 0 empty_store []
                    [] ([Started 0 (py "text")] ++ [Joined 0])).
  assert (E : read_pdf sample_library ascii_int [] (py "book.pdf")
                (Z.min (0 + 5) (4 - 1)) r1
              = (Ok tt,
                 snd (read_pdf sample_library ascii_int [] (py "book.pdf") 3 r1)))
    by (vm_compute; reflexivity).
  subst res. rewrite (Hstep _ E).
  split; [reflexivity | split; vm_compute; reflexivity].
Defined.

(** X19. Input that is no command is ignored: the line is read and
    nothing else changes; at the end of the input nothing changes at
    all.  Either way the loop goes on. *)
Theorem other_input_is_ignored
    (py_int : pystr -> option Z) (restart : pystr -> Z -> M unit)
    (read_thread : nat) (pdf_path : pystr) (start_page total_pages : Z)
    (r : reader) :
  (stdin r = [] ->
   command_step py_int restart read_thread pdf_path start_page total_pages r
   = (Ok Continue, r))
  /\ (forall command more,
         stdin r = command :: more ->
         ~ In (lower (strip command))
              [py "p"; py "s"; py "b"; py "n"; py "j"] ->
         command_step py_int restart read_thread pdf_path start_page total_pages r
         = (Ok Continue,
            Reader (paused r) (stopped r) (current_pdf r) (current_page r)
                   (bookmark_file r) more (stdout r) (threads r))).
Proof.
  split.
  - intros Hin. unfold command_step, catch, bind, input. rewrite Hin.
    reflexivity.
  - intros command more Hin Hnot.
    assert (Hne : forall c,
              In c [py "p"; py "s"; py "b"; py "n"; py "j"] ->
              lower (strip command) <> c)
      by (intros c Hc E; apply Hnot; rewrite E; exact Hc).
    unfold command_step, catch, bind, input. rewrite Hin. cbn -[jump].
    do 5 (rewrite decide_False by (apply Hne; vm_compute; auto 10)).
    reflexivity.
Qed.

Lemma other_input_is_ignored_witness :
  let r := Reader false false (Some (py "book.pdf")) 0 empty_store
             [py "pause"; py ""] [] [Started 0 (py "text")] in
  let step := command_step ascii_int (read_pdf sample_library ascii_int []) 0 (py "book.pdf")
                0 4 in
  snd (step (snd (step (snd (step r)))))
  = Reader false false (Some (py "book.pdf")) 0 empty_store [] []
           [Started 0 (py "text")].
Proof.
  intros r step.
  destruct (other_input_is_ignored ascii_int (read_pdf sample_library ascii_int []) 0
              (py "book.pdf") 0 4 r) as [_ H1].
  specialize (H1 (py "pause") [py ""] eq_refl).
  fold step in H1. rewrite H1; [|vm_compute; intuition discriminate].
  cbn [snd].
  match goal with |- context [step (step ?r1).2] =>
    destruct (other_input_is_ignored ascii_int (read_pdf sample_library ascii_int []) 0
                (py "book.pdf") 0 4 r1) as [_ H2];
    specialize (H2 (py "") [] eq_refl); fold step in H2;
    rewrite H2; [|vm_compute; intuition discriminate]
  end.
  cbn [snd].
  match goal with |- context [step ?r2] =>
    destruct (other_input_is_ignored ascii_int (read_pdf sample_library ascii_int []) 0
                (py "book.pdf") 0 4 r2) as [H3 _];
    fold step in H3; rewrite H3; [|reflexivity]
  end.
  reflexivity.
Defined.

(** X20. Command [j] followed by an entry that [int] reads as the
    number of a page of the document prints the prompt, sets [stopped],
    joins the thread and restarts at that page, counted from 0; when the
    restart returns the loop ends.  At the end of the input the prompt
    is printed and nothing else changes: the loop goes on. *)
Theorem jump_command_restarts_at_page
    (py_int : pystr -> option Z) (restart : pystr -> Z -> M unit)
    (read_thread : nat) (pdf_path : pystr) (start_page total_pages : Z)
    (r : reader) (command : pystr) :
  lower (strip command) = py "j" ->
  (forall line more n,
      stdin r = command :: line :: more ->
      py_int (strip line) = Some n ->
      1 <= n <= total_pages ->
      forall r2,
        restart pdf_path (n - 1)
          (Reader (paused r) true (current_pdf r) (current_page r)
                  (bookmark_file r) more (stdout r ++ [PagePrompt])
                  (threads r ++ [Joined read_thread]))
        = (Ok tt, r2) ->
        command_step py_int restart read_thread pdf_path start_page total_pages r
        = (Ok Break, r2))
  /\ (stdin r = [command] ->
      command_step py_int restart read_thread pdf_path start_page total_pages r
      = (Ok Continue,
         Reader (paused r) (stopped r) (current_pdf r) (current_page r)
                (bookmark_file r) [] (stdout r ++ [PagePrompt])
                (threads r))).
Proof.
  intros Hcmd.
  assert (Hstep : forall rest,
    stdin r = command :: rest ->
    command_step py_int restart read_thread pdf_path start_page total_pages r
    = catch EOFError
        (jump py_int restart read_thread pdf_path total_pages)
        (ret Continue)
        (Reader (paused r) (stopped r) (current_pdf r) (current_page r)
                (bookmark_file r) rest (stdout r) (threads r))).
  { intros rest Hin. unfold command_step, catch, bind, input. rewrite Hin.
    cbn -[jump]. rewrite Hcmd. reflexivity. }
  split.
  - intros line more n Hin Hn Hrange r2 Hrestart.
    rewrite (Hstep _ Hin).
    unfold catch, jump, bind, print, input, ret, set_stopped, thread_join,
      log.
    cbn -[Z.sub]. rewrite Hn.
    assert (Htest : (0 <=? n - 1) && (n - 1 <? total_pages) = true)
      by (apply andb_true_iff; split;
          [apply Z.leb_le | apply Z.ltb_lt]; lia).
    rewrite Htest.
    unfold catch, bind, ret, set_stopped, thread_join, log.
    cbn -[Z.sub]. rewrite Hrestart. reflexivity.
  - intros Hin. rewrite (Hstep _ Hin).
    unfold catch, jump, bind, print, input, ret. cbn.
    rewrite decide_True by reflexivity. reflexivity.
Qed.

Lemma jump_command_restarts_at_page_witness :
  let r := Reader false false (Some (py "book.pdf")) 0 empty_store
             [py " J "; py " 2 "] [] [Started 0 (py "text")] in
  let res := command_step ascii_int (read_pdf sample_library ascii_int []) 0 (py "book.pdf")
               0 4 r in
  fst res = Ok Break
  /\ current_page (snd res) = 1
  /\ unjoined (threads (snd res)) = [].
Proof.
  intros r res.
  destruct (jump_command_restarts_at_page ascii_int (read_pdf sample_library ascii_int []) 0
              (py "book.pdf") 0 4 r (py " J ")) as [Hstep _];
    [vm_compute; reflexivity|].
  set (r1 := Reader false true (Some (py "book.pdf")) 0 empty_store []
                    ([] ++ [PagePrompt])
                    ([Started 0 (py "text")] ++ [Joined 0])).
  assert (E : read_pdf sample_library ascii_int [] (py "book.pdf") (2 - 1) r1
              = (Ok tt,
                 snd (read_pdf sample_library ascii_int [] (py "book.pdf") 1 r1)))
    by (vm_compute; reflexivity).
  subst res.
  rewrite (Hstep (py " 2 ") [] 2 eq_refl ltac:(vm_compute; reflexivity)
             ltac:(lia) _ E).
  split; [reflexivity | split; vm_compute; reflexivity].
Defined.

(* ===================================================================== *)
(** ** PlaybackController: invariants of the command loop *)
(* ===================================================================== *)

Lemma has_read_refl (r : reader) : has_read r r.
Proof. exists 0%nat. reflexivity. Qed.

Lemma has_read_trans (r1 r2 r3 : reader) :
  has_read r1 r2 -> has_read r2 r3 -> has_read r1 r3.
Proof.
  intros [k1 H1] [k2 H2]. exists (k1 + k2)%nat.
  rewrite H2, H1, drop_drop. reflexivity.
Qed.

Section LoopInvariant.

Variable lib : library.
Variable py_int : pystr -> option Z.

(** A property [I] of the reader, the exceptions [G] that may escape,
    and what is known of the arguments of [handle_controls] ([C]) and of
    [read_pdf] ([S]). *)
Variable I : reader -> Prop.
Variable G : exn -> Prop.
Variable C : pystr -> Z -> Z -> Prop.
Variable S : pystr -> Z -> Prop.

Hypothesis I_quiet :
  forall r r',
    bookmark_file r' = bookmark_file r -> threads r' = threads r ->
    has_read r r' -> I r -> I r'.

Hypothesis I_joined :
  forall tid r r',
    bookmark_file r' = bookmark_file r ->
    threads r' = threads r ++ [Joined tid] ->
    has_read r r' -> I r -> I r'.

Hypothesis I_saved :
  forall pdf_path r command more,
    stdin r = command :: more -> lower (strip command) = py "b" -> I r ->
    match save_bookmark pdf_path (current_page r) (bookmark_file r) with
    | (Ok _, s') =>
        forall r',
          bookmark_file r' = s' -> threads r' = threads r ->
          stdin r' = more -> I r'
    | (Raise e, _) => G e
    end.

Hypothesis I_started :
  forall pdf_path p text total_pages r r',
    S pdf_path p ->
    extract_text_from_pdf lib pdf_path p None
    = ((Some text, total_pages), None) ->
    truthy text = true ->
    bookmark_file r' = bookmark_file r ->
    threads r'
    = threads r ++ [Started (length (filter is_start (threads r))) text] ->
    stdin r' = stdin r ->
    I r -> I r' /\ C pdf_path p total_pages.

Hypothesis S_next :
  forall pdf_path start_page total_pages,
    C pdf_path start_page total_pages ->
    S pdf_path (Z.min (start_page + 5) (total_pages - 1)).

Hypothesis S_jump :
  forall pdf_path start_page total_pages p,
    C pdf_path start_page total_pages -> 0 <= p < total_pages ->
    S pdf_path p.

Lemma jump_invariant (restart : pystr -> Z -> M unit) (tid : nat)
    (pdf_path : pystr) (start_page total_pages : Z) (r0 r : reader) :
  restart_keeps I G S restart pdf_path ->
  C pdf_path start_page total_pages ->
  bookmark_file r = bookmark_file r0 -> threads r = threads r0 ->
  has_read r0 r -> I r0 ->
  I (snd (jump py_int restart tid pdf_path total_pages r))
  /\ forall e,
       fst (jump py_int restart tid pdf_path total_pages r) = Raise e ->
       e = EOFError \/ G e.
Proof.
  intros Hre HC Hb Ht [k Hk] HI.
  unfold jump, bind, catch, print, input. cbn.
  destruct (stdin r) as [|line more] eqn:Hin; cbn.
  - split; [|intros e [= <-]; auto].
    apply (I_quiet r0); [exact Hb | exact Ht | | exact HI].
    exists k. cbn. congruence.
  - assert (Hread : forall r',
              stdin r' = more -> has_read r0 r').
    { intros r' Hr'. exists (k + 1)%nat.
      rewrite Hr', <- drop_drop, <- Hk. rewrite ?Hin. reflexivity. }
    destruct (py_int (strip line)) as [n|]; cbn.
    + destruct ((0 <=? n - 1) && (n - 1 <? total_pages)) eqn:Hrange; cbn.
      * match goal with
        | |- context [restart pdf_path (n - 1) ?r1] =>
            destruct (Hre (n - 1) r1) as [HI2 HG2];
            [ apply (S_jump _ _ _ _ HC); lia
            | apply (I_joined tid r0);
              [ exact Hb | cbn; rewrite Ht; reflexivity
              | apply Hread; reflexivity | exact HI ]
            | destruct (restart pdf_path (n - 1) r1) as [[[]|e] r2] ]
        end; cbn in *.
        -- split; [exact HI2 | discriminate].
        -- case_decide; cbn.
           ++ split; [|discriminate].
              apply (I_quiet r2); [reflexivity | reflexivity
                                  | (exists 0%nat; reflexivity) | exact HI2].
           ++ split; [exact HI2 | intros e' [= <-]; right; auto].
      * split; [|discriminate].
        apply (I_quiet r0); [exact Hb | exact Ht | apply Hread; reflexivity
                            | exact HI].
    + split; [|discriminate].
      apply (I_quiet r0); [exact Hb | exact Ht | apply Hread; reflexivity
                          | exact HI].
Qed.

Lemma command_step_invariant (restart : pystr -> Z -> M unit) (tid : nat)
    (pdf_path : pystr) (start_page total_pages : Z) (r : reader) :
  restart_keeps I G S restart pdf_path ->
  C pdf_path start_page total_pages -> I r ->
  I (snd (command_step py_int restart tid pdf_path start_page total_pages r))
  /\ forall e,
       fst (command_step py_int restart tid pdf_path start_page total_pages r)
       = Raise e -> G e.
Proof.
  intros Hre HC HI. unfold command_step, catch, bind, input.
  destruct (stdin r) as [|line more] eqn:Hin; cbn -[jump do_save_bookmark].
  { split; [exact HI | discriminate]. }
  assert (Hread : forall r', stdin r' = more -> has_read r r').
  { intros r' Hr'. exists 1%nat. rewrite Hr', Hin. reflexivity. }
  repeat case_decide; cbn -[jump do_save_bookmark].
  - destruct (paused r); cbn; (split; [|discriminate]);
      apply (I_quiet r); auto.
  - split; [|discriminate]. apply (I_quiet r); auto.
  - pose proof (I_saved pdf_path r line more Hin ltac:(assumption) HI)
      as Hsave.
    unfold do_save_bookmark, get. cbn.
    destruct (save_bookmark pdf_path (current_page r) (bookmark_file r))
      as [[report|e] s']; cbn.
    + split; [|discriminate]. apply Hsave; reflexivity.
    + case_decide; cbn.
      * split; [|discriminate]. apply (I_quiet r); auto.
      * split; [apply (I_quiet r); auto | intros e' [= <-]; exact Hsave].
  - match goal with
    | |- context [restart pdf_path ?p ?r1] =>
        destruct (Hre p r1) as [HI2 HG2];
        [ apply (S_next _ _ _ HC)
        | apply (I_joined tid r); auto
        | destruct (restart pdf_path p r1) as [[[]|e] r2] ]
    end; cbn in *.
    + split; [exact HI2 | discriminate].
    + case_decide; cbn.
      * split; [exact HI2 | discriminate].
      * split; [exact HI2 | intros e' [= <-]; auto].
  - match goal with
    | |- context [jump py_int restart tid pdf_path total_pages ?r1] =>
        destruct (jump_invariant restart tid pdf_path start_page
                    total_pages r r1 Hre HC eq_refl eq_refl
                    (Hread r1 eq_refl) HI) as [HI2 HG2];
        destruct (jump py_int restart tid pdf_path total_pages r1) as [[fl|e] r2]
    end; cbn in *.
    + split; [exact HI2 | discriminate].
    + case_decide; cbn.
      * split; [exact HI2 | discriminate].
      * split; [exact HI2|]. intros e' [= <-].
        destruct (HG2 e eq_refl) as [->|Hg]; [congruence | exact Hg].
  - split; [|discriminate]. apply (I_quiet r); auto.
Qed.

Lemma read_pdf_with_invariant
    (controls : nat -> pystr -> Z -> Z -> M unit) (pdf_path : pystr) :
  (forall tid p total_pages r1,
      C pdf_path p total_pages -> I r1 ->
      I (snd (controls tid pdf_path p total_pages r1))
      /\ forall e,
           fst (controls tid pdf_path p total_pages r1) = Raise e -> G e) ->
  restart_keeps I G S (read_pdf_with lib controls) pdf_path.
Proof.
  intros Hc p r HS HI.
  unfold read_pdf_with, do_extract, bind, set_position, set_stopped,
    set_paused, print, thread_start, log, get, ret.
  destruct (extract_text_from_pdf lib pdf_path p None)
    as [[[text|] total] [e|]] eqn:Hx; cbn;
    try (destruct (truthy text) eqn:Htext); cbn;
    try (split; [apply (I_quiet r);
                 [reflexivity | reflexivity | (exists 0%nat; reflexivity) | exact HI]
                | discriminate]).
  - exfalso. unfold extract_text_from_pdf in Hx.
    destruct (extract_body lib pdf_path p None) as [[? ?]|?]; discriminate.
  - match goal with
    | |- context [controls ?tid pdf_path p total ?r1] =>
        destruct (I_started pdf_path p text total r r1 HS Hx Htext
                    eq_refl eq_refl eq_refl HI) as [HI1 HC1];
        exact (Hc tid p total r1 HC1 HI1)
    end.
Qed.

Lemma handle_controls_invariant (alive : list bool) :
  forall tid pdf_path start_page total_pages r,
    C pdf_path start_page total_pages -> I r ->
    I (snd (handle_controls lib py_int alive tid pdf_path start_page total_pages r))
    /\ forall e,
         fst (handle_controls lib py_int alive tid pdf_path start_page total_pages
                r) = Raise e -> G e.
Proof.
  assert (Hjoin : forall tid r,
            I r -> I (snd (thread_join tid r))
                   /\ forall e, fst (thread_join tid r) = Raise e -> G e).
  { intros tid r HI. unfold thread_join, log. cbn.
    split; [|discriminate].
    apply (I_joined tid r);
      [reflexivity | reflexivity | (exists 0%nat; reflexivity) | exact HI]. }
  induction alive as [|answer alive IH];
    intros tid pdf_path start_page total_pages r HC HI;
    [apply Hjoin; exact HI|].
  cbn [handle_controls].
  destruct (is_alive answer tid r); [|apply Hjoin; exact HI].
  destruct (command_step_invariant
              (read_pdf_with lib (handle_controls lib py_int alive)) tid pdf_path
              start_page total_pages r) as [HI1 HG1];
    [ apply read_pdf_with_invariant; intros; apply IH; assumption
    | exact HC | exact HI | ].
  destruct (command_step _ _ tid pdf_path start_page total_pages r)
    as [[[|]|e] r1]; cbn in *.
  - apply IH; assumption.
  - apply Hjoin. exact HI1.
  - split; [exact HI1 | intros e' [= <-]; auto].
Qed.

Lemma read_pdf_invariant (alive : list bool) (pdf_path : pystr) (p : Z)
    (r : reader) :
  S pdf_path p -> I r ->
  I (snd (read_pdf lib py_int alive pdf_path p r))
  /\ forall e, fst (read_pdf lib py_int alive pdf_path p r) = Raise e -> G e.
Proof.
  intros HS HI.
  apply (read_pdf_with_invariant (handle_controls lib py_int alive) pdf_path);
    [|exact HS | exact HI].
  intros tid q total_pages r1. apply handle_controls_invariant.
Qed.

End LoopInvariant.

(** A bookmark file that loads as a mapping still does after
    [read_pdf], and nothing is raised. *)
Lemma read_pdf_keeps_mapping (lib : library)
    (py_int : pystr -> option Z) (alive : list bool)
    (pdf_path : pystr) (start_page : Z) (r : reader) :
  loads_mapping (bookmark_file r) ->
  fst (read_pdf lib py_int alive pdf_path start_page r) = Ok tt
  /\ loads_mapping
       (bookmark_file (snd (read_pdf lib py_int alive pdf_path start_page r))).
Proof.
  intros Hmap.
  set (I := fun r' : reader => loads_mapping (bookmark_file r')).
  set (G := fun _ : exn => False).
  set (C := fun (_ : pystr) (_ _ : Z) => True).
  set (S := fun (_ : pystr) (_ : Z) => True).
  assert (Hquiet : forall r0 r',
            bookmark_file r' = bookmark_file r0 ->
            threads r' = threads r0 -> has_read r0 r' -> I r0 -> I r')
    by (intros r0 r' Hb _ _ H; unfold I; rewrite Hb; exact H).
  assert (Hjoined : forall (tid : nat) r0 r',
            bookmark_file r' = bookmark_file r0 ->
            threads r' = threads r0 ++ [Joined tid] ->
            has_read r0 r' -> I r0 -> I r')
    by (intros tid r0 r' Hb _ _ H; unfold I; rewrite Hb; exact H).
  assert (Hsaved : forall path r0 command more,
            stdin r0 = command :: more ->
            lower (strip command) = py "b" -> I r0 ->
            match save_bookmark path (current_page r0) (bookmark_file r0)
            with
            | (Ok _, s') =>
                forall r', bookmark_file r' = s' ->
                           threads r' = threads r0 -> stdin r' = more -> I r'
            | (Raise e, _) => G e
            end).
  { intros path r0 command more _ _ H.
    destruct (save_bookmark_keeps_mapping path (current_page r0)
                (bookmark_file r0) H) as [[report Hrep] Hkeep].
    destruct (save_bookmark path (current_page r0) (bookmark_file r0))
      as [[rep|e] s']; cbn in *; [|discriminate].
    intros r' Hb _ _. unfold I. rewrite Hb. exact Hkeep. }
  assert (Hstarted : forall path p text total r0 r',
            S path p ->
            extract_text_from_pdf lib path p None
            = ((Some text, total), None) ->
            truthy text = true ->
            bookmark_file r' = bookmark_file r0 ->
            threads r'
            = threads r0
              ++ [Started (length (filter is_start (threads r0))) text] ->
            stdin r' = stdin r0 ->
            I r0 -> I r' /\ C path p total)
    by (intros path p text total r0 r' _ _ _ Hb _ _ H;
        split; [unfold I; rewrite Hb; exact H | exact Logic.I]).
  destruct (read_pdf_invariant lib py_int I G C S Hquiet Hjoined Hsaved Hstarted
              (fun _ _ _ _ => Logic.I) (fun _ _ _ _ _ _ => Logic.I)
              alive pdf_path start_page r Logic.I Hmap) as [HI HG].
  split; [|exact HI].
  destruct (fst (read_pdf lib py_int alive pdf_path start_page r))
    as [[]|e] eqn:E; [reflexivity|]. destruct (HG e eq_refl).
Qed.

(** X21. With a bookmark file that loads as a mapping (a missing or
    corrupt file does), no exception escapes [read_pdf], whatever is
    typed and whatever [is_alive()] answers, however long the command
    loop is followed; and the bookmark file still loads as a mapping.
    Nothing is said of the loop ending. *)
Theorem read_pdf_never_raises (lib : library)
    (py_int : pystr -> option Z) (alive : list bool)
    (pdf_path : pystr) (start_page : Z) (r : reader) :
  loads_mapping (bookmark_file r) ->
  (forall e, fst (read_pdf lib py_int alive pdf_path start_page r) <> Raise e)
  /\ loads_mapping
       (bookmark_file
          (snd (read_pdf lib py_int alive pdf_path start_page r))).
Proof.
  intros Hmap.
  destruct (read_pdf_keeps_mapping lib py_int alive pdf_path start_page r
              Hmap) as [Hok HI].
  split; [|exact HI].
  intros e He. rewrite Hok in He. discriminate.
Qed.

Lemma read_pdf_never_raises_witness :
  let r0 := init (Store (Some Garbage) true DumpRaises)
              [py "b"; py "n"; py "b"; py "j"; py "x"; py "q"] in
  let res := read_pdf sample_library ascii_int
               [true; true; true; true; true] (py "book.pdf") 0 r0 in
  fst res <> Raise TypeError
  /\ loads_mapping (bookmark_file (snd res)).
Proof.
  intros r0 res.
  destruct (read_pdf_never_raises sample_library ascii_int
              [true; true; true; true; true] (py "book.pdf") 0 r0)
    as (Hno & Hkeep).
  - exists ∅. reflexivity.
  - split; [apply Hno | exact Hkeep].
Defined.

Lemma marker_not_empty (n : Z) : marker n <> [].
Proof. unfold marker. cbn. discriminate. Qed.

(** A text worth narrating comes from a start page of the document. *)
Lemma extract_truthy_valid (lib : library) (pdf_path : pystr) (p : Z)
    (text : pystr) (total_pages : Z) :
  extract_text_from_pdf lib pdf_path p None
  = ((Some text, total_pages), None) ->
  truthy text = true ->
  exists pages,
    lib pdf_path = Some pages
    /\ total_pages = Z.of_nat (length pages)
    /\ p < total_pages
    /\ text = marked_pages pages (range p total_pages).
Proof.
  unfold extract_text_from_pdf, extract_body.
  destruct (lib pdf_path) as [pages|]; [|discriminate]. cbn zeta.
  rewrite Z.min_id.
  destruct (extract_pages pages _ []) as [out|e] eqn:Hout; cbn;
    [|discriminate].
  intros [= -> <-] Htruthy.
  apply extract_pages_marked in Hout as [-> _]. cbn [app] in *.
  exists pages. split; [reflexivity | split; [reflexivity|]].
  split; [|reflexivity].
  destruct (Z_lt_le_dec p (Z.of_nat (length pages))) as [Hlt|Hle];
    [exact Hlt|].
  rewrite range_empty in Htruthy by exact Hle. discriminate.
Qed.

(** Threads that narrate from a page of the document stay so through
    [read_pdf]. *)
Lemma read_pdf_valid_starts (lib : library)
    (py_int : pystr -> option Z) (alive : list bool)
    (pdf_path : pystr) (start_page : Z) (r : reader) :
  0 <= start_page ->
  Forall (valid_start lib pdf_path) (threads r) ->
  Forall (valid_start lib pdf_path)
         (threads (snd (read_pdf lib py_int alive pdf_path start_page r))).
Proof.
  intros Hstart Hvalid.
  set (I := fun r' : reader => Forall (valid_start lib pdf_path) (threads r')).
  set (G := fun _ : exn => True).
  set (C := fun (path : pystr) (sp tp : Z) =>
              path = pdf_path /\ 0 <= sp < tp).
  set (S := fun (path : pystr) (p : Z) => path = pdf_path /\ 0 <= p).
  assert (Hquiet : forall r0 r',
            bookmark_file r' = bookmark_file r0 ->
            threads r' = threads r0 -> has_read r0 r' -> I r0 -> I r')
    by (intros r0 r' _ Ht _ H; unfold I; rewrite Ht; exact H).
  assert (Hjoined : forall (tid : nat) r0 r',
            bookmark_file r' = bookmark_file r0 ->
            threads r' = threads r0 ++ [Joined tid] ->
            has_read r0 r' -> I r0 -> I r').
  { intros tid r0 r' _ Ht _ H. unfold I. rewrite Ht.
    apply Forall_app. split; [exact H | repeat constructor]. }
  assert (Hsaved : forall path r0 command more,
            stdin r0 = command :: more ->
            lower (strip command) = py "b" -> I r0 ->
            match save_bookmark path (current_page r0) (bookmark_file r0)
            with
            | (Ok _, s') =>
                forall r', bookmark_file r' = s' ->
                           threads r' = threads r0 -> stdin r' = more -> I r'
            | (Raise e, _) => G e
            end).
  { intros path r0 command more _ _ H.
    destruct (save_bookmark path (current_page r0) (bookmark_file r0))
      as [[rep|e] s']; [|exact Logic.I].
    intros r' _ Ht _. unfold I. rewrite Ht. exact H. }
  assert (Hstarted : forall path p text total r0 r',
            S path p ->
            extract_text_from_pdf lib path p None
            = ((Some text, total), None) ->
            truthy text = true ->
            bookmark_file r' = bookmark_file r0 ->
            threads r'
            = threads r0
              ++ [Started (length (filter is_start (threads r0))) text] ->
            stdin r' = stdin r0 ->
            I r0 -> I r' /\ C path p total).
  { intros path p text total r0 r' [-> Hp] Hx Htruthy _ Ht _ H.
    destruct (extract_truthy_valid lib pdf_path p text total Hx Htruthy)
      as (pages & Hlib & -> & Hlt & ->).
    split; [|split; [reflexivity | lia]].
    unfold I. rewrite Ht. apply Forall_app. split; [exact H|].
    constructor; [|constructor].
    exists pages, p. split; [exact Hlib | split; [lia | reflexivity]]. }
  assert (Hnext : forall path sp tp,
            C path sp tp -> S path (Z.min (sp + 5) (tp - 1)))
    by (intros path sp tp [-> Hsp]; split; [reflexivity | lia]).
  assert (Hjump : forall path sp tp p,
            C path sp tp -> 0 <= p < tp -> S path p)
    by (intros path sp tp p [-> Hsp] Hp; split; [reflexivity | lia]).
  destruct (read_pdf_invariant lib py_int I G C S Hquiet Hjoined Hsaved Hstarted
              Hnext Hjump alive pdf_path start_page r
              (conj eq_refl Hstart) Hvalid) as [HI _].
  exact HI.
Qed.

(** X22. Started from a page number that is not negative, [read_pdf]
    only ever narrates the document from one of its pages to its end:
    the text of every thread it starts, after any commands [n] and [j],
    is the marked pages from a page index of the document to the last
    page, so every marker in it shows the page's 1-based number. *)
Theorem narration_starts_on_a_page (lib : library)
    (py_int : pystr -> option Z) (alive : list bool)
    (pdf_path : pystr) (start_page : Z) (r : reader) :
  0 <= start_page ->
  Forall (valid_start lib pdf_path) (threads r) ->
  Forall (valid_start lib pdf_path)
         (threads (snd (read_pdf lib py_int alive pdf_path start_page r))).
Proof.
  intros Hstart Hvalid. apply Forall_forall. intros e He.
  pose proof (read_pdf_valid_starts lib py_int alive pdf_path start_page r Hstart
                Hvalid) as Hall.
  rewrite Forall_forall in Hall. exact (Hall e He).
Qed.

Lemma narration_starts_on_a_page_witness :
  let r0 := init empty_store [py "n"; py "j"; py "2"; py "s"] in
  let res := read_pdf sample_library ascii_int [true; true; true] (py "book.pdf") 0
               r0 in
  Forall (valid_start sample_library (py "book.pdf")) (threads (snd res))
  /\ length (filter is_start (threads (snd res))) = 3%nat.
Proof.
  intros r0 res. split; [|vm_compute; reflexivity].
  apply (narration_starts_on_a_page sample_library ascii_int [true; true; true]
           (py "book.pdf") 0 r0); [lia | constructor].
Defined.

(** X23. The bookmark file changes only on command [b]: when no line of
    the input is that command, [read_pdf] leaves the bookmark file as it
    found it, whatever else is typed; and the input it leaves is what
    remains of the input it found. *)
Theorem bookmarks_change_only_on_command (lib : library)
    (py_int : pystr -> option Z)
    (alive : list bool) (pdf_path : pystr) (start_page : Z) (r : reader) :
  Forall not_bookmark (stdin r) ->
  bookmark_file (snd (read_pdf lib py_int alive pdf_path start_page r))
  = bookmark_file r
  /\ has_read r (snd (read_pdf lib py_int alive pdf_path start_page r)).
Proof.
  intros Hnot.
  set (I := fun r' : reader =>
              bookmark_file r' = bookmark_file r /\ has_read r r').
  set (G := fun _ : exn => True).
  set (C := fun (_ : pystr) (_ _ : Z) => True).
  set (S := fun (_ : pystr) (_ : Z) => True).
  assert (Hquiet : forall r0 r',
            bookmark_file r' = bookmark_file r0 ->
            threads r' = threads r0 -> has_read r0 r' -> I r0 -> I r')
    by (intros r0 r' Hb _ Hread [Hb0 Hr0];
        split; [congruence | eapply has_read_trans; eassumption]).
  assert (Hjoined : forall (tid : nat) r0 r',
            bookmark_file r' = bookmark_file r0 ->
            threads r' = threads r0 ++ [Joined tid] ->
            has_read r0 r' -> I r0 -> I r')
    by (intros tid r0 r' Hb _ Hread [Hb0 Hr0];
        split; [congruence | eapply has_read_trans; eassumption]).
  assert (Hsaved : forall path r0 command more,
            stdin r0 = command :: more ->
            lower (strip command) = py "b" -> I r0 ->
            match save_bookmark path (current_page r0) (bookmark_file r0)
            with
            | (Ok _, s') =>
                forall r', bookmark_file r' = s' ->
                           threads r' = threads r0 -> stdin r' = more -> I r'
            | (Raise e, _) => G e
            end).
  { intros path r0 command more Hin Hcmd [_ [k Hk]]. exfalso.
    rewrite Forall_forall in Hnot. apply (Hnot command); [|exact Hcmd].
    apply (subseteq_drop k (stdin r)). rewrite <- Hk, Hin. left. }
  assert (Hstarted : forall path p text total r0 r',
            S path p ->
            extract_text_from_pdf lib path p None
            = ((Some text, total), None) ->
            truthy text = true ->
            bookmark_file r' = bookmark_file r0 ->
            threads r'
            = threads r0
              ++ [Started (length (filter is_start (threads r0))) text] ->
            stdin r' = stdin r0 ->
            I r0 -> I r' /\ C path p total).
  { intros path p text total r0 r' _ _ _ Hb _ Hin [Hb0 [k Hk]].
    split; [|exact Logic.I]. split; [congruence|]. exists k. congruence. }
  destruct (read_pdf_invariant lib py_int I G C S Hquiet Hjoined Hsaved Hstarted
              (fun _ _ _ _ => Logic.I) (fun _ _ _ _ _ _ => Logic.I)
              alive pdf_path start_page r Logic.I
              (conj eq_refl (has_read_refl r))) as [HI _].
  exact HI.
Qed.

Lemma bookmarks_change_only_on_command_witness :
  let r0 := init empty_store [py "n"; py "p"; py "j"; py "3"; py "s"] in
  bookmark_file
    (snd (read_pdf sample_library ascii_int [true; true; true; true] (py "book.pdf")
            0 r0))
  = empty_store.
Proof.
  intros r0.
  destruct (bookmarks_change_only_on_command sample_library ascii_int
              [true; true; true; true] (py "book.pdf") 0 r0) as [Hb _].
  - repeat (constructor; [vm_compute; discriminate|]). constructor.
  - exact Hb.
Defined.

(* ===================================================================== *)
(** ** The program *)
(* ===================================================================== *)

Lemma lift_run {A} (m : M A) (t : terminal) :
  fst (lift m t) = fst (m (rd t)) /\ rd (snd (lift m t)) = snd (m (rd t)).
Proof. unfold lift. destruct (m (rd t)) as [o r']. auto. Qed.

Lemma ask_nil (prompt : main_message) (t : terminal) :
  stdin (rd t) = [] ->
  fst (ask prompt t) = Raise EOFError /\ rd (snd (ask prompt t)) = rd t.
Proof.
  intros Hin. unfold ask, t_bind, own, lift, input. cbn. rewrite Hin.
  cbn. auto.
Qed.

Lemma ask_cons (prompt : main_message) (t : terminal) (line : pystr)
    (more : list pystr) :
  stdin (rd t) = line :: more ->
  exists shown',
    ask prompt t = (Ok line, Terminal (after_line (rd t) more) shown').
Proof.
  intros Hin. unfold ask, t_bind, own, lift, input. cbn. rewrite Hin.
  cbn. eauto.
Qed.

Lemma fresh_from_refl (n : nat) (r : reader) : fresh_from n r r.
Proof.
  split; [reflexivity | split; [reflexivity|]].
  exists 0%nat. split; [lia | reflexivity].
Qed.

Lemma fresh_from_read (n : nat) (r0 r r' : reader) (line : pystr)
    (more : list pystr) :
  fresh_from n r0 r -> stdin r = line :: more ->
  threads r' = threads r -> bookmark_file r' = bookmark_file r ->
  stdin r' = more ->
  fresh_from (S n) r0 r'.
Proof.
  intros (Ht & Hb & k & Hk & Hin) Hl Ht' Hb' Hin'.
  split; [congruence | split; [congruence|]].
  exists (k + 1)%nat. split; [lia|].
  rewrite Hin', <- drop_drop, <- Hin, Hl. reflexivity.
Qed.

Lemma fresh_from_short (n : nat) (r0 r : reader) :
  fresh_from n r0 r -> stdin r = [] -> input_short n r0.
Proof.
  intros (_ & _ & k & Hk & Hin) Hnil. unfold input_short.
  rewrite Hnil in Hin. symmetry in Hin.
  apply (f_equal length) in Hin. rewrite length_drop in Hin. cbn in Hin. lia.
Qed.

Lemma fresh_from_more (n n' : nat) (r0 r : reader) :
  (n <= n')%nat -> fresh_from n r0 r -> fresh_from n' r0 r.
Proof.
  intros Hn (Ht & Hb & k & Hk & Hin).
  split; [exact Ht | split; [exact Hb|]]. exists k. split; [lia | exact Hin].
Qed.

Section ProgramFacts.

Variable exists_pdf : pystr -> bool.
Variable lib : library.
Variable py_int : pystr -> option Z.
Variable str_lower : pystr -> pystr.
Variable alive : list bool.

Lemma find_introduction_nonneg (pdf_path : pystr) :
  0 <= fst (find_introduction str_lower lib pdf_path).
Proof.
  unfold find_introduction. destruct (lib pdf_path) as [pages|]; [|cbn; lia].
  pose proof (scan_introduction_spec str_lower pages
                (range 0 (Z.min 50 (Z.of_nat (length pages))))
                (range_nonneg 0 _ ltac:(lia))) as Hscan.
  destruct (scan_introduction str_lower pages _) as [[[keyword n]|]|e];
    cbn; try lia.
  destruct Hscan as (_ & _ & _ & _ & Hn & _). exact Hn.
Qed.

Lemma search_chapter_nonneg (pdf_path chapter_name : pystr) (k : Z) :
  fst (search_chapter str_lower lib pdf_path chapter_name) = Some k ->
  0 <= k.
Proof.
  unfold search_chapter. destruct (lib pdf_path) as [pages|];
    [|discriminate].
  pose proof (scan_chapter_spec str_lower pages chapter_name
                (range 0 (Z.of_nat (length pages)))
                (range_nonneg 0 _ ltac:(lia))) as Hscan.
  cbn zeta in Hscan.
  destruct (scan_chapter str_lower pages chapter_name _) as [[n|]|e];
    cbn; try discriminate.
  intros [= <-]. destruct Hscan as (_ & _ & _ & _ & Hn & _). exact Hn.
Qed.

(** One call of [read_pdf] from [main], seen from the reader. *)
Lemma lift_read_through (pdf_path : pystr) (p : Z) (n : nat)
    (r0 : reader) (t t' : terminal) (o : outcome unit) :
  0 <= p -> fresh_from n r0 (rd t) ->
  lift (read_pdf lib py_int alive pdf_path p) t = (o, t') ->
  read_through lib py_int alive pdf_path n r0 o (rd t').
Proof.
  intros Hp Hf Hm.
  destruct (lift_run (read_pdf lib py_int alive pdf_path p) t) as [Ho Hr].
  rewrite Hm in Ho, Hr. cbn [fst snd] in Ho, Hr.
  exists p, (rd t). auto.
Qed.

(** What the menu does, seen from the reader: the input ends at one of
    its two prompts, or it calls [read_pdf] once. *)
Lemma menu_cases (pdf_path : pystr) (n : nat) (r0 : reader)
    (t t' : terminal) (o : outcome unit) :
  fresh_from n r0 (rd t) ->
  exclusive (threads (rd t)) -> unjoined (threads (rd t)) = [] ->
  menu lib py_int str_lower alive pdf_path t = (o, t') ->
  (o = Raise EOFError
   /\ fresh_from (S n) r0 (rd t') /\ input_short (S n) r0)
  \/ read_through lib py_int alive pdf_path (n + 2) r0 o (rd t').
Proof.
  intros Hf Hex Hu Hm. unfold menu, t_bind at 1, own in Hm.
  cbn [fst snd] in Hm. unfold t_bind at 1 in Hm.
  set (t1 := Terminal (rd t) (shown t ++ [Own Menu])) in Hm.
  destruct (stdin (rd t)) as [|l1 rest] eqn:Hin.
  - left. destruct (ask_nil ChoicePrompt t1 Hin) as [Ho Hr].
    destruct (ask ChoicePrompt t1) as [o1 t2]. cbn in Ho, Hr. subst o1.
    injection Hm as <- <-. rewrite ?Hr. split; [reflexivity|].
    split; [apply (fresh_from_more n); [lia | exact Hf]|].
    eapply fresh_from_short; [|exact Hin].
    apply (fresh_from_more n); [lia | exact Hf].
  - destruct (ask_cons ChoicePrompt t1 l1 rest Hin) as [sh Hask].
    rewrite Hask in Hm. clear Hask. change (rd t1) with (rd t) in Hm.
    set (r1 := after_line (rd t) rest) in Hm.
    assert (Hf1 : fresh_from (S n) r0 r1)
      by (eapply fresh_from_read; [exact Hf | exact Hin | | |]; reflexivity).
    assert (Hread : forall p sh',
      0 <= p ->
      lift (read_pdf lib py_int alive pdf_path p) (Terminal r1 sh') = (o, t') ->
      read_through lib py_int alive pdf_path (n + 2) r0 o (rd t')).
    { intros p sh' Hp. apply lift_read_through; [exact Hp|].
      apply (fresh_from_more (S n)); [lia | exact Hf1]. }
    repeat case_decide.
    + right.
      pose proof (find_introduction_nonneg pdf_path) as Hk.
      destruct (find_introduction str_lower lib pdf_path) as [k printed].
      unfold t_bind, show_search in Hm. cbn [fst snd rd shown] in Hm.
      eapply Hread; [exact Hk | exact Hm].
    + right. eapply Hread; [|exact Hm]. lia.
    + unfold t_bind at 1 in Hm.
      destruct rest as [|l2 rest2] eqn:Hrest.
      * left.
        destruct (ask_nil ChapterPrompt (Terminal r1 sh) eq_refl) as [Ho Hr].
        destruct (ask ChapterPrompt (Terminal r1 sh)) as [o1 t2].
        cbn in Ho, Hr. subst o1. injection Hm as <- <-. rewrite ?Hr.
        split; [reflexivity | split; [exact Hf1|]].
        eapply fresh_from_short; [exact Hf1 | reflexivity].
      * right.
        destruct (ask_cons ChapterPrompt (Terminal r1 sh) l2 rest2 eq_refl)
          as [sh2 Hask].
        rewrite Hask in Hm. clear Hask. cbn [rd] in Hm.
        set (r2 := after_line r1 rest2) in Hm.
        assert (Hf2 : fresh_from (n + 2) r0 r2).
        { replace (n + 2)%nat with (S (S n)) by lia.
          eapply (fresh_from_read (S n) r0 r1);
            [exact Hf1 | reflexivity | | |]; reflexivity. }
        pose proof (search_chapter_nonneg pdf_path (strip l2)) as Hk.
        destruct (search_chapter str_lower lib pdf_path (strip l2))
          as [[k|] printed]; unfold t_bind, show_search, own in Hm;
          cbn [fst snd rd shown] in Hm;
          (eapply lift_read_through; [| |exact Hm]; [|exact Hf2]);
          [apply Hk; reflexivity | lia].
    + unfold t_bind at 1 in Hm.
      destruct rest as [|l2 rest2] eqn:Hrest.
      * left.
        destruct (ask_nil PageNumberPrompt (Terminal r1 sh) eq_refl)
          as [Ho Hr].
        destruct (ask PageNumberPrompt (Terminal r1 sh)) as [o1 t2].
        cbn in Ho, Hr. subst o1. injection Hm as <- <-. rewrite ?Hr.
        split; [reflexivity | split; [exact Hf1|]].
        eapply fresh_from_short; [exact Hf1 | reflexivity].
      * right.
        destruct (ask_cons PageNumberPrompt (Terminal r1 sh) l2 rest2
                    eq_refl) as [sh2 Hask].
        rewrite Hask in Hm. clear Hask. cbn [rd] in Hm.
        set (r2 := after_line r1 rest2) in Hm.
        assert (Hf2 : fresh_from (n + 2) r0 r2).
        { replace (n + 2)%nat with (S (S n)) by lia.
          eapply (fresh_from_read (S n) r0 r1);
            [exact Hf1 | reflexivity | | |]; reflexivity. }
        assert (Hex2 : exclusive (threads r2)) by exact Hex.
        assert (Hu2 : unjoined (threads r2) = []) by exact Hu.
        unfold t_catch in Hm. destruct (py_int (strip l2)) as [m|].
        -- pose proof (read_pdf_ok lib py_int alive pdf_path (Z.max 0 (m - 1)) r2
                         Hex2 Hu2) as (_ & _ & Hpost).
           destruct (lift_run (read_pdf lib py_int alive pdf_path (Z.max 0 (m - 1)))
                       (Terminal r2 sh2)) as [Ho Hr].
           cbn [rd] in Ho, Hr.
           destruct (lift (read_pdf lib py_int alive pdf_path (Z.max 0 (m - 1)))
                       (Terminal r2 sh2)) as [[[]|e] t3] eqn:Hl;
             cbn [fst snd] in *.
           ++ injection Hm as <- <-.
              eapply lift_read_through; [| |exact Hl]; [lia|exact Hf2].
           ++ rewrite <- Ho in Hpost. cbn in Hpost. subst e.
              rewrite decide_False in Hm by discriminate.
              injection Hm as <- <-.
              eapply lift_read_through; [| |exact Hl]; [lia|exact Hf2].
        -- unfold t_outcome in Hm. rewrite decide_True in Hm by reflexivity.
           unfold t_bind, own in Hm. cbn [fst snd rd shown] in Hm.
           eapply lift_read_through; [| |exact Hm]; [lia|exact Hf2].
    + right. unfold t_bind, own in Hm. cbn [fst snd rd shown] in Hm.
      eapply Hread; [|exact Hm]. lia.
Qed.

(** What the bookmark check does, seen from the reader. *)
Lemma resume_cases (pdf_path : pystr) (t t' : terminal) (o : outcome bool) :
  resume lib py_int alive pdf_path t = (o, t') ->
  match get_bookmark pdf_path (bookmark_file (rd t)) with
  | Raise e => o = Raise e /\ t' = t
  | Ok v =>
      match gt_zero v with
      | Raise e => o = Raise e /\ t' = t
      | Ok false => o = Ok false /\ t' = t
      | Ok true =>
          match stdin (rd t) with
          | [] => o = Raise EOFError /\ rd t' = rd t
          | answer :: more =>
              if decide (lower (strip answer) = py "y")
              then
                rd t'
                = snd (read_pdf lib py_int alive pdf_path (page_of v)
                         (after_line (rd t) more))
                /\ o = match fst (read_pdf lib py_int alive pdf_path (page_of v)
                                    (after_line (rd t) more)) with
                       | Ok _ => Ok true
                       | Raise e => Raise e
                       end
              else o = Ok false /\ rd t' = after_line (rd t) more
          end
      end
  end.
Proof.
  intros Hm. unfold resume, t_bind at 1 in Hm.
  unfold t_bind at 1, t_outcome at 1 in Hm.
  destruct (get_bookmark pdf_path (bookmark_file (rd t))) as [v|e];
    [|injection Hm as <- <-; auto].
  unfold t_bind at 1, t_outcome at 1 in Hm.
  destruct (gt_zero v) as [[|]|e];
    [|injection Hm as <- <-; auto|injection Hm as <- <-; auto].
  unfold t_bind at 1 in Hm.
  destruct (stdin (rd t)) as [|answer more] eqn:Hin.
  - destruct (ask_nil (ResumePrompt (page_of v + 1)) t Hin) as [Ho Hr].
    destruct (ask (ResumePrompt (page_of v + 1)) t) as [o1 t2].
    cbn in Ho, Hr. subst o1. injection Hm as <- <-. auto.
  - destruct (ask_cons (ResumePrompt (page_of v + 1)) t answer more Hin)
      as [sh Hask].
    rewrite Hask in Hm. clear Hask.
    case_decide; [|injection Hm as <- <-; auto].
    unfold t_bind, t_ret in Hm.
    destruct (lift_run (read_pdf lib py_int alive pdf_path (page_of v))
                (Terminal (after_line (rd t) more) sh)) as [Ho Hr].
    cbn [rd] in Ho, Hr.
    destruct (lift (read_pdf lib py_int alive pdf_path (page_of v))
                (Terminal (after_line (rd t) more) sh)) as [[[]|e] t3];
      cbn [fst snd] in Ho, Hr; injection Hm as <- <-; rewrite <- Ho;
      auto.
Qed.

Lemma gt_zero_page (v : json) : gt_zero v = Ok true -> 0 < page_of v.
Proof.
  destruct v as [|[|]|n| | |]; cbn; try discriminate; try lia.
  intros [= H]. apply Z.ltb_lt in H. exact H.
Qed.

(** What a run of the program does, seen from the reader: the input ends
    at one of its prompts, the file is not found, the bookmark cannot be
    looked up or compared, or [read_pdf] is called once, on the path
    typed and from a page that is not negative. *)
Lemma main_cases (s : store) (lines : list pystr) (o : outcome unit)
    (t' : terminal) :
  run_main exists_pdf lib py_int str_lower alive s lines = (o, t') ->
  threads (rd t') = [] /\ bookmark_file (rd t') = s
  /\ (o = Raise EOFError /\ (length lines <= 3)%nat
      \/ exists answer more,
           lines = answer :: more
           /\ (o = Ok tt /\ exists_pdf (strip answer) = false
               \/ exists e,
                    o = Raise e
                    /\ and_then (get_bookmark (strip answer) s) gt_zero
                       = Raise e))
  \/ exists answer more,
       lines = answer :: more
       /\ exists_pdf (strip answer) = true
       /\ read_through lib py_int alive (strip answer) 4 (init s lines) o (rd t').
Proof.
  intros Hm. unfold run_main, main, t_bind at 1, own at 1 in Hm.
  cbn [fst snd rd shown] in Hm. unfold t_bind at 1 in Hm.
  set (t0 := Terminal (init s lines) ([] ++ [Own Banner])) in Hm.
  destruct lines as [|answer more].
  - left.
    destruct (ask_nil PathPrompt t0 eq_refl) as [Ho Hr].
    destruct (ask PathPrompt t0) as [o1 t1]. cbn in Ho, Hr. subst o1.
    injection Hm as <- <-. rewrite ?Hr. cbn.
    split; [reflexivity | split; [reflexivity|]]. left. split; [auto | lia].
  - destruct (ask_cons PathPrompt t0 answer more eq_refl) as [sh Hask].
    rewrite Hask in Hm. clear Hask.
    change (rd t0) with (init s (answer :: more)) in Hm.
    set (r1 := after_line (init s (answer :: more)) more) in Hm.
    assert (Hf1 : fresh_from 1 (init s (answer :: more)) r1).
    { split; [reflexivity | split; [reflexivity|]].
      exists 1%nat. split; [lia | reflexivity]. }
    destruct (exists_pdf (strip answer)) eqn:Hexists; cbn [negb] in Hm.
    2:{ left. unfold own in Hm. injection Hm as <- <-. cbn.
        split; [reflexivity | split; [reflexivity|]].
        right. exists answer, more. split; [reflexivity|]. left. auto. }
    unfold t_bind at 1 in Hm.
    destruct (resume lib py_int alive (strip answer) (Terminal r1 sh))
      as [o1 t1] eqn:Hres.
    apply resume_cases in Hres. cbn [rd] in Hres.
    change (bookmark_file r1) with s in Hres.
    destruct (get_bookmark (strip answer) s) as [v|e] eqn:Hget.
    2:{ left. destruct Hres as [-> ->]. injection Hm as <- <-. cbn.
        split; [reflexivity | split; [reflexivity|]].
        right. exists answer, more. split; [reflexivity|].
        right. exists e. rewrite Hget. auto. }
    destruct (gt_zero v) as [[|]|e] eqn:Hgt.
    + change (stdin r1) with more in Hres.
      destruct more as [|a2 more2].
      * left. destruct Hres as [-> Hr]. injection Hm as <- <-.
        rewrite Hr. cbn.
        split; [reflexivity | split; [reflexivity|]].
        left. split; [auto | lia].
      * case_decide.
        -- right. exists answer, (a2 :: more2).
           split; [reflexivity | split; [exact Hexists|]].
           destruct Hres as [Hr Ho].
           exists (page_of v), (after_line r1 more2).
           split; [apply gt_zero_page in Hgt; lia|].
           split.
           { split; [reflexivity | split; [reflexivity|]].
             exists 2%nat. split; [lia | reflexivity]. }
           pose proof (read_pdf_ok lib py_int alive (strip answer) (page_of v)
                         (after_line r1 more2) exclusive_nil eq_refl)
             as (_ & _ & Hpost).
           destruct (fst (read_pdf lib py_int alive (strip answer) (page_of v)
                            (after_line r1 more2))) as [[]|e];
             subst o1; injection Hm as <- <-; auto.
        -- destruct Hres as [-> Hr].
           assert (Hf2 : fresh_from 2 (init s (answer :: a2 :: more2))
                           (rd t1)).
           { rewrite Hr. split; [reflexivity | split; [reflexivity|]].
             exists 2%nat. split; [lia | reflexivity]. }
           assert (Hex : exclusive (threads (rd t1)))
             by (rewrite Hr; apply exclusive_nil).
           assert (Hu : unjoined (threads (rd t1)) = [])
             by (rewrite Hr; reflexivity).
           destruct (menu_cases (strip answer) 2 _ t1 t' o Hf2 Hex Hu Hm)
             as [(-> & (Ht & Hb & _) & Hshort)|Hread].
           ++ left. split; [exact Ht | split; [exact Hb|]].
              left. split; [reflexivity | exact Hshort].
           ++ right. exists answer, (a2 :: more2).
              split; [reflexivity | split; [exact Hexists | exact Hread]].
    + destruct Hres as [-> ->].
      assert (Hf1' : fresh_from 2 (init s (answer :: more)) r1)
        by (apply (fresh_from_more 1); [lia | exact Hf1]).
      destruct (menu_cases (strip answer) 2 _ (Terminal r1 sh) t' o Hf1'
                  exclusive_nil eq_refl Hm)
        as [(-> & (Ht & Hb & _) & Hshort)|Hread].
      * left. split; [exact Ht | split; [exact Hb|]].
        left. split; [reflexivity | exact Hshort].
      * right. exists answer, more.
        split; [reflexivity | split; [exact Hexists | exact Hread]].
    + left. destruct Hres as [-> ->]. injection Hm as <- <-. cbn.
      split; [reflexivity | split; [reflexivity|]].
      right. exists answer, more. split; [reflexivity|].
      right. exists e. rewrite Hget. cbn. auto.
Qed.

(** X24. When the path typed names no file, the program says so and
    ends: it has read that one line only, has not looked at the bookmark
    file, has shown no menu and has started no narration. *)
Theorem missing_file_ends_the_program (s : store) (answer : pystr)
    (more : list pystr) :
  exists_pdf (strip answer) = false ->
  run_main exists_pdf lib py_int str_lower alive s (answer :: more)
  = (Ok tt,
     Terminal (init s more) [Own Banner; Own PathPrompt; Own FileNotFound]).
Proof.
  intros Hexists. unfold run_main, main, t_bind at 1, own at 1.
  cbn [fst snd rd shown]. unfold t_bind at 1.
  destruct (ask_cons PathPrompt (Terminal (init s (answer :: more))
                                          ([] ++ [Own Banner]))
              answer more eq_refl) as [sh Hask].
  pose proof Hask as Hshown. unfold ask, t_bind, own, lift, input in Hshown.
  cbn in Hshown. injection Hshown as Hshown.
  rewrite Hask, Hexists. cbn. rewrite <- Hshown. reflexivity.
Qed.

(** X25. Whatever the bookmark file holds and whatever is typed, every
    narration thread a run of the program starts narrates the document
    whose path was typed first, from one of its pages to its end. *)
Theorem program_narrates_valid_pages (s : store) (lines : list pystr)
    (answer : pystr) (more : list pystr) :
  lines = answer :: more ->
  Forall (valid_start lib (strip answer))
         (threads (rd (snd (run_main exists_pdf lib py_int str_lower alive s
                              lines)))).
Proof.
  intros Hlines.
  destruct (run_main exists_pdf lib py_int str_lower alive s lines) as [o t']
    eqn:Hm.
  apply main_cases in Hm. cbn [snd].
  destruct Hm as [(Ht & _)|(answer' & more' & Hl & _ & Hread)].
  - rewrite Ht. constructor.
  - assert (answer' = answer) as -> by congruence.
    destruct Hread as (p & r1 & Hp & (Ht & _) & _ & ->).
    apply read_pdf_valid_starts; [exact Hp|].
    rewrite Ht. constructor.
Qed.



End ProgramFacts.

Lemma missing_file_ends_the_program_witness :
  run_main (fun _ => false) sample_library ascii_int lower [] empty_store
    [py " nothing.pdf "; py "s"]
  = (Ok tt,
     Terminal (init empty_store [py "s"])
       [Own Banner; Own PathPrompt; Own FileNotFound]).
Proof.
  apply (missing_file_ends_the_program (fun _ => false) sample_library ascii_int lower
           [] empty_store (py " nothing.pdf ") [py "s"]).
  reflexivity.
Defined.

Lemma program_narrates_valid_pages_witness :
  let lines := [py "book.pdf"; py "4"; py "2"; py "n"; py "s"] in
  let res := run_main (fun _ => true) sample_library ascii_int lower [true; true]
               empty_store lines in
  Forall (valid_start sample_library (py "book.pdf")) (threads (rd (snd res)))
  /\ length (filter is_start (threads (rd (snd res)))) = 2%nat.
Proof.
  intros lines res. split; [|vm_compute; reflexivity].
  apply (program_narrates_valid_pages (fun _ => true) sample_library ascii_int lower
           [true; true] empty_store lines (py "book.pdf")
           [py "4"; py "2"; py "n"; py "s"]).
  vm_compute. reflexivity.
Defined.


